(** * applehealth_healthkit_llm_query.py: a shallow embedding and its properties

    The script scans a directory for Apple Health export files (.csv, .gpx,
    .fit), summarises each in a Python dict, renders the summaries in one
    prompt and streams the prompt to a local Ollama model.

    The embedding keeps the script's shape:
    - Python values are a first-order datatype [pyval]; a dict is an
      association list in insertion order, because [build_llm_prompt] iterates
      over a summary and prints dicts, both in that order;
    - exceptions are values of [BaseException]; a computation is a pair of the
      console and library events it performed and of its result or the
      exception it raised ([Py]);
    - what the script asks of the operating system, of the clock and of the
      third-party libraries (pandas, gpxpy, fitparse, ollama) is a field of
      the record [Env]: the script's functions are functions of an [Env]. *)

From Stdlib Require Import List String Ascii ZArith Bool Lia DecimalString.
Import ListNotations.

Local Open Scope list_scope.
Local Open Scope string_scope.

(** ** Python values *)

Module Python.

(** The values the script handles.  [PyObj] is any other object (a float, a
    numpy scalar, a datetime): the script never computes with one, it only
    formats it, so it is described by what [str()] and [repr()] give. *)
#[warnings="-register-all"]
Inductive pyval : Type :=
| PyNone
| PyBool (b : bool)
| PyInt (n : Z)
| PyStr (s : string)
| PyObj (str_text repr_text : string)
| PyList (xs : list pyval)
| PyDict (items : list (string * pyval)).

(** A dict with string keys, in insertion order. *)
Definition dict := list (string * pyval).

(** [d.get(k)] *)
Fixpoint dict_get (d : dict) (k : string) : option pyval :=
  match d with
  | [] => None
  | (k', v) :: rest => if String.eqb k' k then Some v else dict_get rest k
  end.

(** [d[k] = v]: an existing key keeps its place, a new key goes last. *)
Fixpoint dict_set (d : dict) (k : string) (v : pyval) : dict :=
  match d with
  | [] => [(k, v)]
  | (k', v') :: rest =>
      if String.eqb k' k then (k', v) :: rest else (k', v') :: dict_set rest k v
  end.

(** A dict display [{k1: v1, k2: v2, ...}] and [dict(zip(ks, vs))]. *)
Definition dict_of_items (kvs : list (string * pyval)) : dict :=
  fold_left (fun d kv => dict_set d (fst kv) (snd kv)) kvs [].

Definition dict_keys (d : dict) : list string := map fst d.

(** [v == s] for a string literal [s]. *)
Definition eq_str (v : option pyval) (s : string) : bool :=
  match v with Some (PyStr t) => String.eqb t s | _ => false end.

(** *** Formatting: [str()] and [repr()] *)

Definition str_of_Z (n : Z) : string := NilZero.string_of_int (Z.to_int n).

Definition hex_digit (n : nat) : ascii :=
  match n with
  | 0 => "0" | 1 => "1" | 2 => "2" | 3 => "3" | 4 => "4" | 5 => "5" | 6 => "6"
  | 7 => "7" | 8 => "8" | 9 => "9" | 10 => "a" | 11 => "b" | 12 => "c"
  | 13 => "d" | 14 => "e" | _ => "f"
  end%char.

Fixpoint string_mem (c : ascii) (s : string) : bool :=
  match s with
  | EmptyString => false
  | String c' r => Ascii.eqb c c' || string_mem c r
  end.

(** One character of a string's [repr] inside quotes [q].  Bytes from 128 up
    are the UTF-8 encoding of characters taken to be printable, and are kept:
    the few characters beyond ASCII that Python escapes (the no-break space
    and other non-printable ones) are outside this model. *)
Definition repr_char (q c : ascii) : string :=
  let n := nat_of_ascii c in
  if Ascii.eqb c q then String "\" (String c "")
  else if Ascii.eqb c "\" then "\\"
  else if Nat.eqb n 9 then "\t"
  else if Nat.eqb n 10 then "\n"
  else if Nat.eqb n 13 then "\r"
  else if (n <? 32)%nat || Nat.eqb n 127
       then String "\" (String "x" (String (hex_digit (n / 16)) (String (hex_digit (n mod 16)) "")))
  else String c "".

Fixpoint repr_chars (q : ascii) (s : string) : string :=
  match s with
  | EmptyString => ""
  | String c r => repr_char q c ++ repr_chars q r
  end.

Definition dquote : ascii := ascii_of_nat 34.

(** [repr(s)]: single quotes, unless [s] has a single quote and no double one. *)
Definition repr_str (s : string) : string :=
  let q := if string_mem "'" s && negb (string_mem dquote s) then dquote else "'"%char in
  String q (repr_chars q s ++ String q "").

Definition join (sep : string) (ls : list string) : string := String.concat sep ls.

Fixpoint py_repr (v : pyval) : string :=
  match v with
  | PyNone => "None"
  | PyBool b => if b then "True" else "False"
  | PyInt n => str_of_Z n
  | PyStr s => repr_str s
  | PyObj _ r => r
  | PyList xs => "[" ++ join ", " (map py_repr xs) ++ "]"
  | PyDict items =>
      "{" ++ join ", " (map (fun kv => repr_str (fst kv) ++ ": " ++ py_repr (snd kv)) items) ++ "}"
  end.

(** [str(v)], which is also what [f"{v}"] interpolates. *)
Definition py_str (v : pyval) : string :=
  match v with
  | PyStr s => s
  | PyObj s _ => s
  | _ => py_repr v
  end.

End Python.
Import Python.

(** ** Exceptions, and computations with a trace *)

Module Effects.

(** Errors, the instances of Python's [Exception].  [LibError] is an error
    class of a library ([pandas.errors.ParserError], [ollama.ResponseError],
    [httpx.ConnectError], [FileNotFoundError], ...), with its message. *)
Inductive Exception : Type :=
| KeyError (key : string)
| IndexError (msg : string)
| LibError (cls msg : string).

(** What a [raise] of the script can carry.  [SystemExit] (raised by
    [sys.exit]) derives from [BaseException] and not from [Exception]: an
    [except Exception] clause lets it through. *)
Inductive BaseException : Type :=
| SystemExit (code : Z)
| Exc (e : Exception).

(** [str(e)] *)
Definition str_of_Exception (e : Exception) : string :=
  match e with
  | KeyError k => repr_str k
  | IndexError m => m
  | LibError _ m => m
  end.

(** What a library call answers: a value, or the error it raises. *)
Inductive answer (A : Type) : Type :=
| Returns (a : A)
| Fails (e : Exception).
Arguments Returns {A} a.
Arguments Fails {A} e.

(** What the script does that can be seen from outside: text written to the
    console, and the calls that read a file or reach the model service. *)
Inductive event : Type :=
| Print (text : string)
| ReadCsv (path : string)
| OpenGpx (path : string)
| OpenFit (path : string)
| Chat (model : string) (messages : list (string * string)) (options : dict).

Inductive result (A : Type) : Type :=
| Ok (a : A)
| Raise (e : BaseException).
Arguments Ok {A} a.
Arguments Raise {A} e.

(** A computation: the events it performed, in order, and how it ended. *)
Definition Py (A : Type) : Type := list event * result A.

Definition ret {A} (a : A) : Py A := ([], Ok a).

Definition raise {A} (e : BaseException) : Py A := ([], Raise e).

Definition bind {A B} (m : Py A) (f : A -> Py B) : Py B :=
  match m with
  | (t, Ok a) => let (t', r) := f a in ((t ++ t')%list, r)
  | (t, Raise e) => (t, Raise e)
  end.

Definition emit (ev : event) : Py unit := ([ev], Ok tt).

(** A library call: logged, then answered by the environment. *)
Definition call {A} (ev : event) (a : answer A) : Py A :=
  ([ev], match a with Returns x => Ok x | Fails e => Raise (Exc e) end).

(** A computation with no event: a key lookup, a pandas reduction. *)
Definition lift {A} (a : answer A) : Py A :=
  ([], match a with Returns x => Ok x | Fails e => Raise (Exc e) end).

(** [try: body / except Exception as e: handler(e)] *)
Definition try_except_Exception {A} (body : Py A) (handler : Exception -> Py A) : Py A :=
  match body with
  | (t, Raise (Exc e)) => let (t', r) := handler e in ((t ++ t')%list, r)
  | other => other
  end.

Definition trace {A} (m : Py A) : list event := fst m.
Definition outcome {A} (m : Py A) : result A := snd m.

(** The status the interpreter exits with when the script's [main()] ends in
    [r]: 0 on return, the code of a [SystemExit], and 1 after the traceback of
    any other uncaught exception. *)
Definition exit_status (r : result unit) : Z :=
  match r with
  | Ok _ => 0
  | Raise (SystemExit code) => code
  | Raise (Exc _) => 1
  end%Z.

(** [for x in xs: acc = body(acc, x)] *)
Fixpoint for_each {A S} (xs : list A) (body : S -> A -> Py S) (acc : S) : Py S :=
  match xs with
  | [] => ret acc
  | x :: xs' => bind (body acc x) (for_each xs' body)
  end.

End Effects.
Import Effects.

Declare Scope py_scope.
Delimit Scope py_scope with py.
Notation "x <- m ;; k" := (bind m (fun x => k))
  (at level 61, m at next level, right associativity) : py_scope.
Notation "m ;;; k" := (bind m (fun _ => k))
  (at level 61, right associativity) : py_scope.
Local Open Scope py_scope.

(** ** [os.path], [str] methods, [fnmatch] (POSIX) *)

Module OsPath.

(** [s[s.rfind(c)+1:]]: what follows the last [c], all of [s] if there is none. *)
Fixpoint after_last (c : ascii) (s : string) : string :=
  match s with
  | EmptyString => ""
  | String a r =>
      if string_mem c r then after_last c r
      else if Ascii.eqb a c then r else s
  end.

(** [s[:s.rfind(c)+1]]: up to and with the last [c], empty if there is none. *)
Fixpoint upto_last (c : ascii) (s : string) : string :=
  match s with
  | EmptyString => ""
  | String a r =>
      if string_mem c r then String a (upto_last c r)
      else if Ascii.eqb a c then String a "" else ""
  end.

Definition basename (p : string) : string := after_last "/" p.

Fixpoint all_char (c : ascii) (s : string) : bool :=
  match s with
  | EmptyString => true
  | String a r => Ascii.eqb a c && all_char c r
  end.

(** [s.rstrip(c)] *)
Fixpoint rstrip (c : ascii) (s : string) : string :=
  match s with
  | EmptyString => ""
  | String a r => if all_char c s then "" else String a (rstrip c r)
  end.

(** [s.startswith(pre)] *)
Fixpoint startswith (pre s : string) : bool :=
  match pre with
  | EmptyString => true
  | String a pre' =>
      match s with
      | EmptyString => false
      | String b s' => Ascii.eqb a b && startswith pre' s'
      end
  end.

Fixpoint endswith_char (c : ascii) (s : string) : bool :=
  match s with
  | EmptyString => false
  | String a EmptyString => Ascii.eqb a c
  | String _ r => endswith_char c r
  end.

(** [os.path.join(a, b)] *)
Definition join (a b : string) : string :=
  if startswith "/" b then b
  else if String.eqb a "" || endswith_char "/" a then a ++ b
  else a ++ "/" ++ b.

(** [os.path.split(p)] *)
Definition split (p : string) : string * string :=
  let head := upto_last "/" p in
  let tail := after_last "/" p in
  (if negb (String.eqb head "") && negb (all_char "/" head) then rstrip "/" head else head,
   tail).

(** [s.lstrip('.')] *)
Fixpoint lstrip_dots (s : string) : string :=
  match s with
  | String "." r => lstrip_dots r
  | _ => s
  end.

(** [os.path.splitext(p)]: the extension starts at the last dot of the last
    component, if a character other than a dot comes before it there. *)
Definition splitext (p : string) : string * string :=
  let rest := lstrip_dots (basename p) in
  if string_mem "." rest then
    let ext := String "." (after_last "." rest) in
    (substring 0 (String.length p - String.length ext) p, ext)
  else (p, "").

Definition lower_char (c : ascii) : ascii :=
  let n := nat_of_ascii c in
  if (65 <=? n)%nat && (n <=? 90)%nat then ascii_of_nat (n + 32) else c.

(** [s.lower()], on ASCII letters. *)
Fixpoint lower (s : string) : string :=
  match s with
  | EmptyString => ""
  | String c r => String (lower_char c) (lower r)
  end.

(** [sub in s] *)
Fixpoint str_in (sub s : string) : bool :=
  startswith sub s ||
  match s with
  | EmptyString => false
  | String _ r => str_in sub r
  end.

(** [fnmatch.fnmatchcase(name, pat)] for patterns of literal characters, [*]
    and [?] (the script's patterns have no bracket). *)
Fixpoint fnmatchcase_pat (pat name : string) : bool :=
  match pat with
  | EmptyString => String.eqb name ""
  | String "*" pat' =>
      (fix star (n : string) : bool :=
         fnmatchcase_pat pat' n ||
         match n with
         | EmptyString => false
         | String _ n' => star n'
         end) name
  | String "?" pat' =>
      match name with
      | EmptyString => false
      | String _ n' => fnmatchcase_pat pat' n'
      end
  | String c pat' =>
      match name with
      | EmptyString => false
      | String a n' => Ascii.eqb a c && fnmatchcase_pat pat' n'
      end
  end.

Definition fnmatchcase (name pat : string) : bool := fnmatchcase_pat pat name.

(** [glob.has_magic(s)] *)
Definition has_magic (s : string) : bool :=
  string_mem "*" s || string_mem "?" s || string_mem "[" s.

(** [glob._ishidden(name)] *)
Definition ishidden (name : string) : bool :=
  match name with
  | String "." _ => true
  | _ => false
  end.

End OsPath.

(** ** What the libraries hand to the script *)

Module Libs.

(** *** pandas *)

Inductive dtype : Type := int64 | float64 | bool_ | object_.

(** [select_dtypes(include='number')] keeps the integer and float columns. *)
Definition is_number (t : dtype) : bool :=
  match t with
  | int64 | float64 => true
  | bool_ | object_ => false
  end.

Record Series : Type := { s_dtype : dtype; s_values : list pyval }.

(** A table as [read_csv] returns it: the header's names, each with the type
    pandas inferred, and the rows, each a list of cells. *)
Record DataFrame : Type := {
  df_columns : list (string * dtype);
  df_rows : list (list pyval)
}.

Definition columns (df : DataFrame) : list string := map fst (df_columns df).

(** [len(df)] *)
Definition len_df (df : DataFrame) : Z := Z.of_nat (List.length (df_rows df)).

(** The position and type of the first column named [col]. *)
Fixpoint find_column (cols : list (string * dtype)) (col : string) : option (nat * dtype) :=
  match cols with
  | [] => None
  | (c, t) :: rest =>
      if String.eqb c col then Some (O, t)
      else match find_column rest col with
           | Some (i, t') => Some (S i, t')
           | None => None
           end
  end.

(** [df[col]] *)
Definition df_getitem (df : DataFrame) (col : string) : answer Series :=
  match find_column (df_columns df) col with
  | Some (i, t) =>
      Returns {| s_dtype := t; s_values := map (fun row => nth i row PyNone) (df_rows df) |}
  | None => Fails (KeyError col)
  end.

(** [df.select_dtypes(include='number').columns] *)
Definition numeric_columns (df : DataFrame) : list string :=
  map fst (filter (fun ct => is_number (snd ct)) (df_columns df)).

(** [df.head(n).to_dict(orient='records')] *)
Definition head_records (n : nat) (df : DataFrame) : list pyval :=
  map (fun row => PyDict (dict_of_items (combine (columns df) row))) (firstn n (df_rows df)).

(** *** gpxpy *)

(** A child of an extension element: its tag, and its text (a str or None). *)
Record XmlElement : Type := { xml_tag : string; xml_text : pyval }.

Record GPXTrackPoint : Type := {
  pt_time : pyval;
  pt_latitude : pyval;
  pt_longitude : pyval;
  pt_elevation : pyval;
  pt_extensions : list (list XmlElement)
}.

Record GPXTrackSegment : Type := { seg_points : list GPXTrackPoint }.
Record GPXTrack : Type := { trk_segments : list GPXTrackSegment }.
Record GPX : Type := { gpx_tracks : list GPXTrack }.

(** *** fitparse *)

Record FieldData : Type := { fd_name : string; fd_value : pyval }.
Record DataMessage : Type := { mesg_name : string; mesg_fields : list FieldData }.
Record FitFile : Type := { fit_messages : list DataMessage }.

(** [fitfile.get_messages(name)] *)
Definition get_messages (f : FitFile) (name : string) : list DataMessage :=
  filter (fun m => String.eqb (mesg_name m) name) (fit_messages f).

(** *** ollama *)

Record Message : Type := { msg_content : option string }.

(** One chunk of a streamed response: the fields the script reads, each
    absent ([None]) or a str. *)
Record ChatChunk : Type := {
  chunk_response : option string;
  chunk_message : option Message
}.

(** What iterating over the response does: chunks one after the other, until
    the stream ends or the client raises an error.  An error of the call
    itself (service unreachable, unknown model) is a stream that starts with
    [StreamError]. *)
Inductive ChatStream : Type :=
| StreamEnd
| StreamError (e : Exception)
| StreamChunk (c : ChatChunk) (rest : ChatStream).

(** *** The clock *)

Record datetime : Type := {
  year : nat; month : nat; day : nat; hour : nat; minute : nat; second : nat
}.

Definition str_of_nat (n : nat) : string := NilZero.string_of_uint (Nat.to_uint n).

(** A number in at least [width] digits, zeros in front. *)
Fixpoint zfill (width : nat) (s : string) : string :=
  match width with
  | O => s
  | S w => if (String.length s <=? w)%nat then zfill w (String "0" s) else s
  end.

(** [d.strftime('%Y-%m-%d')], as the C library of Linux formats it: the
    month and the day on two digits, the year as it is (a year before 1000
    is not padded). *)
Definition strftime_Ymd (d : datetime) : string :=
  str_of_nat (year d) ++ "-" ++ zfill 2 (str_of_nat (month d)) ++ "-"
  ++ zfill 2 (str_of_nat (day d)).

End Libs.
Import Libs.

(** ** The environment of a run *)

Record Env : Type := {
  (** [datetime.now()] *)
  now : datetime;
  (** [os.path.abspath], which reads the working directory *)
  abspath : string -> string;
  (** the names in a directory ([[]] when it cannot be listed) *)
  listdir : string -> list string;
  (** [os.path.lexists] *)
  lexists : string -> bool;
  (** [os.path.isdir] *)
  isdir : string -> bool;
  (** the directories a directory name with wildcards stands for (glob's
      recursive call on the directory part of a pattern) *)
  glob_dirs : string -> list string;
  (** [pd.read_csv] *)
  read_csv : string -> answer DataFrame;
  (** [Series.min], [Series.max], [Series.mean] *)
  Series_min : Series -> answer pyval;
  Series_max : Series -> answer pyval;
  Series_mean : Series -> answer pyval;
  (** [open(path, 'r')] then [gpxpy.parse] *)
  gpxpy_parse : string -> answer GPX;
  (** [fitparse.FitFile(path)], decoded *)
  fitparse_FitFile : string -> answer FitFile;
  (** [ollama.chat(model=, messages=, options=, stream=True)] *)
  ollama_chat : string -> list (string * string) -> dict -> ChatStream
}.

(** ** [glob.glob] *)

(** [glob._glob1]: the names of [dirname] that match [pattern]; names that
    start with a dot are left out unless the pattern starts with one. *)
Definition glob1 (env : Env) (dirname pattern : string) : list string :=
  let names := listdir env dirname in
  let names :=
    if negb (OsPath.ishidden pattern)
    then filter (fun x => negb (OsPath.ishidden x)) names else names in
  filter (fun n => OsPath.fnmatchcase n pattern) names.

(** [glob._glob0]: a base name without wildcards. *)
Definition glob0 (env : Env) (dirname basename : string) : list string :=
  if String.eqb basename "" then (if isdir env dirname then [basename] else [])
  else if lexists env (OsPath.join dirname basename) then [basename] else [].

Definition glob_glob (env : Env) (pathname : string) : list string :=
  let (dirname, basename) := OsPath.split pathname in
  if negb (OsPath.has_magic pathname) then
    if negb (String.eqb basename "")
    then (if lexists env pathname then [pathname] else [])
    else (if isdir env dirname then [pathname] else [])
  else if String.eqb dirname "" then glob1 env "." basename
  else
    let dirs :=
      if negb (String.eqb dirname pathname) && OsPath.has_magic dirname
      then glob_dirs env dirname else [dirname] in
    let glob_in_dir := if OsPath.has_magic basename then glob1 env else glob0 env in
    flat_map (fun d => map (OsPath.join d) (glob_in_dir d basename)) dirs.

(** ** The script *)

(** [d[k]] *)
Definition getitem (d : dict) (k : string) : Py pyval :=
  lift (match dict_get d k with
        | Some v => Returns v
        | None => Fails (KeyError k)
        end).

(** [xs[i]], with Python's negative indices. *)
Definition list_getitem {A} (xs : list A) (i : Z) : Py A :=
  let n := Z.of_nat (List.length xs) in
  let j := if (i <? 0)%Z then (i + n)%Z else i in
  lift (if (j <? 0)%Z then Fails (IndexError "list index out of range")
        else match nth_error xs (Z.to_nat j) with
             | Some x => Returns x
             | None => Fails (IndexError "list index out of range")
             end).

Definition nonempty {A} (xs : list A) : bool :=
  match xs with [] => false | _ :: _ => true end.

(** The body of [summarize_csv]'s loop: [summary[col] = {'mean': ..., 'min':
    ..., 'max': ...}]. *)
Definition csv_column_stats (env : Env) (df : DataFrame) (summary : dict) (col : string)
  : Py dict :=
  s <- lift (df_getitem df col) ;;
  mean <- lift (Series_mean env s) ;;
  s <- lift (df_getitem df col) ;;
  min <- lift (Series_min env s) ;;
  s <- lift (df_getitem df col) ;;
  max <- lift (Series_max env s) ;;
  ret (dict_set summary col (PyDict (dict_of_items [("mean", mean); ("min", min); ("max", max)]))).

Definition summarize_csv (env : Env) (file_path : string) : Py dict :=
  df <- call (ReadCsv file_path) (read_csv env file_path) ;;
  let summary : dict := [] in
  let summary := dict_set summary "file" (PyStr (OsPath.basename file_path)) in
  let summary := dict_set summary "total_records" (PyInt (len_df df)) in
  let summary := dict_set summary "columns" (PyList (map PyStr (columns df))) in
  summary <-
    (if existsb (String.eqb "Date") (columns df) then
       s <- lift (df_getitem df "Date") ;;
       lo <- lift (Series_min env s) ;;
       s <- lift (df_getitem df "Date") ;;
       hi <- lift (Series_max env s) ;;
       ret (dict_set summary "date_range" (PyStr (py_str lo ++ " to " ++ py_str hi)))
     else ret (dict_set summary "date_range" (PyStr "N/A"))) ;;
  let numeric_cols := numeric_columns df in
  summary <- for_each numeric_cols (csv_column_stats env df) summary ;;
  ret (dict_set summary "sample" (PyList (head_records 10 df))).

(** The dict [summarize_gpx] builds for one point. *)
Definition gpx_point (point : GPXTrackPoint) : dict :=
  let pt := dict_of_items [("time", pt_time point); ("latitude", pt_latitude point);
                           ("longitude", pt_longitude point);
                           ("elevation", pt_elevation point)] in
  if nonempty (pt_extensions point) then
    fold_left
      (fun pt ext =>
         fold_left
           (fun pt child =>
              if OsPath.str_in "hr" (OsPath.lower (xml_tag child))
              then dict_set pt "heart_rate" (xml_text child) else pt)
           ext pt)
      (pt_extensions point) pt
  else pt.

Definition gpx_points (gpx : GPX) : list dict :=
  flat_map (fun track =>
    flat_map (fun segment => map gpx_point (seg_points segment)) (trk_segments track))
    (gpx_tracks gpx).

Definition summarize_gpx (env : Env) (file_path : string) : Py dict :=
  gpx <- call (OpenGpx file_path) (gpxpy_parse env file_path) ;;
  let points := gpx_points gpx in
  start_time <-
    (if nonempty points
     then p <- list_getitem points 0 ;; t <- getitem p "time" ;; ret (PyStr (py_str t))
     else ret (PyStr "N/A")) ;;
  end_time <-
    (if nonempty points
     then p <- list_getitem points (-1) ;; t <- getitem p "time" ;; ret (PyStr (py_str t))
     else ret (PyStr "N/A")) ;;
  ret (dict_of_items
         [("file", PyStr (OsPath.basename file_path));
          ("type", PyStr "gpx");
          ("total_points", PyInt (Z.of_nat (List.length points)));
          ("start_time", start_time);
          ("end_time", end_time);
          ("sample_points", PyList (map PyDict (firstn 10 points)))]).

(** The dict [summarize_fit] builds for one record. *)
Definition fit_record (record : DataMessage) : dict :=
  fold_left (fun rec d => dict_set rec (fd_name d) (fd_value d)) (mesg_fields record) [].

Definition summarize_fit (env : Env) (file_path : string) : Py dict :=
  fitfile <- call (OpenFit file_path) (fitparse_FitFile env file_path) ;;
  let records := map fit_record (get_messages fitfile "record") in
  fields <-
    (if nonempty records
     then r <- list_getitem records 0 ;; ret (PyList (map PyStr (dict_keys r)))
     else ret (PyList [])) ;;
  ret (dict_of_items
         [("file", PyStr (OsPath.basename file_path));
          ("type", PyStr "fit");
          ("total_records", PyInt (Z.of_nat (List.length records)));
          ("fields", fields);
          ("sample_records", PyList (map PyDict (firstn 10 records)))]).

(** The newline character. *)
Definition nl : string := String (ascii_of_nat 10) "".

(** ["=" * 40] *)
Definition rule : string := string_of_list_ascii (repeat "="%char 40).

(** The body of the loop over a tabular summary's keys: a line of statistics
    when the value under [col] is a dict. *)
Definition stats_line (summary : dict) (prompt : string) (col : string) : Py string :=
  v <- getitem summary col ;;
  match v with
  | PyDict stats =>
      mean <- getitem stats "mean" ;;
      min <- getitem stats "min" ;;
      max <- getitem stats "max" ;;
      ret (prompt ++ col ++ ": mean=" ++ py_str mean ++ ", min=" ++ py_str min
           ++ ", max=" ++ py_str max ++ nl)
  | _ => ret prompt
  end.

(** The body of [build_llm_prompt]'s loop over the summaries. *)
Definition render_summary (prompt : string) (summary : dict) : Py string :=
  file <- getitem summary "file" ;;
  let prompt := prompt ++ "File: " ++ py_str file ++ nl in
  prompt <-
    (if eq_str (dict_get summary "type") "gpx" then
       total_points <- getitem summary "total_points" ;;
       start_time <- getitem summary "start_time" ;;
       end_time <- getitem summary "end_time" ;;
       sample_points <- getitem summary "sample_points" ;;
       ret (prompt ++ "Type: GPX" ++ nl ++ "Total Points: " ++ py_str total_points ++ nl
            ++ "Start: " ++ py_str start_time ++ nl ++ "End: " ++ py_str end_time ++ nl
            ++ "Sample Points: " ++ py_str sample_points ++ nl)
     else if eq_str (dict_get summary "type") "fit" then
       total_records <- getitem summary "total_records" ;;
       fields <- getitem summary "fields" ;;
       sample_records <- getitem summary "sample_records" ;;
       ret (prompt ++ "Type: FIT" ++ nl ++ "Total Records: " ++ py_str total_records ++ nl
            ++ "Fields: " ++ py_str fields ++ nl
            ++ "Sample Records: " ++ py_str sample_records ++ nl)
     else
       total_records <- getitem summary "total_records" ;;
       let prompt := prompt ++ "Total Records: " ++ py_str total_records ++ nl in
       columns <- getitem summary "columns" ;;
       let prompt := prompt ++ "Columns: " ++ py_str columns ++ nl in
       date_range <- getitem summary "date_range" ;;
       let prompt := prompt ++ "Date Range: " ++ py_str date_range ++ nl in
       prompt <- for_each (dict_keys summary) (stats_line summary) prompt ;;
       sample <- getitem summary "sample" ;;
       ret (prompt ++ "Sample Rows:" ++ nl ++ py_str sample ++ nl)) ;;
  ret (prompt ++ nl ++ rule ++ nl).

(** The four default analysis prompts. *)
Definition default_prompts : string :=
  "Please provide a comprehensive analysis including:" ++ nl
  ++ "1. Notable patterns or trends" ++ nl
  ++ "2. Unusual findings" ++ nl
  ++ "3. Actionable health insights" ++ nl
  ++ "4. Areas for improvement" ++ nl.

(** [if user_query:] *)
Definition truthy_str (s : option string) : bool :=
  match s with
  | Some s => negb (String.eqb s "")
  | None => false
  end.

Definition build_llm_prompt (env : Env) (summaries : list dict) (user_query : option string)
  : Py string :=
  let today := strftime_Ymd (now env) in
  let prompt :=
    "Today's date is " ++ today ++ ". Always use this as the current date." ++ nl ++ nl
    ++ "Analyze this Apple Health CSV data and provide insights." ++ nl ++ nl in
  prompt <- for_each summaries render_summary prompt ;;
  if truthy_str user_query then
    ret (prompt ++ nl ++ "User Query: " ++ match user_query with Some q => q | None => "None" end
         ++ nl)
  else ret (prompt ++ default_prompts).

(** [chunk.get('response') or (chunk.get('message') or {}).get('content') or ''] *)
Definition chunk_text (chunk : ChatChunk) : string :=
  if truthy_str (chunk_response chunk) then
    match chunk_response chunk with Some s => s | None => "" end
  else
    let content :=
      match chunk_message chunk with
      | Some m => msg_content m
      | None => None
      end in
    if truthy_str content then match content with Some s => s | None => "" end
    else "".

(** The loop over the stream: [collected] as the loop leaves it, by return or
    by an error, and the loop's own events and outcome. *)
Fixpoint consume (stream : ChatStream) (collected : list string) : list string * Py unit :=
  match stream with
  | StreamEnd => (collected, ret tt)
  | StreamError e => (collected, raise (Exc e))
  | StreamChunk chunk rest =>
      let text := chunk_text chunk in
      if negb (String.eqb text "") then
        let (collected', m) := consume rest (collected ++ [text])%list in
        (collected', emit (Print text) ;;; m)
      else consume rest collected
  end.

Definition system_content : string :=
  "You are a health data analyst. Provide detailed analysis and actionable insights.".

Definition chat_options : dict :=
  [("temperature", PyObj "0.3" "0.3"); ("num_ctx", PyInt 6144)].

Definition query_ollama (env : Env) (prompt model : string) : Py string :=
  emit (Print ("Contacting Ollama..." ++ nl)) ;;;
  let messages := [("system", system_content); ("user", prompt)] in
  let (collected, loop) := consume (ollama_chat env model messages chat_options) [] in
  try_except_Exception
    (emit (Chat model messages chat_options) ;;;
     loop ;;;
     emit (Print (nl ++ "Done." ++ nl)))
    (fun e => emit (Print ("Error: " ++ str_of_Exception e ++ nl))) ;;;
  ret (Python.join "" collected).

(** The parsed command line. *)
Record Args : Type := { dir : string; model : string; query : option string }.

(** What argparse gives when the command line has no option. *)
Definition default_args : Args := {| dir := "."; model := "deepseek-r1"; query := None |}.

(** The files [main] finds, in the order of the three patterns. *)
Definition discover (env : Env) (args : Args) : list string :=
  let search_dir := abspath env (dir args) in
  let file_patterns :=
    [OsPath.join search_dir "*.csv"; OsPath.join search_dir "*.gpx";
     OsPath.join search_dir "*.fit"] in
  flat_map (glob_glob env) file_patterns.

(** The body of [main]'s loop over the files. *)
Definition dispatch (env : Env) (summaries : list dict) (f : string) : Py (list dict) :=
  let ext := OsPath.lower (snd (OsPath.splitext f)) in
  if String.eqb ext ".csv" then
    s <- summarize_csv env f ;; ret (summaries ++ [s])%list
  else if String.eqb ext ".gpx" then
    s <- summarize_gpx env f ;; ret (summaries ++ [s])%list
  else if String.eqb ext ".fit" then
    s <- summarize_fit env f ;; ret (summaries ++ [s])%list
  else
    emit (Print ("Unsupported file type: " ++ f ++ nl)) ;;; ret summaries.

(** [main] from the discovery on (lines 161 to 190), with the namespace
    [args] that [parser.parse_args()] returned; [main_from_command_line]
    below has the parser in front. *)
Definition main (env : Env) (args : Args) : Py unit :=
  let search_dir := abspath env (dir args) in
  let data_files := discover env args in
  (if negb (nonempty data_files) then
     emit (Print ("No .csv, .gpx, or .fit files found in " ++ search_dir ++ "." ++ nl)) ;;;
     raise (SystemExit 1)
   else ret tt) ;;;
  summaries <- for_each data_files (dispatch env) [] ;;
  (if negb (nonempty summaries) then
     emit (Print ("No supported files to summarize." ++ nl)) ;;;
     raise (SystemExit 1)
   else ret tt) ;;;
  prompt <- build_llm_prompt env summaries (query args) ;;
  query_ollama env prompt (model args) ;;;
  ret tt.

(** What argparse does with the command line of a run: it accepts it and
    gives the namespace of the three options, or it refuses it (an option it
    does not know, an option without its value, a stray argument), or it is
    asked for the help with [-h] or [--help]. *)
Inductive CommandLine : Type :=
| Accepted (args : Args)
| Refused (usage_and_error : string)
| Help (help : string).

(** [parser.parse_args()] (lines 155 to 159): the namespace, or argparse's
    own way out, which writes the usage and the error and calls [sys.exit(2)]
    on a refused command line, and writes the help and calls [sys.exit(0)]
    when asked for it. *)
Definition parse_args (cmdline : CommandLine) : Py Args :=
  match cmdline with
  | Accepted args => ret args
  | Refused usage_and_error => emit (Print usage_and_error) ;;; raise (SystemExit 2)
  | Help help => emit (Print help) ;;; raise (SystemExit 0)
  end.

(** [main()], from its first line. *)
Definition main_from_command_line (env : Env) (cmdline : CommandLine) : Py unit :=
  args <- parse_args cmdline ;;
  main env args.

(** * Vocabulary of the statements *)

(** The number of points of a parsed track file. *)
Definition gpx_point_count (gpx : GPX) : nat :=
  list_sum (map (fun track =>
    list_sum (map (fun segment => List.length (seg_points segment)) (trk_segments track)))
    (gpx_tracks gpx)).

(** The points of a parsed file, track after track, segment after segment. *)
Definition gpx_all_points (gpx : GPX) : list GPXTrackPoint :=
  flat_map (fun track => flat_map seg_points (trk_segments track)) (gpx_tracks gpx).

(** pandas computes [mean], [min] and [max] for the column [col] of [df]. *)
Definition numeric_stats (env : Env) (df : DataFrame) (col : string) (mean min max : pyval)
  : Prop :=
  exists s,
    df_getitem df col = Returns s
    /\ Series_mean env s = Returns mean
    /\ Series_min env s = Returns min
    /\ Series_max env s = Returns max.

(** The reductions of pandas return on every numeric column of [df]. *)
Definition numeric_stats_return (env : Env) (df : DataFrame) : Prop :=
  Forall (fun col => exists mean min max, numeric_stats env df col mean min max)
         (numeric_columns df).

(** [text] is the date range of [df]: the smallest and the largest value of
    the column named Date as pandas computes them, or N/A without such a
    column. *)
Definition date_range_of (env : Env) (df : DataFrame) (text : string) : Prop :=
  if existsb (String.eqb "Date") (columns df) then
    exists s lo hi,
      df_getitem df "Date" = Returns s
      /\ Series_min env s = Returns lo
      /\ Series_max env s = Returns hi
      /\ text = py_str lo ++ " to " ++ py_str hi
  else text = "N/A".

(** The entry [summarize_csv] stores for a numeric column. *)
Definition stats_entry (mean min max : pyval) : pyval :=
  PyDict [("mean", mean); ("min", min); ("max", max)].

(** The four entries [summarize_csv] stores before its loop. *)
Definition csv_fixed_fields (file_path : string) (df : DataFrame) (date_range : string) : dict :=
  [("file", PyStr (OsPath.basename file_path));
   ("total_records", PyInt (len_df df));
   ("columns", PyList (map PyStr (columns df)));
   ("date_range", PyStr date_range)].

(** The line of statistics of the key [col]. *)
Definition stats_text (col : string) (mean min max : pyval) : string :=
  col ++ ": mean=" ++ py_str mean ++ ", min=" ++ py_str min ++ ", max=" ++ py_str max ++ nl.

(** The lines of statistics of a summary: in the order of its keys, one line
    for each key whose value is a dict (with the entries mean, min and max),
    none for another key. *)
Definition stats_lines (summary : dict) : list string :=
  flat_map
    (fun col =>
       match dict_get summary col with
       | Some (PyDict stats) =>
           match dict_get stats "mean", dict_get stats "min", dict_get stats "max" with
           | Some mean, Some min, Some max => [stats_text col mean min max]
           | _, _, _ => []
           end
       | _ => []
       end)
    (dict_keys summary).

(** Every value of [summary] that is a dict has the entries mean, min, max. *)
Definition dicts_have_stats (summary : dict) : Prop :=
  forall col stats,
    dict_get summary col = Some (PyDict stats) ->
    exists mean min max,
      dict_get stats "mean" = Some mean
      /\ dict_get stats "min" = Some min
      /\ dict_get stats "max" = Some max.

(** What [build_llm_prompt] adds to the prompt for a tabular summary with
    these entries and these lines of statistics. *)
Definition tabular_text (file total_records columns date_range : pyval)
  (lines : list string) (sample : pyval) : string :=
  "File: " ++ py_str file ++ nl
  ++ "Total Records: " ++ py_str total_records ++ nl
  ++ "Columns: " ++ py_str columns ++ nl
  ++ "Date Range: " ++ py_str date_range ++ nl
  ++ String.concat "" lines
  ++ "Sample Rows:" ++ nl ++ py_str sample ++ nl
  ++ nl ++ rule ++ nl.

(** How every prompt starts on the day [now env]. *)
Definition prompt_intro (env : Env) : string :=
  "Today's date is " ++ strftime_Ymd (now env) ++ ". Always use this as the current date."
  ++ nl ++ nl ++ "Analyze this Apple Health CSV data and provide insights." ++ nl ++ nl.

(** How a prompt ends: the user's question, or the default prompts. *)
Definition prompt_closing (user_query : option string) : string :=
  match user_query with
  | Some q => if String.eqb q "" then default_prompts else nl ++ "User Query: " ++ q ++ nl
  | None => default_prompts
  end.

(** The text fragments a stream delivers, in the order of arrival, before it
    ends or fails. *)
Fixpoint received (stream : ChatStream) : list string :=
  match stream with
  | StreamEnd => []
  | StreamError _ => []
  | StreamChunk chunk rest => chunk_text chunk :: received rest
  end.

(** A computation is silent when it performs no event. *)
Definition silent {A} (m : Py A) : Prop := trace m = [].

(** The event is a call of the model service. *)
Definition is_chat (ev : event) : bool :=
  match ev with
  | Chat _ _ _ => true
  | _ => false
  end.

(** The event is a call of a summarizer's library (pandas, gpxpy, fitparse). *)
Definition is_summarizer_call (ev : event) : bool :=
  match ev with
  | ReadCsv _ | OpenGpx _ | OpenFit _ => true
  | _ => false
  end.

(** The names a directory listing gives are plain file names: none has a
    slash in it. *)
Definition plain_names (env : Env) : Prop :=
  forall dir name, In name (listdir env dir) -> string_mem "/" name = false.

(** [sub] occurs in [s]. *)
Definition contains (sub s : string) : Prop :=
  exists before after, s = before ++ sub ++ after.

(** [s] ends with [suffix]. *)
Definition ends_with (suffix s : string) : Prop :=
  exists before, s = before ++ suffix.

(** The event is a text written to the console. *)
Definition is_print (ev : event) : bool :=
  match ev with
  | Print _ => true
  | _ => false
  end.

(** [s] is what the summarizer for the extension of [f] returns on [f]. *)
Inductive summary_of (env : Env) (f : string) (s : dict) : Prop :=
| summary_of_csv :
    ends_with ".csv" f -> outcome (summarize_csv env f) = Ok s -> summary_of env f s
| summary_of_gpx :
    ends_with ".gpx" f -> outcome (summarize_gpx env f) = Ok s -> summary_of env f s
| summary_of_fit :
    ends_with ".fit" f -> outcome (summarize_fit env f) = Ok s -> summary_of env f s.

(** On each of [files], the summarizer for its extension returns. *)
Definition summarizers_return (env : Env) (files : list string) : Prop :=
  forall f, In f files ->
    (ends_with ".csv" f -> exists s, outcome (summarize_csv env f) = Ok s)
    /\ (ends_with ".gpx" f -> exists s, outcome (summarize_gpx env f) = Ok s)
    /\ (ends_with ".fit" f -> exists s, outcome (summarize_fit env f) = Ok s).

(** What [main] does once it has the summaries. *)
Definition prompt_and_query (env : Env) (args : Args) (summaries : list dict) : Py unit :=
  prompt <- build_llm_prompt env summaries (query args) ;;
  query_ollama env prompt (model args) ;;;
  ret tt.

(** The table of the end-to-end scenario: header [Date,HR] and the three
    rows 2024-01-01,60 / 2024-01-02,70 / 2024-01-03,65, as pandas reads it. *)
Definition hr_frame : DataFrame :=
  {| df_columns := [("Date", object_); ("HR", int64)];
     df_rows := [[PyStr "2024-01-01"; PyInt 60];
                 [PyStr "2024-01-02"; PyInt 70];
                 [PyStr "2024-01-03"; PyInt 65]] |}.

(** Its two columns. *)
Definition hr_dates : Series :=
  {| s_dtype := object_;
     s_values := [PyStr "2024-01-01"; PyStr "2024-01-02"; PyStr "2024-01-03"] |}.

Definition hr_rates : Series :=
  {| s_dtype := int64; s_values := [PyInt 60; PyInt 70; PyInt 65] |}.

(** * An environment to run the script in *)

Module Sample.

(** pandas, on the columns where its answer is easy to compute exactly:
    columns of ints and columns of strings for [min] and [max], columns of
    ints whose mean is a whole number for [mean]. *)
Definition py_le (a b : pyval) : option bool :=
  match a, b with
  | PyInt x, PyInt y => Some (x <=? y)%Z
  | PyStr x, PyStr y => Some (String.leb x y)
  | _, _ => None
  end.

Definition type_error : Exception :=
  LibError "TypeError" "'<=' not supported between these instances".

Fixpoint reduce_min (best : pyval) (vs : list pyval) : answer pyval :=
  match vs with
  | [] => Returns best
  | v :: vs' =>
      match py_le best v with
      | Some true => reduce_min best vs'
      | Some false => reduce_min v vs'
      | None => Fails type_error
      end
  end.

Fixpoint reduce_max (best : pyval) (vs : list pyval) : answer pyval :=
  match vs with
  | [] => Returns best
  | v :: vs' =>
      match py_le v best with
      | Some true => reduce_max best vs'
      | Some false => reduce_max v vs'
      | None => Fails type_error
      end
  end.

Definition nan : pyval := PyObj "nan" "nan".

Definition series_min (s : Series) : answer pyval :=
  match s_values s with
  | [] => Returns nan
  | v :: vs => reduce_min v vs
  end.

Definition series_max (s : Series) : answer pyval :=
  match s_values s with
  | [] => Returns nan
  | v :: vs => reduce_max v vs
  end.

Fixpoint sum_ints (vs : list pyval) : option Z :=
  match vs with
  | [] => Some 0%Z
  | PyInt n :: vs' => option_map (Z.add n) (sum_ints vs')
  | _ :: _ => None
  end.

Definition series_mean (s : Series) : answer pyval :=
  match sum_ints (s_values s) with
  | Some total =>
      let n := Z.of_nat (List.length (s_values s)) in
      if (n =? 0)%Z then Returns nan
      else if (total mod n =? 0)%Z
           then let text := str_of_Z (total / n) ++ ".0" in Returns (PyObj text text)
           else Fails (LibError "NotImplementedError" "the mean is not a whole number")
  | None => Fails (LibError "TypeError" "could not convert to numeric")
  end.

Definition no_such_file : Exception :=
  LibError "FileNotFoundError" "No such file or directory".

(** A run in the directory [/data], which holds the files [names]; the tables,
    tracks and fitness files behind the names are given as functions of the
    path, and [stream] is what the model service answers. *)
Definition env (names : list string) (csv : string -> answer DataFrame)
  (gpx : string -> answer GPX) (fit : string -> answer FitFile) (stream : ChatStream) : Env :=
  {| now := {| year := 2024; month := 1; day := 15; hour := 9; minute := 30; second := 0 |};
     abspath := fun d => if String.eqb d "." then "/data" else d;
     listdir := fun d => if String.eqb d "/data" then names else [];
     lexists := fun p => existsb (fun n => String.eqb p (OsPath.join "/data" n)) names;
     isdir := fun d => String.eqb d "/data";
     glob_dirs := fun _ => [];
     read_csv := csv;
     Series_min := series_min;
     Series_max := series_max;
     Series_mean := series_mean;
     gpxpy_parse := gpx;
     fitparse_FitFile := fit;
     ollama_chat := fun _ _ _ => stream |}.

(** The same run, later on the same day, with another answer of the model. *)
Definition later (e : Env) (stream : ChatStream) : Env :=
  {| now := {| year := year (now e); month := month (now e); day := day (now e);
               hour := 23; minute := 59; second := 59 |};
     abspath := abspath e; listdir := listdir e; lexists := lexists e; isdir := isdir e;
     glob_dirs := glob_dirs e; read_csv := read_csv e;
     Series_min := Series_min e; Series_max := Series_max e; Series_mean := Series_mean e;
     gpxpy_parse := gpxpy_parse e; fitparse_FitFile := fitparse_FitFile e;
     ollama_chat := fun _ _ _ => stream |}.

Definition no_csv : string -> answer DataFrame := fun _ => Fails no_such_file.
Definition no_gpx : string -> answer GPX := fun _ => Fails no_such_file.
Definition no_fit : string -> answer FitFile := fun _ => Fails no_such_file.

(** A table whose numeric column bears the name of an entry of the summary. *)
Definition frame_named (col : string) : DataFrame :=
  {| df_columns := [(col, int64); ("B", object_); ("Date", object_)];
     df_rows := [[PyInt 7; PyStr "x"; PyStr "2024-01-01"]] |}.

(** A track file with two tracks and no point, and one with two points. *)
Definition empty_gpx : GPX :=
  {| gpx_tracks := [ {| trk_segments := [ {| seg_points := [] |} ] |};
                     {| trk_segments := [] |} ] |}.

Definition point (time : string) (hr : list XmlElement) : GPXTrackPoint :=
  {| pt_time := PyObj time ("datetime(" ++ time ++ ")");
     pt_latitude := PyObj "51.5" "51.5"; pt_longitude := PyObj "-0.1" "-0.1";
     pt_elevation := PyNone;
     pt_extensions := [hr] |}.

Definition two_point_gpx : GPX :=
  {| gpx_tracks :=
       [ {| trk_segments :=
              [ {| seg_points :=
                     [point "2024-01-01 10:00:00"
                            [{| xml_tag := "{ns}time"; xml_text := PyStr "140" |};
                             {| xml_tag := "{ns}HR"; xml_text := PyStr "120" |}];
                      point "2024-01-01 10:00:05" []] |} ] |} ] |}.

(** A fitness file with no record message. *)
Definition no_record_fit : FitFile :=
  {| fit_messages :=
       [ {| mesg_name := "file_id";
            mesg_fields := [ {| fd_name := "type"; fd_value := PyStr "activity" |} ] |} ] |}.

Definition one_record_fit : FitFile :=
  {| fit_messages :=
       [ {| mesg_name := "record";
            mesg_fields := [ {| fd_name := "heart_rate"; fd_value := PyInt 120 |};
                             {| fd_name := "file"; fd_value := PyStr "x" |} ] |} ] |}.

(** A summary with a dict that is no statistics: it has no mean. *)
Definition notes_summary : dict :=
  [("file", PyStr "notes.csv"); ("total_records", PyInt 0); ("columns", PyList []);
   ("date_range", PyStr "N/A"); ("notes", PyDict [("author", PyStr "me")]);
   ("sample", PyList [])].

(** A summary with a dict that has a mean, a min and a max among its entries,
    and is no statistics of a column. *)
Definition ranges_summary : dict :=
  [("file", PyStr "ranges.csv"); ("total_records", PyInt 0); ("columns", PyList []);
   ("date_range", PyStr "N/A");
   ("limits", PyDict [("unit", PyStr "bpm"); ("max", PyInt 190); ("min", PyInt 40);
                      ("mean", PyStr "n/a")]);
   ("sample", PyList [])].

(** A directory with a table, a track and a fitness file, and with files
    the discovery does not find: a hidden one, one with an extension in
    capitals, one of another kind. *)
Definition mixed_names : list string :=
  ["hr.csv"; ".hidden.csv"; "notes.txt"; "walk.gpx"; "ride.fit"; "OLD.CSV"].

Definition text_chunk (s : string) : ChatChunk :=
  {| chunk_response := None; chunk_message := Some {| msg_content := Some s |} |}.

(** A stream that gives two fragments (and an empty chunk) and then breaks. *)
Definition broken_stream : ChatStream :=
  StreamChunk (text_chunk "Your heart ")
    (StreamChunk {| chunk_response := None; chunk_message := None |}
       (StreamChunk (text_chunk "rate")
          (StreamError (LibError "ConnectionError" "connection lost")))).

End Sample.

(** * Vocabulary of the further properties *)

(** The children of a point's extension elements whose tag, in lower case,
    has hr in it, in document order. *)
Definition hr_children (point : GPXTrackPoint) : list XmlElement :=
  filter (fun child => OsPath.str_in "hr" (OsPath.lower (xml_tag child)))
         (List.concat (pt_extensions point)).

(** The values a record's fields give for the name [name], in the order of
    the fields. *)
Definition field_values (record : DataMessage) (name : string) : list pyval :=
  map fd_value (filter (fun d => String.eqb (fd_name d) name) (mesg_fields record)).

(** The last of [vs], if any. *)
Definition last_value (vs : list pyval) : option pyval :=
  last (map Some vs) None.

(** [for x in xs: if assigned(x): d[key(x)] = val(x)] *)
Definition assign_all {A : Type} (assigned : A -> bool) (key : A -> string)
  (val : A -> pyval) (xs : list A) (d : dict) : dict :=
  fold_left (fun d x => if assigned x then dict_set d (key x) (val x) else d) xs d.

(** A summary [build_llm_prompt] renders as a table without a missing key:
    it has the five entries of a tabular summary, its type (if any) is not
    the string gpx or fit, and each of its dict values has a mean, a min and
    a max. *)
Definition tabular_shape (summary : dict) : Prop :=
  eq_str (dict_get summary "type") "gpx" = false
  /\ eq_str (dict_get summary "type") "fit" = false
  /\ dicts_have_stats summary
  /\ forall k, In k ["file"; "total_records"; "columns"; "date_range"] ->
               dict_get summary k <> None.

(** [summary] is what one of the three summarizers returns on some file. *)
Definition summarized (env : Env) (summary : dict) : Prop :=
  exists f,
    outcome (summarize_csv env f) = Ok summary
    \/ outcome (summarize_gpx env f) = Ok summary
    \/ outcome (summarize_fit env f) = Ok summary.

(** [block] is the text [build_llm_prompt] adds for [summary]. *)
Definition block_of (summary : dict) (block : string) : Prop :=
  render_summary "" summary = ret block.

(** What a trace shows on the console: the printed texts, one after the
    other. *)
Fixpoint console (t : list event) : string :=
  match t with
  | [] => ""
  | Print s :: t' => s ++ console t'
  | _ :: t' => console t'
  end.

(** The error that breaks a stream, if one does. *)
Fixpoint stream_error (stream : ChatStream) : option Exception :=
  match stream with
  | StreamEnd => None
  | StreamError e => Some e
  | StreamChunk _ rest => stream_error rest
  end.

(** A computation that exits only by a return or by an error: it never
    raises [SystemExit]. *)
Definition errors_only {A} (m : Py A) : Prop :=
  forall code, outcome m <> Raise (SystemExit code).

(** The summarizer for the extension of [f] raises [e] on [f]. *)
Definition summarizer_raises (env : Env) (f : string) (e : BaseException) : Prop :=
  (ends_with ".csv" f /\ outcome (summarize_csv env f) = Raise e)
  \/ (ends_with ".gpx" f /\ outcome (summarize_gpx env f) = Raise e)
  \/ (ends_with ".fit" f /\ outcome (summarize_fit env f) = Raise e).

(** * Properties *)

(** ** Examples *)

Example py_str_list :
  py_str (PyList [PyStr "Date"; PyStr "it's"; PyInt (-3); PyNone])
  = "['Date', " ++ String dquote "it's" ++ String dquote ", -3, None]".
Proof. reflexivity. Qed.

Example splitext_examples :
  OsPath.splitext "/a/b.d/x.tar.CSV" = ("/a/b.d/x.tar", ".CSV")
  /\ OsPath.splitext "/a/.csv" = ("/a/.csv", "")
  /\ OsPath.splitext "/a.b/..x.csv" = ("/a.b/..x", ".csv")
  /\ OsPath.splitext "/a.b/c" = ("/a.b/c", "")
  /\ OsPath.split "/a/b/*.csv" = ("/a/b", "*.csv")
  /\ OsPath.split "/*.csv" = ("/", "*.csv")
  /\ OsPath.join "/a/b" "x.csv" = "/a/b/x.csv"
  /\ OsPath.join "/" "x.csv" = "/x.csv"
  /\ OsPath.basename "/a/b/x.csv" = "x.csv"
  /\ OsPath.fnmatchcase "run.1.csv" "*.csv" = true
  /\ OsPath.fnmatchcase "run.csv.bak" "*.csv" = false.
Proof. repeat split; reflexivity. Qed.

Example discover_example :
  discover (Sample.env Sample.mixed_names Sample.no_csv Sample.no_gpx Sample.no_fit StreamEnd)
           default_args
  = ["/data/hr.csv"; "/data/walk.gpx"; "/data/ride.fit"].
Proof. reflexivity. Qed.

Example dict_set_example :
  dict_set (dict_set [("file", PyStr "a.csv"); ("total_records", PyInt 2)] "HR" PyNone)
           "file" (PyInt 0)
  = [("file", PyInt 0); ("total_records", PyInt 2); ("HR", PyNone)].
Proof. reflexivity. Qed.

Example strftime_example :
  strftime_Ymd {| year := 2024; month := 3; day := 9; hour := 23; minute := 59; second := 1 |}
  = "2024-03-09".
Proof. reflexivity. Qed.

(** ** Dicts *)

Lemma dict_get_set_same (d : dict) (k : string) (v : pyval) :
  dict_get (dict_set d k v) k = Some v.
Proof.
  induction d as [|[k' v'] d IH]; simpl.
  - now rewrite String.eqb_refl.
  - destruct (String.eqb k' k) eqn:E; simpl; rewrite E; auto.
Qed.

Lemma dict_get_set_other (d : dict) (k k' : string) (v : pyval) :
  k <> k' -> dict_get (dict_set d k v) k' = dict_get d k'.
Proof.
  intros Hne. induction d as [|[k0 v0] d IH]; simpl.
  - destruct (String.eqb_spec k k'); congruence.
  - destruct (String.eqb_spec k0 k) as [->|Hk]; simpl.
    + destruct (String.eqb_spec k k'); congruence.
    + now rewrite IH.
Qed.

Lemma dict_get_set (d : dict) (k k' : string) (v : pyval) :
  dict_get (dict_set d k v) k' = if String.eqb k k' then Some v else dict_get d k'.
Proof.
  destruct (String.eqb_spec k k') as [->|Hne].
  - apply dict_get_set_same.
  - now apply dict_get_set_other.
Qed.

(** ** Computations *)

Lemma bind_ret_l {A B} (a : A) (f : A -> Py B) : bind (ret a) f = f a.
Proof. unfold bind, ret. now destruct (f a). Qed.

Lemma bind_lift_Returns {A B} (a : A) (f : A -> Py B) : bind (lift (Returns a)) f = f a.
Proof. apply bind_ret_l. Qed.

Lemma bind_lift_Fails {A B} (e : Exception) (f : A -> Py B) :
  bind (lift (Fails e)) f = raise (Exc e).
Proof. reflexivity. Qed.

Lemma bind_ret_r {A} (m : Py A) : bind m ret = m.
Proof.
  destruct m as [t [a|e]]; simpl; [|reflexivity].
  now rewrite List.app_nil_r.
Qed.

Lemma bind_assoc {A B C} (m : Py A) (f : A -> Py B) (g : B -> Py C) :
  bind (bind m f) g = bind m (fun a => bind (f a) g).
Proof.
  destruct m as [t [a|e]]; simpl; [|reflexivity].
  destruct (f a) as [t' [b|e]]; simpl; [|reflexivity].
  destruct (g b) as [t'' r]. now rewrite List.app_assoc.
Qed.

(** ** Strings *)

Lemma append_assoc (a b c : string) : (a ++ b) ++ c = a ++ (b ++ c).
Proof. induction a as [|x a IH]; simpl; congruence. Qed.

Lemma append_nil_r (a : string) : a ++ "" = a.
Proof. induction a as [|x a IH]; simpl; congruence. Qed.

Lemma length_append (a b : string) :
  String.length (a ++ b) = String.length a + String.length b.
Proof. induction a as [|x a IH]; simpl; congruence. Qed.

(** ** The track summarizer on a file without points *)

Lemma length_flat_map {A B} (f : A -> list B) (xs : list A) :
  List.length (flat_map f xs) = list_sum (map (fun x => List.length (f x)) xs).
Proof.
  induction xs as [|x xs IH]; simpl; auto.
  now rewrite List.length_app, IH.
Qed.

Lemma length_gpx_points (gpx : GPX) :
  List.length (gpx_points gpx) = gpx_point_count gpx.
Proof.
  unfold gpx_points, gpx_point_count. rewrite length_flat_map.
  f_equal. apply map_ext. intros track. rewrite length_flat_map.
  f_equal. apply map_ext. intros segment. apply List.length_map.
Qed.

(** C3. When the parsed file has no point at all, [summarize_gpx] returns
    (it raises nothing, and in particular never indexes the empty list) a
    summary whose total_points is 0 and whose start_time and end_time are the
    string N/A. *)
Theorem summarize_gpx_no_points (env : Env) (file_path : string) (gpx : GPX) :
  gpxpy_parse env file_path = Returns gpx ->
  gpx_point_count gpx = 0 ->
  exists summary,
    summarize_gpx env file_path = ([OpenGpx file_path], Ok summary)
    /\ dict_get summary "total_points" = Some (PyInt 0)
    /\ dict_get summary "start_time" = Some (PyStr "N/A")
    /\ dict_get summary "end_time" = Some (PyStr "N/A").
Proof.
  intros Hparse Hcount.
  assert (Hpoints : gpx_points gpx = []).
  { apply List.length_zero_iff_nil. now rewrite length_gpx_points. }
  unfold summarize_gpx. rewrite Hparse. unfold call, bind at 1.
  rewrite Hpoints. simpl.
  eexists. split; [reflexivity|]. repeat split; reflexivity.
Qed.

(** ** The fitness-file summarizer on a file without records *)

(** C4. When the file has no message of the record type, [summarize_fit]
    returns a summary whose total_records is 0 and whose fields and
    sample_records are both present and equal to the empty list. *)
Theorem summarize_fit_no_records (env : Env) (file_path : string) (fitfile : FitFile) :
  fitparse_FitFile env file_path = Returns fitfile ->
  get_messages fitfile "record" = [] ->
  exists summary,
    summarize_fit env file_path = ([OpenFit file_path], Ok summary)
    /\ dict_get summary "total_records" = Some (PyInt 0)
    /\ dict_get summary "fields" = Some (PyList [])
    /\ dict_get summary "sample_records" = Some (PyList []).
Proof.
  intros Hopen Hnone.
  unfold summarize_fit. rewrite Hopen. unfold call, bind at 1.
  rewrite Hnone. simpl.
  eexists. split; [reflexivity|]. repeat split; reflexivity.
Qed.

(** ** The summarizers return *)

Section Indexing.
Context {A : Type}.

Lemma list_getitem_first (x : A) (xs : list A) :
  list_getitem (x :: xs) 0 = ret x.
Proof. reflexivity. Qed.

Lemma last_cons (ys : list A) (z y : A) : last (z :: ys) y = last ys z.
Proof.
  revert z y. induction ys as [|a ys IH]; intros z y; [reflexivity|].
  change (last (z :: a :: ys) y) with (last (a :: ys) y).
  now rewrite !IH.
Qed.

Lemma list_getitem_last (x : A) (xs : list A) :
  list_getitem (x :: xs) (-1) = ret (last xs x).
Proof.
  unfold list_getitem.
  set (n := Z.of_nat (List.length (x :: xs))).
  assert (Hn : (1 <= n)%Z) by (subst n; simpl List.length; lia).
  replace ((-1 <? 0)%Z) with true by reflexivity.
  destruct (Z.ltb_spec (-1 + n) 0) as [Hlt|_]; [lia|].
  replace (Z.to_nat (-1 + n)) with (List.length xs) by (subst n; simpl List.length; lia).
  assert (Hnth : forall (ys : list A) (y : A),
             nth_error (y :: ys) (List.length ys) = Some (last ys y)).
  { induction ys as [|z ys IH]; intros y; [reflexivity|].
    change (nth_error (y :: z :: ys) (List.length (z :: ys)))
      with (nth_error (z :: ys) (List.length ys)).
    rewrite IH. now rewrite last_cons. }
  now rewrite Hnth.
Qed.
End Indexing.

(** The heart-rate updates leave a point's other keys alone. *)
Lemma gpx_point_get (point : GPXTrackPoint) (k : string) :
  k <> "heart_rate" ->
  dict_get (gpx_point point) k
  = dict_get (dict_of_items [("time", pt_time point); ("latitude", pt_latitude point);
                             ("longitude", pt_longitude point);
                             ("elevation", pt_elevation point)]) k.
Proof.
  intros Hk. unfold gpx_point.
  set (pt0 := dict_of_items _). clearbody pt0.
  destruct (nonempty (pt_extensions point)); [|reflexivity].
  generalize pt0. induction (pt_extensions point) as [|ext exts IH]; intros pt; [reflexivity|].
  simpl. rewrite IH. clear IH.
  generalize pt. induction ext as [|child ext IH]; intros pt'; [reflexivity|].
  simpl. rewrite IH.
  destruct (OsPath.str_in _ _); [|reflexivity].
  apply dict_get_set_other. congruence.
Qed.

Lemma gpx_point_time (point : GPXTrackPoint) :
  dict_get (gpx_point point) "time" = Some (pt_time point).
Proof. rewrite gpx_point_get by discriminate. reflexivity. Qed.

Lemma gpx_points_map (gpx : GPX) : gpx_points gpx = map gpx_point (gpx_all_points gpx).
Proof.
  unfold gpx_points, gpx_all_points.
  induction (gpx_tracks gpx) as [|track tracks IH]; [reflexivity|].
  simpl. rewrite List.map_app, IH. f_equal.
  induction (trk_segments track) as [|segment segments IH']; [reflexivity|].
  simpl. now rewrite List.map_app, IH'.
Qed.

(** [summarize_gpx] returns whenever the file parses, and this is its summary. *)
Lemma summarize_gpx_returns (env : Env) (file_path : string) (gpx : GPX) :
  gpxpy_parse env file_path = Returns gpx ->
  summarize_gpx env file_path =
  ([OpenGpx file_path],
   Ok (dict_of_items
         [("file", PyStr (OsPath.basename file_path));
          ("type", PyStr "gpx");
          ("total_points", PyInt (Z.of_nat (List.length (gpx_all_points gpx))));
          ("start_time",
           PyStr match gpx_all_points gpx with
                 | [] => "N/A"
                 | p :: _ => py_str (pt_time p)
                 end);
          ("end_time",
           PyStr match gpx_all_points gpx with
                 | [] => "N/A"
                 | p :: ps => py_str (pt_time (last ps p))
                 end);
          ("sample_points", PyList (map PyDict (firstn 10 (gpx_points gpx))))])).
Proof.
  intros Hparse. unfold summarize_gpx. rewrite Hparse. unfold call, bind at 1.
  rewrite gpx_points_map.
  destruct (gpx_all_points gpx) as [|p ps]; [reflexivity|].
  rewrite List.length_map.
  cbn [map nonempty]. rewrite list_getitem_first, list_getitem_last.
  assert (Hlast : last (map gpx_point ps) (gpx_point p) = gpx_point (last ps p)).
  { generalize p. induction ps as [|q ps IH]; intros p0; [reflexivity|].
    cbn [map]. now rewrite !last_cons. }
  rewrite Hlast, !bind_ret_l. unfold getitem. rewrite !gpx_point_time.
  rewrite !bind_lift_Returns, !bind_ret_l.
  reflexivity.
Qed.

(** [summarize_fit] returns whenever the file decodes, and this is its summary. *)
Lemma summarize_fit_returns (env : Env) (file_path : string) (fitfile : FitFile) :
  fitparse_FitFile env file_path = Returns fitfile ->
  let records := map fit_record (get_messages fitfile "record") in
  summarize_fit env file_path =
  ([OpenFit file_path],
   Ok (dict_of_items
         [("file", PyStr (OsPath.basename file_path));
          ("type", PyStr "fit");
          ("total_records", PyInt (Z.of_nat (List.length records)));
          ("fields",
           PyList match records with
                  | [] => []
                  | r :: _ => map PyStr (dict_keys r)
                  end);
          ("sample_records", PyList (map PyDict (firstn 10 records)))])).
Proof.
  intros Hopen records. unfold summarize_fit. rewrite Hopen. unfold call, bind at 1.
  fold records. destruct records as [|r rs]; reflexivity.
Qed.

Lemma numeric_stats_functional env df col m lo hi m' lo' hi' :
  numeric_stats env df col m lo hi ->
  numeric_stats env df col m' lo' hi' ->
  m = m' /\ lo = lo' /\ hi = hi'.
Proof.
  intros (s & Hs & Hm & Hlo & Hhi) (s' & Hs' & Hm' & Hlo' & Hhi').
  rewrite Hs in Hs'. injection Hs' as <-.
  rewrite Hm in Hm'. rewrite Hlo in Hlo'. rewrite Hhi in Hhi'.
  repeat split; congruence.
Qed.

Lemma csv_column_stats_returns env df summary col mean min max :
  numeric_stats env df col mean min max ->
  csv_column_stats env df summary col = ret (dict_set summary col (stats_entry mean min max)).
Proof.
  intros (s & Hs & Hm & Hlo & Hhi). unfold csv_column_stats.
  rewrite Hs, bind_lift_Returns, Hm, bind_lift_Returns, bind_lift_Returns.
  rewrite Hlo, bind_lift_Returns, bind_lift_Returns, Hhi, bind_lift_Returns.
  reflexivity.
Qed.

(** The loop over the numeric columns: it returns, it leaves the other keys
    alone, and each numeric column ends up with its statistics. *)
Lemma csv_stats_loop env df (cols : list string) :
  Forall (fun col => exists mean min max, numeric_stats env df col mean min max) cols ->
  forall summary : dict,
  exists summary' : dict,
    for_each cols (csv_column_stats env df) summary = ret summary'
    /\ (forall k, ~ In k cols -> dict_get summary' k = dict_get summary k)
    /\ (forall col mean min max,
           In col cols -> numeric_stats env df col mean min max ->
           dict_get summary' col = Some (stats_entry mean min max)).
Proof.
  induction 1 as [|col cols (m & lo & hi & Hcol) _ IH]; intros summary.
  - exists summary. repeat split; auto. intros ? ? ? ? [].
  - destruct (IH (dict_set summary col (stats_entry m lo hi))) as (summary' & Hrun & Hkeep & Hput).
    exists summary'. split; [|split].
    + cbn [for_each]. now rewrite (csv_column_stats_returns env df summary col m lo hi Hcol), bind_ret_l.
    + intros k Hk. rewrite Hkeep by (intros ?; apply Hk; now right).
      apply dict_get_set_other. intros ->. apply Hk. now left.
    + intros col' m' lo' hi' Hin Hstats.
      destruct (in_dec string_dec col' cols) as [Hin'|Hnot].
      * now apply Hput.
      * destruct Hin as [->|Hin]; [|contradiction].
        rewrite Hkeep by assumption.
        destruct (numeric_stats_functional _ _ _ _ _ _ _ _ _ Hcol Hstats) as (-> & -> & ->).
        apply dict_get_set_same.
Qed.

(** [summarize_csv] returns whenever the file parses and the reductions of
    pandas return; the sample comes last and wins over a column named sample,
    a numeric column wins over a fixed entry of the same name. *)
Lemma summarize_csv_returns env file_path df date_range :
  read_csv env file_path = Returns df ->
  date_range_of env df date_range ->
  numeric_stats_return env df ->
  exists summary : dict,
    summarize_csv env file_path = ([ReadCsv file_path], Ok summary)
    /\ dict_get summary "sample" = Some (PyList (head_records 10 df))
    /\ (forall k, k <> "sample" -> ~ In k (numeric_columns df) ->
          dict_get summary k = dict_get (csv_fixed_fields file_path df date_range) k)
    /\ (forall col mean min max,
          col <> "sample" -> In col (numeric_columns df) ->
          numeric_stats env df col mean min max ->
          dict_get summary col = Some (stats_entry mean min max)).
Proof.
  intros Hread Hdate Hstats.
  destruct (csv_stats_loop env df _ Hstats (csv_fixed_fields file_path df date_range))
    as (summary' & Hrun & Hkeep & Hput).
  exists (dict_set summary' "sample" (PyList (head_records 10 df))).
  split; [|split; [|split]].
  - unfold summarize_csv. rewrite Hread. unfold call, bind at 1.
    assert (Hrange :
      (if existsb (String.eqb "Date") (columns df) then
         s <- lift (df_getitem df "Date") ;;
         lo <- lift (Series_min env s) ;;
         s <- lift (df_getitem df "Date") ;;
         hi <- lift (Series_max env s) ;;
         ret (dict_set
                (dict_set (dict_set (dict_set [] "file" (PyStr (OsPath.basename file_path)))
                                    "total_records" (PyInt (len_df df)))
                          "columns" (PyList (map PyStr (columns df))))
                "date_range" (PyStr (py_str lo ++ " to " ++ py_str hi)))
       else ret (dict_set
                (dict_set (dict_set (dict_set [] "file" (PyStr (OsPath.basename file_path)))
                                    "total_records" (PyInt (len_df df)))
                          "columns" (PyList (map PyStr (columns df))))
                "date_range" (PyStr "N/A")))
      = ret (csv_fixed_fields file_path df date_range)).
    { unfold date_range_of in Hdate.
      destruct (existsb (String.eqb "Date") (columns df)).
      - destruct Hdate as (s & lo & hi & Hs & Hlo & Hhi & ->).
        rewrite Hs, bind_lift_Returns, Hlo, bind_lift_Returns, bind_lift_Returns.
        rewrite Hhi, bind_lift_Returns. reflexivity.
      - subst date_range. reflexivity. }
    rewrite Hrange, bind_ret_l, Hrun, bind_ret_l. reflexivity.
  - apply dict_get_set_same.
  - intros k Hk Hnot. rewrite dict_get_set_other by congruence. now apply Hkeep.
  - intros col mean min max Hk Hin Hcol. rewrite dict_get_set_other by congruence.
    now apply Hput with (1 := Hin).
Qed.

Example sample_summarize_csv :
  summarize_csv (Sample.env ["hr.csv"] (fun _ => Returns hr_frame)
                            Sample.no_gpx Sample.no_fit StreamEnd) "/data/hr.csv"
  = ([ReadCsv "/data/hr.csv"],
     Ok [("file", PyStr "hr.csv");
         ("total_records", PyInt 3);
         ("columns", PyList [PyStr "Date"; PyStr "HR"]);
         ("date_range", PyStr "2024-01-01 to 2024-01-03");
         ("HR", PyDict [("mean", PyObj "65.0" "65.0"); ("min", PyInt 60); ("max", PyInt 70)]);
         ("sample", PyList [PyDict [("Date", PyStr "2024-01-01"); ("HR", PyInt 60)];
                            PyDict [("Date", PyStr "2024-01-02"); ("HR", PyInt 70)];
                            PyDict [("Date", PyStr "2024-01-03"); ("HR", PyInt 65)]])]).
Proof. reflexivity. Qed.

Example sample_gpx_point :
  gpx_point (Sample.point "t" [{| xml_tag := "{ns}hr"; xml_text := PyStr "120" |};
                               {| xml_tag := "gpxtpx:cad"; xml_text := PyStr "80" |};
                               {| xml_tag := "THReshold"; xml_text := PyNone |}])
  = [("time", PyObj "t" "datetime(t)"); ("latitude", PyObj "51.5" "51.5");
     ("longitude", PyObj "-0.1" "-0.1"); ("elevation", PyNone); ("heart_rate", PyNone)].
Proof. reflexivity. Qed.

Lemma summarize_gpx_no_points_witness :
  exists summary,
    summarize_gpx (Sample.env ["walk.gpx"] Sample.no_csv (fun _ => Returns Sample.empty_gpx)
                              Sample.no_fit StreamEnd) "/data/walk.gpx"
    = ([OpenGpx "/data/walk.gpx"], Ok summary)
    /\ dict_get summary "total_points" = Some (PyInt 0)
    /\ dict_get summary "start_time" = Some (PyStr "N/A")
    /\ dict_get summary "end_time" = Some (PyStr "N/A").
Proof.
  apply (summarize_gpx_no_points _ "/data/walk.gpx" Sample.empty_gpx); reflexivity.
Defined.

Lemma summarize_fit_no_records_witness :
  exists summary,
    summarize_fit (Sample.env ["ride.fit"] Sample.no_csv Sample.no_gpx
                              (fun _ => Returns Sample.no_record_fit) StreamEnd) "/data/ride.fit"
    = ([OpenFit "/data/ride.fit"], Ok summary)
    /\ dict_get summary "total_records" = Some (PyInt 0)
    /\ dict_get summary "fields" = Some (PyList [])
    /\ dict_get summary "sample_records" = Some (PyList []).
Proof.
  apply (summarize_fit_no_records _ "/data/ride.fit" Sample.no_record_fit); reflexivity.
Defined.

(** ** What every summary carries *)

(** C8, as the code has it.  A summary of [summarize_gpx] carries the file's
    base name under file and the string gpx under type; one of
    [summarize_fit] the base name and the string fit.  A summary of
    [summarize_csv] carries the base name under file unless a numeric column
    is named file, and has no type key unless a numeric column is named type;
    then the value under type is the dict of the mean, minimum and maximum
    that pandas gives for that column (and likewise under file for a numeric
    column named file). *)
Theorem summaries_file_and_type :
  (forall env file_path gpx,
      gpxpy_parse env file_path = Returns gpx ->
      exists summary,
        summarize_gpx env file_path = ([OpenGpx file_path], Ok summary)
        /\ dict_get summary "file" = Some (PyStr (OsPath.basename file_path))
        /\ dict_get summary "type" = Some (PyStr "gpx"))
  /\ (forall env file_path fitfile,
      fitparse_FitFile env file_path = Returns fitfile ->
      exists summary,
        summarize_fit env file_path = ([OpenFit file_path], Ok summary)
        /\ dict_get summary "file" = Some (PyStr (OsPath.basename file_path))
        /\ dict_get summary "type" = Some (PyStr "fit"))
  /\ (forall env file_path df,
      read_csv env file_path = Returns df ->
      (exists date_range, date_range_of env df date_range) ->
      numeric_stats_return env df ->
      exists summary,
        summarize_csv env file_path = ([ReadCsv file_path], Ok summary)
        /\ (~ In "file" (numeric_columns df) ->
            dict_get summary "file" = Some (PyStr (OsPath.basename file_path)))
        /\ (~ In "type" (numeric_columns df) -> dict_get summary "type" = None)
        /\ (In "type" (numeric_columns df) ->
            exists mean min max,
              numeric_stats env df "type" mean min max
              /\ dict_get summary "type"
                 = Some (PyDict [("mean", mean); ("min", min); ("max", max)]))
        /\ (In "file" (numeric_columns df) ->
            exists mean min max,
              numeric_stats env df "file" mean min max
              /\ dict_get summary "file"
                 = Some (PyDict [("mean", mean); ("min", min); ("max", max)]))).
Proof.
  split; [|split].
  - intros env file_path gpx Hparse. eexists. split; [exact (summarize_gpx_returns _ _ _ Hparse)|].
    split; reflexivity.
  - intros env file_path fitfile Hopen. eexists. split; [exact (summarize_fit_returns _ _ _ Hopen)|].
    split; reflexivity.
  - intros env file_path df Hread [date_range Hdate] Hstats.
    destruct (summarize_csv_returns _ _ _ _ Hread Hdate Hstats) as (summary & Hrun & _ & Hfixed & Hcol).
    exists summary. split; [exact Hrun|]. split; [|split; [|split]].
    + intros Hnot. now rewrite Hfixed by (congruence || assumption).
    + intros Hnot. now rewrite Hfixed by (congruence || assumption).
    + intros Hin. pose proof Hstats as Hall. unfold numeric_stats_return in Hall.
      rewrite Forall_forall in Hall. destruct (Hall _ Hin) as (m & lo & hi & Hty).
      exists m, lo, hi. split; [exact Hty|].
      apply Hcol with (3 := Hty); [discriminate|assumption].
    + intros Hin. pose proof Hstats as Hall. unfold numeric_stats_return in Hall.
      rewrite Forall_forall in Hall. destruct (Hall _ Hin) as (m & lo & hi & Hty).
      exists m, lo, hi. split; [exact Hty|].
      apply Hcol with (3 := Hty); [discriminate|assumption].
Qed.

Lemma summaries_file_and_type_witness :
  exists summary,
    summarize_csv (Sample.env ["hr.csv"] (fun _ => Returns hr_frame)
                              Sample.no_gpx Sample.no_fit StreamEnd) "/data/hr.csv"
    = ([ReadCsv "/data/hr.csv"], Ok summary)
    /\ dict_get summary "file" = Some (PyStr "hr.csv")
    /\ dict_get summary "type" = None.
Proof.
  destruct (proj2 (proj2 summaries_file_and_type)
              (Sample.env ["hr.csv"] (fun _ => Returns hr_frame)
                          Sample.no_gpx Sample.no_fit StreamEnd)
              "/data/hr.csv" hr_frame eq_refl)
    as (summary & Hrun & Hfile & Htype & _).
  - exists "2024-01-01 to 2024-01-03".
    exists hr_dates, (PyStr "2024-01-01"), (PyStr "2024-01-03"). repeat split; reflexivity.
  - constructor; [|constructor].
    exists (PyObj "65.0" "65.0"), (PyInt 60), (PyInt 70), hr_rates.
    repeat split; reflexivity.
  - exists summary. split; [exact Hrun|]. split.
    + apply Hfile. intros [H|[]]. discriminate H.
    + apply Htype. intros [H|[]]. discriminate H.
Defined.

(** C8 fails as stated on a table with a numeric column named type: the
    summary of [summarize_csv] then has a type key (and, with a numeric
    column named file, its file entry is not the base name). *)
Lemma csv_summary_type_key_counterexample :
  (exists summary,
     summarize_csv (Sample.env ["t.csv"] (fun _ => Returns (Sample.frame_named "type"))
                               Sample.no_gpx Sample.no_fit StreamEnd) "/data/t.csv"
     = ([ReadCsv "/data/t.csv"], Ok summary)
     /\ dict_get summary "type"
        = Some (PyDict [("mean", PyObj "7.0" "7.0"); ("min", PyInt 7); ("max", PyInt 7)]))
  /\ (exists summary,
     summarize_csv (Sample.env ["t.csv"] (fun _ => Returns (Sample.frame_named "file"))
                               Sample.no_gpx Sample.no_fit StreamEnd) "/data/t.csv"
     = ([ReadCsv "/data/t.csv"], Ok summary)
     /\ dict_get summary "file"
        = Some (PyDict [("mean", PyObj "7.0" "7.0"); ("min", PyInt 7); ("max", PyInt 7)])).
Proof. split; eexists; split; reflexivity. Qed.

(** ** The tabular summary of a table with columns A, B, Date *)

Lemma date_range_of_Date env cols rows s lo hi :
  In "Date" (map fst cols) ->
  df_getitem {| df_columns := cols; df_rows := rows |} "Date" = Returns s ->
  Series_min env s = Returns lo ->
  Series_max env s = Returns hi ->
  date_range_of env {| df_columns := cols; df_rows := rows |}
                (py_str lo ++ " to " ++ py_str hi).
Proof.
  intros Hin Hs Hlo Hhi. unfold date_range_of, columns. cbn [df_columns].
  replace (existsb (String.eqb "Date") (map fst cols)) with true.
  - exists s, lo, hi. auto.
  - symmetry. apply existsb_exists. exists "Date". split; [assumption|apply String.eqb_refl].
Qed.

Lemma date_range_of_no_Date env df :
  ~ In "Date" (columns df) -> date_range_of env df "N/A".
Proof.
  intros Hnot. unfold date_range_of.
  destruct (existsb (String.eqb "Date") (columns df)) eqn:E; [|reflexivity].
  apply existsb_exists in E. destruct E as (c & Hin & Heq).
  apply String.eqb_eq in Heq. subst c. contradiction.
Qed.

(** C1, as the code has it.  For a table with N rows and the columns A, B and
    Date, where A is numeric, where no numeric column is named total_records,
    columns or date_range and where A is not named sample, [summarize_csv]
    returns a summary whose total_records is N, whose columns are A, B, Date
    in this order, whose date_range is the smallest Date, the word to, the
    largest Date, and whose entry under A is the dict of the mean, minimum
    and maximum of column A.  For a table without a column named Date, and
    none of its numeric columns named date_range, the date_range is N/A. *)
Theorem summarize_csv_three_columns :
  (forall env file_path A tA B tB tD rows s lo hi mean min max,
      let df := {| df_columns := [(A, tA); (B, tB); ("Date", tD)]; df_rows := rows |} in
      read_csv env file_path = Returns df ->
      is_number tA = true ->
      df_getitem df "Date" = Returns s ->
      Series_min env s = Returns lo ->
      Series_max env s = Returns hi ->
      numeric_stats env df A mean min max ->
      numeric_stats_return env df ->
      (forall col, In col (numeric_columns df) ->
                   col <> "total_records" /\ col <> "columns" /\ col <> "date_range") ->
      A <> "sample" ->
      exists summary,
        summarize_csv env file_path = ([ReadCsv file_path], Ok summary)
        /\ dict_get summary "total_records" = Some (PyInt (Z.of_nat (List.length rows)))
        /\ dict_get summary "columns" = Some (PyList [PyStr A; PyStr B; PyStr "Date"])
        /\ dict_get summary "date_range" = Some (PyStr (py_str lo ++ " to " ++ py_str hi))
        /\ dict_get summary A = Some (PyDict [("mean", mean); ("min", min); ("max", max)]))
  /\ (forall env file_path df,
      read_csv env file_path = Returns df ->
      ~ In "Date" (columns df) ->
      numeric_stats_return env df ->
      ~ In "date_range" (numeric_columns df) ->
      exists summary,
        summarize_csv env file_path = ([ReadCsv file_path], Ok summary)
        /\ dict_get summary "date_range" = Some (PyStr "N/A")).
Proof.
  split.
  - intros env file_path A tA B tB tD rows s lo hi mean min max df
           Hread HA Hs Hlo Hhi HstatsA Hstats Hnames Hsample.
    assert (Hdate : date_range_of env df (py_str lo ++ " to " ++ py_str hi)).
    { apply date_range_of_Date with (s := s); auto. cbn. auto. }
    destruct (summarize_csv_returns _ _ _ _ Hread Hdate Hstats)
      as (summary & Hrun & _ & Hfixed & Hcol).
    assert (HinA : In A (numeric_columns df)).
    { unfold numeric_columns, df. cbn [df_columns filter snd]. rewrite HA. now left. }
    exists summary. split; [exact Hrun|].
    assert (Hnot : forall k, k = "total_records" \/ k = "columns" \/ k = "date_range" ->
                             ~ In k (numeric_columns df)).
    { intros k Hk Hin. destruct (Hnames k Hin) as (H1 & H2 & H3).
      destruct Hk as [ -> | [ -> | -> ] ]; congruence. }
    repeat split.
    + rewrite Hfixed by (auto; discriminate). reflexivity.
    + rewrite Hfixed by (auto; discriminate). reflexivity.
    + rewrite Hfixed by (auto; discriminate). reflexivity.
    + apply Hcol; assumption.
  - intros env file_path df Hread Hnot Hstats Hname.
    destruct (summarize_csv_returns _ _ _ _ Hread (date_range_of_no_Date env df Hnot) Hstats)
      as (summary & Hrun & _ & Hfixed & _).
    exists summary. split; [exact Hrun|].
    rewrite Hfixed by (auto; discriminate). reflexivity.
Qed.

Lemma summarize_csv_three_columns_witness :
  exists summary,
    summarize_csv (Sample.env ["steps.csv"] (fun _ => Returns (Sample.frame_named "steps"))
                              Sample.no_gpx Sample.no_fit StreamEnd) "/data/steps.csv"
    = ([ReadCsv "/data/steps.csv"], Ok summary)
    /\ dict_get summary "total_records" = Some (PyInt 1)
    /\ dict_get summary "columns" = Some (PyList [PyStr "steps"; PyStr "B"; PyStr "Date"])
    /\ dict_get summary "date_range" = Some (PyStr "2024-01-01 to 2024-01-01")
    /\ dict_get summary "steps"
       = Some (PyDict [("mean", PyObj "7.0" "7.0"); ("min", PyInt 7); ("max", PyInt 7)]).
Proof.
  apply (proj1 summarize_csv_three_columns
           (Sample.env ["steps.csv"] (fun _ => Returns (Sample.frame_named "steps"))
                       Sample.no_gpx Sample.no_fit StreamEnd)
           "/data/steps.csv" "steps" int64 "B" object_ object_
           [[PyInt 7; PyStr "x"; PyStr "2024-01-01"]]
           {| s_dtype := object_; s_values := [PyStr "2024-01-01"] |}
           (PyStr "2024-01-01") (PyStr "2024-01-01")
           (PyObj "7.0" "7.0") (PyInt 7) (PyInt 7)).
  - reflexivity.
  - reflexivity.
  - reflexivity.
  - reflexivity.
  - reflexivity.
  - eexists. repeat split; reflexivity.
  - constructor; [|constructor].
    exists (PyObj "7.0" "7.0"), (PyInt 7), (PyInt 7),
      {| s_dtype := int64; s_values := [PyInt 7] |}.
    repeat split; reflexivity.
  - intros col [ <- | [] ]. repeat split; discriminate.
  - discriminate.
Defined.

(** C1 fails as stated on a table whose numeric column A is named
    total_records: the summary's total_records is then the statistics of that
    column and not the number of rows (here 1). *)
Lemma summarize_csv_total_records_counterexample :
  exists summary,
    summarize_csv (Sample.env ["t.csv"] (fun _ => Returns (Sample.frame_named "total_records"))
                              Sample.no_gpx Sample.no_fit StreamEnd) "/data/t.csv"
    = ([ReadCsv "/data/t.csv"], Ok summary)
    /\ List.length (df_rows (Sample.frame_named "total_records")) = 1
    /\ columns (Sample.frame_named "total_records") = ["total_records"; "B"; "Date"]
    /\ dict_get summary "total_records"
       = Some (PyDict [("mean", PyObj "7.0" "7.0"); ("min", PyInt 7); ("max", PyInt 7)]).
Proof. eexists. repeat split; reflexivity. Qed.

(** ** The prompt builder *)

Lemma getitem_Some (d : dict) (k : string) (v : pyval) :
  dict_get d k = Some v -> getitem d k = ret v.
Proof. intros H. unfold getitem. now rewrite H. Qed.

Lemma truthy_closing (prompt : string) (user_query : option string) :
  (if truthy_str user_query
   then ret (prompt ++ nl ++ "User Query: "
             ++ match user_query with Some q => q | None => "None" end ++ nl)
   else ret (prompt ++ default_prompts))
  = (ret (prompt ++ prompt_closing user_query) : Py string).
Proof.
  destruct user_query as [q|]; [|reflexivity].
  unfold truthy_str, prompt_closing. now destruct (String.eqb q "").
Qed.

Lemma dict_get_key (d : dict) (k : string) :
  In k (dict_keys d) -> exists v, dict_get d k = Some v.
Proof.
  induction d as [|[k' v'] d IH]; cbn; [intros []|].
  intros [->|Hin].
  - rewrite String.eqb_refl. eauto.
  - destruct (String.eqb k' k); eauto.
Qed.

Lemma concat_cons_empty_sep (l : string) (ls : list string) :
  String.concat "" (l :: ls) = l ++ String.concat "" ls.
Proof. destruct ls; cbn; [now rewrite append_nil_r|reflexivity]. Qed.

Lemma concat_app_empty_sep (xs ys : list string) :
  String.concat "" (xs ++ ys) = String.concat "" xs ++ String.concat "" ys.
Proof.
  induction xs as [|x xs IH]; [reflexivity|].
  change ((x :: xs) ++ ys)%list with (x :: (xs ++ ys)%list).
  now rewrite !concat_cons_empty_sep, IH, append_assoc.
Qed.

(** The loop over the keys of a summary, on any part [cols] of them. *)
Lemma stats_loop (summary : dict) (cols : list string) :
  dicts_have_stats summary ->
  (forall col, In col cols -> In col (dict_keys summary)) ->
  forall prompt,
    for_each cols (stats_line summary) prompt
    = ret (prompt ++ String.concat ""
             (flat_map
                (fun col =>
                   match dict_get summary col with
                   | Some (PyDict stats) =>
                       match dict_get stats "mean", dict_get stats "min", dict_get stats "max"
                       with
                       | Some mean, Some min, Some max => [stats_text col mean min max]
                       | _, _, _ => []
                       end
                   | _ => []
                   end)
                cols)).
Proof.
  intros Hstats. induction cols as [|col cols IH]; intros Hkeys prompt.
  - cbn. now rewrite append_nil_r.
  - assert (Hkeys' : forall c, In c cols -> In c (dict_keys summary))
      by (intros c Hc; apply Hkeys; now right).
    specialize (IH Hkeys').
    cbn [for_each flat_map]. unfold stats_line at 1.
    destruct (dict_get_key summary col (Hkeys col (or_introl eq_refl))) as [v Hget].
    rewrite (getitem_Some _ _ _ Hget), bind_ret_l.
    destruct v as [| | | | |xs|stats];
      try (rewrite Hget, bind_ret_l, IH; reflexivity).
    destruct (Hstats col stats Hget) as (mean & min & max & Hmean & Hmin & Hmax).
    rewrite (getitem_Some _ _ _ Hmean), bind_ret_l.
    rewrite (getitem_Some _ _ _ Hmin), bind_ret_l.
    rewrite (getitem_Some _ _ _ Hmax), !bind_ret_l.
    rewrite IH, Hget, Hmean, Hmin, Hmax.
    rewrite concat_app_empty_sep. cbn [String.concat].
    unfold stats_text. now rewrite !append_assoc.
Qed.

Lemma eq_str_None (s : string) : eq_str None s = false.
Proof. reflexivity. Qed.

(** What the loop body of [build_llm_prompt] adds for a tabular summary. *)
Lemma render_summary_tabular prompt summary file total_records columns date_range sample :
  eq_str (dict_get summary "type") "gpx" = false ->
  eq_str (dict_get summary "type") "fit" = false ->
  dict_get summary "file" = Some file ->
  dict_get summary "total_records" = Some total_records ->
  dict_get summary "columns" = Some columns ->
  dict_get summary "date_range" = Some date_range ->
  dict_get summary "sample" = Some sample ->
  dicts_have_stats summary ->
  render_summary prompt summary
  = ret (prompt ++ tabular_text file total_records columns date_range
                                (stats_lines summary) sample).
Proof.
  intros Hgpx Hfit Hfile Htotal Hcolumns Hrange Hsample Hstats.
  unfold render_summary. rewrite Hgpx, Hfit.
  rewrite (getitem_Some _ _ _ Hfile), bind_ret_l.
  rewrite (getitem_Some _ _ _ Htotal), bind_ret_l.
  rewrite (getitem_Some _ _ _ Hcolumns), bind_ret_l.
  rewrite (getitem_Some _ _ _ Hrange), bind_ret_l.
  rewrite (stats_loop summary (dict_keys summary) Hstats (fun _ H => H)), bind_ret_l.
  rewrite (getitem_Some _ _ _ Hsample), !bind_ret_l.
  unfold tabular_text, stats_lines. now rewrite !append_assoc.
Qed.

Lemma In_stats_lines (summary : dict) (line : string) :
  In line (stats_lines summary) <->
  exists col stats mean min max,
    In col (dict_keys summary)
    /\ dict_get summary col = Some (PyDict stats)
    /\ dict_get stats "mean" = Some mean
    /\ dict_get stats "min" = Some min
    /\ dict_get stats "max" = Some max
    /\ line = stats_text col mean min max.
Proof.
  unfold stats_lines. rewrite in_flat_map. split.
  - intros (col & Hkey & Hline).
    destruct (dict_get summary col) as [[| | | | | |stats]|] eqn:Hget; try contradiction.
    destruct (dict_get stats "mean") as [mean|] eqn:Hmean; [|contradiction].
    destruct (dict_get stats "min") as [min|] eqn:Hmin; [|contradiction].
    destruct (dict_get stats "max") as [max|] eqn:Hmax; [|contradiction].
    destruct Hline as [<-|[]]. exists col, stats, mean, min, max. auto 10.
  - intros (col & stats & mean & min & max & Hkey & Hget & Hmean & Hmin & Hmax & ->).
    exists col. split; [assumption|]. rewrite Hget, Hmean, Hmin, Hmax. now left.
Qed.

(** The prompt for one tabular summary. *)
Lemma build_llm_prompt_tabular env summary user_query
      file total_records columns date_range sample :
  eq_str (dict_get summary "type") "gpx" = false ->
  eq_str (dict_get summary "type") "fit" = false ->
  dict_get summary "file" = Some file ->
  dict_get summary "total_records" = Some total_records ->
  dict_get summary "columns" = Some columns ->
  dict_get summary "date_range" = Some date_range ->
  dict_get summary "sample" = Some sample ->
  dicts_have_stats summary ->
  build_llm_prompt env [summary] user_query
  = ret (prompt_intro env
         ++ tabular_text file total_records columns date_range (stats_lines summary) sample
         ++ prompt_closing user_query).
Proof.
  intros Hgpx Hfit Hfile Htotal Hcolumns Hrange Hsample Hstats.
  unfold build_llm_prompt. cbn [for_each]. fold (prompt_intro env).
  rewrite (render_summary_tabular (prompt_intro env) summary file total_records columns
             date_range sample) by assumption.
  rewrite !bind_ret_l, truthy_closing. now rewrite append_assoc.
Qed.

Lemma dict_get_In_keys (d : dict) (k : string) (v : pyval) :
  dict_get d k = Some v -> In k (dict_keys d).
Proof.
  induction d as [|[k' v'] d IH]; cbn; [discriminate|].
  destruct (String.eqb_spec k' k) as [->|_]; [now left|]. intros H. right. now apply IH.
Qed.

Lemma for_each_app {A S} (xs ys : list A) (body : S -> A -> Py S) (acc : S) :
  for_each (xs ++ ys) body acc = (acc' <- for_each xs body acc ;; for_each ys body acc').
Proof.
  revert acc. induction xs as [|x xs IH]; intros acc; cbn [for_each app].
  - now rewrite bind_ret_l.
  - rewrite bind_assoc. destruct (body acc x) as [t [a|e]]; [|reflexivity].
    unfold bind at 1 3. now rewrite IH.
Qed.

(** The loop over the keys stops with a KeyError at the first dict that
    lacks mean, min or max. *)
Lemma stats_loop_raises (summary : dict) (cols : list string) :
  (forall c, In c cols -> In c (dict_keys summary)) ->
  forall col stats,
    In col cols ->
    dict_get summary col = Some (PyDict stats) ->
    dict_get stats "mean" = None \/ dict_get stats "min" = None
    \/ dict_get stats "max" = None ->
    exists col' stats' key,
      (key = "mean" \/ key = "min" \/ key = "max")
      /\ dict_get summary col' = Some (PyDict stats')
      /\ dict_get stats' key = None
      /\ forall prompt,
           for_each cols (stats_line summary) prompt = ([], Raise (Exc (KeyError key))).
Proof.
  induction cols as [|c cols IH]; intros Hkeys col stats Hin Hget Hbad; [destruct Hin|].
  assert (Hkeys' : forall c', In c' cols -> In c' (dict_keys summary))
    by (intros c' Hc'; apply Hkeys; now right).
  destruct (dict_get_key summary c (Hkeys c (or_introl eq_refl))) as [v Hv].
  assert (Hskip : (forall prompt, exists prompt',
                      stats_line summary prompt c = ret prompt') ->
                  col <> c ->
                  exists col' stats' key,
                    (key = "mean" \/ key = "min" \/ key = "max")
                    /\ dict_get summary col' = Some (PyDict stats')
                    /\ dict_get stats' key = None
                    /\ forall prompt,
                         for_each (c :: cols) (stats_line summary) prompt
                         = ([], Raise (Exc (KeyError key)))).
  { intros Hhead Hne. destruct Hin as [Heq|Hin]; [congruence|].
    destruct (IH Hkeys' col stats Hin Hget Hbad) as (col' & stats' & key & Hkey & Hc & Hk & Hrun).
    exists col', stats', key. repeat split; try assumption.
    intros prompt. cbn [for_each]. destruct (Hhead prompt) as [prompt' ->].
    now rewrite bind_ret_l. }
  destruct v as [| | | | |xs|stats0];
    try (apply Hskip;
         [ intros prompt; exists prompt; unfold stats_line;
           now rewrite (getitem_Some _ _ _ Hv), bind_ret_l
         | intros ->; congruence ]).
  destruct (dict_get stats0 "mean") as [mean|] eqn:Hmean.
  2:{ exists c, stats0, "mean". repeat split; auto.
      intros prompt. cbn [for_each]. unfold stats_line, getitem at 2.
      now rewrite (getitem_Some _ _ _ Hv), bind_ret_l, Hmean. }
  destruct (dict_get stats0 "min") as [min|] eqn:Hmin.
  2:{ exists c, stats0, "min". repeat split; auto.
      intros prompt. cbn [for_each]. unfold stats_line, getitem at 3.
      now rewrite (getitem_Some _ _ _ Hv), bind_ret_l, (getitem_Some _ _ _ Hmean), bind_ret_l,
        Hmin. }
  destruct (dict_get stats0 "max") as [max|] eqn:Hmax.
  2:{ exists c, stats0, "max". repeat split; auto.
      intros prompt. cbn [for_each]. unfold stats_line, getitem at 4.
      now rewrite (getitem_Some _ _ _ Hv), bind_ret_l, (getitem_Some _ _ _ Hmean), bind_ret_l,
        (getitem_Some _ _ _ Hmin), bind_ret_l, Hmax. }
  apply Hskip.
  - intros prompt. eexists. unfold stats_line.
    rewrite (getitem_Some _ _ _ Hv), bind_ret_l, (getitem_Some _ _ _ Hmean), bind_ret_l,
      (getitem_Some _ _ _ Hmin), bind_ret_l, (getitem_Some _ _ _ Hmax), bind_ret_l.
    reflexivity.
  - intros ->. rewrite Hv in Hget. injection Hget as <-.
    rewrite Hmean, Hmin, Hmax in Hbad. now destruct Hbad as [H|[H|H]].
Qed.

(** A tabular summary with a dict that lacks mean, min or max has no block:
    the loop body of [build_llm_prompt] raises, whatever the prompt so far. *)
Lemma render_summary_raises summary file total_records columns date_range col stats :
  dict_get summary "type" = None ->
  dict_get summary "file" = Some file ->
  dict_get summary "total_records" = Some total_records ->
  dict_get summary "columns" = Some columns ->
  dict_get summary "date_range" = Some date_range ->
  dict_get summary col = Some (PyDict stats) ->
  dict_get stats "mean" = None \/ dict_get stats "min" = None
  \/ dict_get stats "max" = None ->
  exists col' stats' key,
    (key = "mean" \/ key = "min" \/ key = "max")
    /\ dict_get summary col' = Some (PyDict stats')
    /\ dict_get stats' key = None
    /\ forall prompt, render_summary prompt summary = ([], Raise (Exc (KeyError key))).
Proof.
  intros Htype Hfile Htotal Hcolumns Hrange Hget Hbad.
  destruct (stats_loop_raises summary (dict_keys summary) (fun _ H => H) col stats
              (dict_get_In_keys _ _ _ Hget) Hget Hbad)
    as (col' & stats' & key & Hkey & Hc & Hk & Hrun).
  exists col', stats', key. repeat split; try assumption.
  intros prompt. unfold render_summary. rewrite Htype. cbn [eq_str].
  rewrite (getitem_Some _ _ _ Hfile), bind_ret_l.
  rewrite (getitem_Some _ _ _ Htotal), bind_ret_l.
  rewrite (getitem_Some _ _ _ Hcolumns), bind_ret_l.
  rewrite (getitem_Some _ _ _ Hrange), bind_ret_l.
  rewrite Hrun. reflexivity.
Qed.

(** C6, as the code has it.  For a summary without a type tag whose dict
    values all have the entries mean, min and max, [build_llm_prompt] emits
    the line of statistics of a key exactly when the value under that key is a
    dict: the lines are those of [stats_lines], in the order of the keys.  So
    a dict with these three entries is rendered as statistics, a triple of a
    column or not, and no other value is.  And whenever a value of the
    summary is a dict without a mean, a min or a max, no line and no prompt
    is made: the loop body raises KeyError for a key that one of the dicts
    lacks, whatever the prompt so far, and [build_llm_prompt] raises it on
    every list in which the summaries before this one render. *)
Theorem stats_lines_of_mappings env summary user_query prompt
        file total_records columns date_range :
  dict_get summary "type" = None ->
  dict_get summary "file" = Some file ->
  dict_get summary "total_records" = Some total_records ->
  dict_get summary "columns" = Some columns ->
  dict_get summary "date_range" = Some date_range ->
  (forall sample,
      dict_get summary "sample" = Some sample ->
      dicts_have_stats summary ->
      render_summary prompt summary
      = ret (prompt ++ tabular_text file total_records columns date_range
                                    (stats_lines summary) sample)
      /\ build_llm_prompt env [summary] user_query
         = ret (prompt_intro env
                ++ tabular_text file total_records columns date_range (stats_lines summary)
                                sample
                ++ prompt_closing user_query)
      /\ (forall line,
            In line (stats_lines summary) <->
            exists col stats mean min max,
              In col (dict_keys summary)
              /\ dict_get summary col = Some (PyDict stats)
              /\ dict_get stats "mean" = Some mean
              /\ dict_get stats "min" = Some min
              /\ dict_get stats "max" = Some max
              /\ line = stats_text col mean min max))
  /\ (forall col stats,
        dict_get summary col = Some (PyDict stats) ->
        dict_get stats "mean" = None \/ dict_get stats "min" = None
        \/ dict_get stats "max" = None ->
        exists col' stats' key,
          (key = "mean" \/ key = "min" \/ key = "max")
          /\ dict_get summary col' = Some (PyDict stats')
          /\ dict_get stats' key = None
          /\ render_summary prompt summary = ([], Raise (Exc (KeyError key)))
          /\ build_llm_prompt env [summary] user_query = ([], Raise (Exc (KeyError key)))
          /\ forall before after,
               (exists rendered, build_llm_prompt env before user_query = ret rendered) ->
               build_llm_prompt env (before ++ summary :: after) user_query
               = ([], Raise (Exc (KeyError key)))).
Proof.
  intros Htype Hfile Htotal Hcolumns Hrange. split.
  - intros sample Hsample Hstats.
    split; [|split; [|apply In_stats_lines]].
    + apply render_summary_tabular; auto; rewrite Htype; apply eq_str_None.
    + apply build_llm_prompt_tabular; auto; rewrite Htype; apply eq_str_None.
  - intros col stats Hget Hbad.
    destruct (render_summary_raises summary file total_records columns date_range col stats
                Htype Hfile Htotal Hcolumns Hrange Hget Hbad)
      as (col' & stats' & key & Hkey & Hc & Hk & Hrun).
    exists col', stats', key.
    assert (Hlist : forall before after,
               (exists rendered, build_llm_prompt env before user_query = ret rendered) ->
               build_llm_prompt env (before ++ summary :: after) user_query
               = ([], Raise (Exc (KeyError key)))).
    { intros before after [rendered Hbefore]. unfold build_llm_prompt in *.
      rewrite for_each_app.
      destruct (for_each before render_summary _) as [t [p0|e]]; [|discriminate Hbefore].
      assert (Ht : t = []).
      { unfold bind in Hbefore. rewrite truthy_closing in Hbefore.
        cbn [ret] in Hbefore. rewrite List.app_nil_r in Hbefore.
        now injection Hbefore. }
      subst t. change (@nil event, @Ok string p0) with (ret p0 : Py string).
      rewrite bind_ret_l. cbn [for_each]. rewrite Hrun. reflexivity. }
    repeat split; try assumption.
    + apply Hrun.
    + apply (Hlist [] []). eexists. unfold build_llm_prompt. cbn [for_each].
      rewrite bind_ret_l. apply truthy_closing.
Qed.

Lemma stats_lines_of_mappings_witness :
  build_llm_prompt (Sample.env [] Sample.no_csv Sample.no_gpx Sample.no_fit StreamEnd)
                   [Sample.ranges_summary] None
  = ret (prompt_intro (Sample.env [] Sample.no_csv Sample.no_gpx Sample.no_fit StreamEnd)
         ++ tabular_text (PyStr "ranges.csv") (PyInt 0) (PyList []) (PyStr "N/A")
                         ["limits: mean=n/a, min=40, max=190" ++ nl] (PyList [])
         ++ prompt_closing None).
Proof.
  refine (proj1 (proj2
    (proj1
       (stats_lines_of_mappings
          (Sample.env [] Sample.no_csv Sample.no_gpx Sample.no_fit StreamEnd)
          Sample.ranges_summary None ""
          (PyStr "ranges.csv") (PyInt 0) (PyList []) (PyStr "N/A")
          eq_refl eq_refl eq_refl eq_refl eq_refl)
       (PyList []) eq_refl _))).
  intros col stats Hget. cbn in Hget.
  repeat match type of Hget with
         | (if ?b then _ else _) = _ => destruct b
         end; try discriminate.
  injection Hget as <-. repeat eexists.
Defined.

(** C6 fails as stated on a summary with a dict that has no mean: the value
    under notes is a dict, and instead of a line for it [build_llm_prompt]
    raises a KeyError, so no prompt is built at all. *)
Lemma stats_line_without_mean_counterexample :
  dict_get Sample.notes_summary "type" = None
  /\ dict_get Sample.notes_summary "notes" = Some (PyDict [("author", PyStr "me")])
  /\ build_llm_prompt (Sample.env [] Sample.no_csv Sample.no_gpx Sample.no_fit StreamEnd)
                      [Sample.notes_summary] None
     = ([], Raise (Exc (KeyError "mean"))).
Proof. repeat split; reflexivity. Qed.

(** C7. [build_llm_prompt] is deterministic: two calls with equal summaries
    and equal user query, on the same date (whatever the time of day and the
    rest of the environment), end the same way, and so return the same
    string, byte for byte. *)
Theorem build_llm_prompt_deterministic env env' summaries summaries' user_query user_query' :
  summaries = summaries' ->
  user_query = user_query' ->
  year (now env) = year (now env') ->
  month (now env) = month (now env') ->
  day (now env) = day (now env') ->
  build_llm_prompt env summaries user_query = build_llm_prompt env' summaries' user_query'.
Proof.
  intros <- <- Hyear Hmonth Hday.
  unfold build_llm_prompt, strftime_Ymd. now rewrite Hyear, Hmonth, Hday.
Qed.

Lemma build_llm_prompt_deterministic_witness :
  build_llm_prompt (Sample.env [] Sample.no_csv Sample.no_gpx Sample.no_fit StreamEnd)
                   [Sample.ranges_summary] (Some "How was my week?")
  = build_llm_prompt
      (Sample.later (Sample.env [] Sample.no_csv Sample.no_gpx Sample.no_fit StreamEnd)
                    Sample.broken_stream)
      [Sample.ranges_summary] (Some "How was my week?").
Proof.
  apply build_llm_prompt_deterministic; reflexivity.
Defined.

(** ** Traces *)

Lemma trace_bind {A B} (m : Py A) (f : A -> Py B) :
  trace (bind m f)
  = (trace m ++ match outcome m with Ok a => trace (f a) | Raise _ => [] end)%list.
Proof.
  destruct m as [t [a|e]]; cbn.
  - now destruct (f a).
  - now rewrite List.app_nil_r.
Qed.

Lemma outcome_bind {A B} (m : Py A) (f : A -> Py B) :
  outcome (bind m f)
  = match outcome m with Ok a => outcome (f a) | Raise e => Raise e end.
Proof. destruct m as [t [a|e]]; cbn; [now destruct (f a)|reflexivity]. Qed.

Lemma silent_ret {A} (a : A) : silent (ret a).
Proof. reflexivity. Qed.

Lemma silent_lift {A} (a : answer A) : silent (lift a).
Proof. reflexivity. Qed.

Lemma silent_bind {A B} (m : Py A) (f : A -> Py B) :
  silent m -> (forall a, silent (f a)) -> silent (bind m f).
Proof.
  unfold silent. intros Hm Hf. rewrite trace_bind, Hm.
  destruct (outcome m); [apply Hf|reflexivity].
Qed.

Lemma silent_for_each {A S} (xs : list A) (body : S -> A -> Py S) :
  (forall acc x, silent (body acc x)) -> forall acc, silent (for_each xs body acc).
Proof.
  intros Hbody. induction xs as [|x xs IH]; intros acc; cbn [for_each].
  - apply silent_ret.
  - apply silent_bind; auto.
Qed.

Lemma silent_getitem (d : dict) (k : string) : silent (getitem d k).
Proof. apply silent_lift. Qed.

Lemma silent_list_getitem {A} (xs : list A) (i : Z) : silent (list_getitem xs i).
Proof. apply silent_lift. Qed.

Ltac silence :=
  repeat first
    [ apply silent_ret | apply silent_lift | apply silent_getitem | apply silent_list_getitem
    | apply silent_for_each; intros
    | apply silent_bind; [|intros]
    | match goal with
      | |- silent (if ?b then _ else _) => destruct b
      | |- silent (match ?v with _ => _ end) => destruct v
      end ].

Lemma silent_build_llm_prompt env summaries user_query :
  silent (build_llm_prompt env summaries user_query).
Proof. unfold build_llm_prompt, render_summary, stats_line. silence. Qed.

Lemma trace_summarize_csv env file_path :
  trace (summarize_csv env file_path) = [ReadCsv file_path].
Proof.
  unfold summarize_csv. rewrite trace_bind. cbn [call trace outcome fst snd].
  destruct (read_csv env file_path) as [df|e]; [|reflexivity].
  cbn [app]. f_equal.
  match goal with |- trace ?m = [] => change (silent m) end.
  unfold csv_column_stats. silence.
Qed.

Lemma trace_summarize_gpx env file_path :
  trace (summarize_gpx env file_path) = [OpenGpx file_path].
Proof.
  unfold summarize_gpx. rewrite trace_bind. cbn [call trace outcome fst snd].
  destruct (gpxpy_parse env file_path) as [gpx|e]; [|reflexivity].
  cbn [app]. f_equal.
  match goal with |- trace ?m = [] => change (silent m) end. silence.
Qed.

Lemma trace_summarize_fit env file_path :
  trace (summarize_fit env file_path) = [OpenFit file_path].
Proof.
  unfold summarize_fit. rewrite trace_bind. cbn [call trace outcome fst snd].
  destruct (fitparse_FitFile env file_path) as [fitfile|e]; [|reflexivity].
  cbn [app]. f_equal.
  match goal with |- trace ?m = [] => change (silent m) end. silence.
Qed.

Lemma trace_dispatch env summaries f :
  existsb is_chat (trace (dispatch env summaries f)) = false.
Proof.
  unfold dispatch.
  destruct (String.eqb _ ".csv");
    [|destruct (String.eqb _ ".gpx"); [|destruct (String.eqb _ ".fit"); [|reflexivity]]];
    rewrite trace_bind.
  - rewrite trace_summarize_csv. now destruct (outcome _).
  - rewrite trace_summarize_gpx. now destruct (outcome _).
  - rewrite trace_summarize_fit. now destruct (outcome _).
Qed.

Lemma trace_for_each_dispatch env files :
  forall summaries,
    existsb is_chat (trace (for_each files (dispatch env) summaries)) = false.
Proof.
  induction files as [|f files IH]; intros summaries; [reflexivity|].
  cbn [for_each]. rewrite trace_bind, existsb_app, trace_dispatch.
  destruct (outcome _); [apply IH|reflexivity].
Qed.

(** When the part of a run before the model call does not reach the model,
    a run that reaches it went through that part without an exception. *)
Lemma reach_bind {A} (m : Py A) (f : A -> Py unit) :
  existsb is_chat (trace m) = false ->
  (forall a, existsb is_chat (trace (f a)) = true -> exit_status (outcome (f a)) = 0%Z) ->
  existsb is_chat (trace (bind m f)) = true ->
  exit_status (outcome (bind m f)) = 0%Z.
Proof.
  intros Hm Hf. rewrite trace_bind, outcome_bind, existsb_app, Hm.
  destruct (outcome m) as [a|e]; [apply Hf|discriminate].
Qed.

(** ** The model client *)

Lemma concat_nonempty (xs : list string) :
  String.concat "" (filter (fun s => negb (String.eqb s "")) xs) = String.concat "" xs.
Proof.
  induction xs as [|x xs IH]; [reflexivity|].
  cbn [filter]. destruct (String.eqb_spec x "") as [->|Hx]; cbn [negb].
  - now rewrite concat_cons_empty_sep, IH.
  - now rewrite !concat_cons_empty_sep, IH.
Qed.

(** The loop keeps the non-empty fragments, and ends by a return or by an
    error of the stream, never by another exception. *)
Lemma consume_spec (stream : ChatStream) :
  forall collected,
    fst (consume stream collected)
    = (collected ++ filter (fun s => negb (String.eqb s "")) (received stream))%list
    /\ (outcome (snd (consume stream collected)) = Ok tt
        \/ exists e, outcome (snd (consume stream collected)) = Raise (Exc e))
    /\ existsb is_chat (trace (snd (consume stream collected))) = false.
Proof.
  induction stream as [|e|chunk rest IH]; intros collected; cbn [consume received filter].
  - rewrite List.app_nil_r. split; [reflexivity|]. split; [now left|reflexivity].
  - rewrite List.app_nil_r. split; [reflexivity|]. split; [right; now exists e|reflexivity].
  - destruct (negb (String.eqb (chunk_text chunk) "")) eqn:Htext.
    + specialize (IH (collected ++ [chunk_text chunk])%list).
      destruct (consume rest (collected ++ [chunk_text chunk])%list) as [collected' m].
      cbn [fst snd] in *. destruct IH as (Hcollected & Hend & Htrace).
      split; [now rewrite Hcollected, <- List.app_assoc|].
      rewrite outcome_bind, trace_bind. cbn [emit outcome trace fst snd existsb app is_chat].
      split; assumption.
    + apply IH.
Qed.

Lemma outcome_query_ollama env prompt model :
  outcome (query_ollama env prompt model)
  = Ok (String.concat ""
          (received (ollama_chat env model [("system", system_content); ("user", prompt)]
                                 chat_options))).
Proof.
  unfold query_ollama. rewrite outcome_bind. cbn [emit outcome snd].
  set (stream := ollama_chat env model _ _).
  destruct (consume_spec stream []) as (Hcollected & Hend & _).
  destruct (consume stream []) as [collected [t r]]. cbn [fst snd outcome] in *.
  subst collected. cbn [app]. rewrite outcome_bind.
  assert (Hbody : outcome (try_except_Exception
                    (emit (Chat model [("system", system_content); ("user", prompt)] chat_options) ;;;
                     (t, r) ;;; emit (Print (nl ++ "Done." ++ nl)))
                    (fun e => emit (Print ("Error: " ++ str_of_Exception e ++ nl))))
                  = Ok tt).
  { destruct Hend as [->|[e ->]]; reflexivity. }
  rewrite Hbody. cbn [ret outcome snd]. unfold Python.join. now rewrite concat_nonempty.
Qed.

(** C5. [query_ollama] never raises: whatever the stream of the model does
    (chunks, then its end or an error of the client, at the call or later),
    it returns the concatenation, in the order of arrival, of the text
    fragments received before the stream ended or failed.  So a run of [main]
    that reaches the model call exits with status 0. *)
Theorem query_ollama_never_raises env prompt model args :
  outcome (query_ollama env prompt model)
  = Ok (String.concat ""
          (received (ollama_chat env model [("system", system_content); ("user", prompt)]
                                 chat_options)))
  /\ (existsb is_chat (trace (main env args)) = true ->
      exit_status (outcome (main env args)) = 0%Z).
Proof.
  split; [apply outcome_query_ollama|].
  unfold main.
  apply reach_bind; [now destruct (negb (nonempty (discover env args)))|intros _].
  apply reach_bind; [apply trace_for_each_dispatch|intros summaries].
  apply reach_bind; [now destruct (negb (nonempty summaries))|intros _].
  apply reach_bind.
  { rewrite (silent_build_llm_prompt env summaries (query args)). reflexivity. }
  intros prompt' _. rewrite outcome_bind, outcome_query_ollama. reflexivity.
Qed.

Lemma query_ollama_never_raises_witness :
  outcome (query_ollama (Sample.env ["hr.csv"] (fun _ => Returns hr_frame)
                                    Sample.no_gpx Sample.no_fit Sample.broken_stream)
                        "How was my week?" "deepseek-r1")
  = Ok "Your heart rate"
  /\ exit_status (outcome (main (Sample.env ["hr.csv"] (fun _ => Returns hr_frame)
                                            Sample.no_gpx Sample.no_fit Sample.broken_stream)
                                default_args)) = 0%Z.
Proof.
  destruct (query_ollama_never_raises
              (Sample.env ["hr.csv"] (fun _ => Returns hr_frame)
                          Sample.no_gpx Sample.no_fit Sample.broken_stream)
              "How was my week?" "deepseek-r1" default_args) as [Hreturn Hexit].
  split; [exact Hreturn|apply Hexit; reflexivity].
Defined.

(** ** Paths and patterns *)

Lemma string_mem_append (c : ascii) (a b : string) :
  string_mem c (a ++ b) = string_mem c a || string_mem c b.
Proof.
  induction a as [|x a IH]; [reflexivity|].
  cbn. now rewrite IH, orb_assoc.
Qed.

Lemma after_last_none (c : ascii) (s : string) :
  string_mem c s = false -> OsPath.after_last c s = s.
Proof.
  destruct s as [|x s]; [reflexivity|]. cbn.
  intros H. apply orb_false_elim in H. destruct H as [Hx Hs].
  rewrite Hs. rewrite Ascii.eqb_sym in Hx. now rewrite Hx.
Qed.

Lemma after_last_append (c : ascii) (a b : string) :
  string_mem c b = false -> OsPath.after_last c (a ++ String c b) = b.
Proof.
  intros Hb. induction a as [|x a IH]; cbn.
  - now rewrite Hb, Ascii.eqb_refl.
  - rewrite string_mem_append. cbn. rewrite Ascii.eqb_refl, orb_true_r. exact IH.
Qed.

Lemma endswith_char_split (c : ascii) (s : string) :
  OsPath.endswith_char c s = true -> exists s', s = s' ++ String c "".
Proof.
  induction s as [|x s IH]; [discriminate|].
  destruct s as [|y s].
  - cbn. intros H. apply Ascii.eqb_eq in H. subst x. now exists "".
  - intros H. destruct (IH H) as [s' Hs']. exists (String x s'). cbn. now rewrite <- Hs'.
Qed.

Lemma prefix_slash (s : string) :
  OsPath.startswith "/" s = true -> string_mem "/" s = true.
Proof.
  destruct s as [|x s]; [discriminate|]. cbn.
  rewrite andb_true_r. intros ->. reflexivity.
Qed.

(** [os.path.join(dir, name)] is [name] after some prefix, and its last
    component is [name], for a name without a slash. *)
Lemma join_plain_name (dir name : string) :
  string_mem "/" name = false ->
  (exists before, OsPath.join dir name = before ++ name)
  /\ OsPath.basename (OsPath.join dir name) = name.
Proof.
  intros Hname. unfold OsPath.join, OsPath.basename.
  destruct (OsPath.startswith "/" name) eqn:Hstart.
  { apply prefix_slash in Hstart. congruence. }
  destruct (String.eqb_spec dir "") as [->|Hdir]; cbn [orb].
  { split; [now exists ""|now apply after_last_none]. }
  destruct (OsPath.endswith_char "/" dir) eqn:Hend.
  - split; [now exists dir|].
    apply endswith_char_split in Hend. destruct Hend as [dir' ->].
    rewrite append_assoc. cbn. now apply after_last_append.
  - split; [exists (dir ++ "/"); now rewrite append_assoc|].
    cbn. now apply after_last_append.
Qed.

(** A pattern of literal characters matches its own text only. *)
Lemma fnmatchcase_literal (pat name : string) :
  string_mem "*" pat = false -> string_mem "?" pat = false ->
  OsPath.fnmatchcase_pat pat name = String.eqb name pat.
Proof.
  revert name. induction pat as [|c pat IH]; intros name Hstar Hquestion.
  - reflexivity.
  - cbn [string_mem] in Hstar, Hquestion.
    apply orb_false_elim in Hstar. destruct Hstar as [Hc1 Hstar].
    apply orb_false_elim in Hquestion. destruct Hquestion as [Hc2 Hquestion].
    assert (Hstep : OsPath.fnmatchcase_pat (String c pat) name
                    = match name with
                      | EmptyString => false
                      | String a n' => Ascii.eqb a c && OsPath.fnmatchcase_pat pat n'
                      end).
    { apply Ascii.eqb_neq in Hc1, Hc2.
      destruct c as [[] [] [] [] [] [] [] []]; try reflexivity; congruence. }
    rewrite Hstep. destruct name as [|a name]; [reflexivity|].
    rewrite IH by assumption. reflexivity.
Qed.

(** A name matches a star followed by literal characters exactly when it
    ends with these characters. *)
Lemma fnmatchcase_star (suffix name : string) :
  string_mem "*" suffix = false -> string_mem "?" suffix = false ->
  OsPath.fnmatchcase name (String "*" suffix) = true ->
  exists stem, name = stem ++ suffix.
Proof.
  intros Hstar Hquestion. unfold OsPath.fnmatchcase. cbn [OsPath.fnmatchcase_pat].
  induction name as [|a name IH].
  - rewrite fnmatchcase_literal by assumption. rewrite orb_false_r.
    intros H. apply String.eqb_eq in H. now exists "".
  - intros H. apply orb_true_iff in H. destruct H as [H|H].
    + rewrite fnmatchcase_literal in H by assumption.
      apply String.eqb_eq in H. now exists "".
    + destruct (IH H) as [stem ->]. now exists (String a stem).
Qed.

Lemma lstrip_dots_visible (s : string) :
  OsPath.ishidden s = false -> OsPath.lstrip_dots s = s.
Proof.
  destruct s as [|c s]; [reflexivity|].
  destruct c as [[] [] [] [] [] [] [] []]; (reflexivity || discriminate).
Qed.

(** The extension [os.path.splitext] finds in the path of a visible file
    whose name ends with a dot and [ext]. *)
Lemma splitext_of_name (dir name stem ext f : string) :
  name = stem ++ String "." ext ->
  string_mem "." ext = false ->
  string_mem "/" name = false ->
  OsPath.ishidden name = false ->
  f = name \/ f = OsPath.join dir name ->
  snd (OsPath.splitext f) = String "." ext.
Proof.
  intros Hname Hext Hslash Hvisible Hf.
  assert (Hbase : OsPath.basename f = name).
  { destruct Hf as [->| ->].
    - now apply after_last_none.
    - now apply join_plain_name. }
  unfold OsPath.splitext. rewrite Hbase, (lstrip_dots_visible name Hvisible).
  assert (Hdot : string_mem "." name = true).
  { rewrite Hname, string_mem_append. cbn. now rewrite orb_true_r. }
  rewrite Hdot. cbn [snd]. f_equal. rewrite Hname. now apply after_last_append.
Qed.

Lemma In_glob1 env dirname pattern name :
  OsPath.ishidden pattern = false ->
  In name (glob1 env dirname pattern) ->
  In name (listdir env dirname)
  /\ OsPath.ishidden name = false
  /\ OsPath.fnmatchcase name pattern = true.
Proof.
  intros Hpattern. unfold glob1. rewrite Hpattern. cbn [negb].
  rewrite !filter_In, negb_true_iff. tauto.
Qed.

(** What [glob.glob] gives for a directory joined with a star and a suffix:
    paths whose last component is a visible name of some directory that
    matches the pattern. *)
Lemma glob_star_pattern env dir suffix f :
  string_mem "/" suffix = false ->
  In f (glob_glob env (OsPath.join dir (String "*" suffix))) ->
  exists name,
    (f = name \/ exists d, f = OsPath.join d name)
    /\ (exists d, In name (listdir env d))
    /\ OsPath.ishidden name = false
    /\ OsPath.fnmatchcase name (String "*" suffix) = true.
Proof.
  intros Hsuffix. set (pat := String "*" suffix).
  assert (Hpat : string_mem "/" pat = false) by (subst pat; cbn; now rewrite Hsuffix).
  destruct (join_plain_name dir pat Hpat) as [[before Hjoin] Hbase].
  unfold glob_glob, OsPath.split. fold (OsPath.basename (OsPath.join dir pat)).
  rewrite Hbase.
  assert (Hmagic : OsPath.has_magic (OsPath.join dir pat) = true).
  { unfold OsPath.has_magic. rewrite Hjoin, string_mem_append. subst pat. cbn.
    now rewrite orb_true_r. }
  rewrite Hmagic. cbn [negb].
  assert (Hmagic' : OsPath.has_magic pat = true) by reflexivity.
  rewrite Hmagic'.
  match goal with |- In f (if ?c then _ else _) -> _ => destruct c end.
  - intros Hin. apply In_glob1 in Hin; [|reflexivity].
    exists f. split; [now left|]. split; [exists "."; tauto|tauto].
  - rewrite in_flat_map. intros (d & _ & Hin). rewrite in_map_iff in Hin.
    destruct Hin as (name & <- & Hin). apply In_glob1 in Hin; [|reflexivity].
    exists name. split; [right; now exists d|]. split; [exists d; tauto|tauto].
Qed.

(** A path found for the pattern of an extension ends with a dot and the
    extension, and this is the extension [os.path.splitext] finds in it. *)
Lemma glob_extension env dir ext f :
  plain_names env ->
  string_mem "." ext = false -> string_mem "/" ext = false ->
  string_mem "*" ext = false -> string_mem "?" ext = false ->
  In f (glob_glob env (OsPath.join dir (String "*" (String "." ext)))) ->
  exists stem, f = stem ++ String "." ext /\ snd (OsPath.splitext f) = String "." ext.
Proof.
  intros Hplain Hdot Hslash Hstar Hquestion Hin.
  apply glob_star_pattern in Hin; [|cbn; assumption].
  destruct Hin as (name & Hf & [d Hname] & Hvisible & Hmatch).
  apply fnmatchcase_star in Hmatch; [|cbn; assumption|cbn; assumption].
  destruct Hmatch as [stem Hstem].
  assert (Hsplit : snd (OsPath.splitext f) = String "." ext).
  { destruct Hf as [Hf|[d' Hf]].
    - apply splitext_of_name with (dir := "") (name := name) (stem := stem); eauto.
    - apply splitext_of_name with (dir := d') (name := name) (stem := stem); eauto. }
  destruct Hf as [->|[d' ->]].
  - now exists stem.
  - destruct (join_plain_name d' name (Hplain d name Hname)) as [[before Hjoin] _].
    exists (before ++ stem). split; [|exact Hsplit].
    now rewrite Hjoin, Hstem, append_assoc.
Qed.

(** A discovered path ends with one of the three extensions, and this is the
    extension [os.path.splitext] finds in it. *)
Lemma discovered_extension env args f :
  plain_names env ->
  In f (discover env args) ->
  exists ext stem,
    (ext = "csv" \/ ext = "gpx" \/ ext = "fit")
    /\ f = stem ++ String "." ext
    /\ snd (OsPath.splitext f) = String "." ext.
Proof.
  intros Hplain. unfold discover. cbn [flat_map]. rewrite List.app_nil_r, !in_app_iff.
  intros [Hin|[Hin|Hin]]; apply glob_extension in Hin; try reflexivity; try assumption;
    destruct Hin as (stem & Hf & Hsplit).
  - exists "csv", stem. auto.
  - exists "gpx", stem. auto.
  - exists "fit", stem. auto.
Qed.

(** ** Discovery and dispatch *)

Lemma pair_trace_outcome {A} (m : Py A) : m = (trace m, outcome m).
Proof. now destruct m. Qed.

(** On a discovered file, [main]'s loop body calls the summarizer of the
    file's extension; it never takes the branch of unsupported files. *)
Lemma dispatch_discovered env args f :
  plain_names env ->
  In f (discover env args) ->
  (ends_with ".csv" f
   /\ forall summaries,
        dispatch env summaries f = (s <- summarize_csv env f ;; ret (summaries ++ [s])%list))
  \/ (ends_with ".gpx" f
      /\ forall summaries,
           dispatch env summaries f = (s <- summarize_gpx env f ;; ret (summaries ++ [s])%list))
  \/ (ends_with ".fit" f
      /\ forall summaries,
           dispatch env summaries f = (s <- summarize_fit env f ;; ret (summaries ++ [s])%list)).
Proof.
  intros Hplain Hin.
  destruct (discovered_extension env args f Hplain Hin)
    as (ext & stem & Hext & Hf & Hsplit).
  destruct Hext as [->|[->| ->]]; [left|right; left|right; right];
    (split; [now exists stem|]); intros summaries;
    unfold dispatch; rewrite Hsplit; reflexivity.
Qed.

(** The loop over files that are all dispatched to a summarizer that returns:
    one summary for each file, in the order of the files, and no message. *)
Lemma for_each_dispatch env (files : list string) :
  (forall f, In f files ->
     exists ev s,
       summary_of env f s
       /\ is_print ev = false
       /\ forall summaries, dispatch env summaries f = ([ev], Ok (summaries ++ [s])%list)) ->
  forall acc,
  exists t new,
    for_each files (dispatch env) acc = (t, Ok (acc ++ new)%list)
    /\ Forall2 (summary_of env) files new
    /\ existsb is_print t = false.
Proof.
  induction files as [|f files IH]; intros Hfiles acc.
  - exists [], []. rewrite List.app_nil_r. repeat split. constructor.
  - destruct (Hfiles f (or_introl eq_refl)) as (ev & s & Hs & Hev & Hrun).
    destruct (IH (fun f' H => Hfiles f' (or_intror H)) (acc ++ [s])%list)
      as (t & new & Hloop & Hall & Ht).
    exists (ev :: t), (s :: new). split; [|split].
    + cbn [for_each]. rewrite Hrun. unfold bind. rewrite Hloop.
      now rewrite <- List.app_assoc.
    + now constructor.
    + cbn [existsb]. now rewrite Hev, Ht.
Qed.

Lemma dispatch_returns env args f :
  plain_names env ->
  summarizers_return env (discover env args) ->
  In f (discover env args) ->
  exists ev s,
    summary_of env f s
    /\ is_print ev = false
    /\ forall summaries, dispatch env summaries f = ([ev], Ok (summaries ++ [s])%list).
Proof.
  intros Hplain Hreturn Hin.
  destruct (Hreturn f Hin) as (Hcsv & Hgpx & Hfit).
  destruct (dispatch_discovered env args f Hplain Hin)
    as [[Hext Hrun]|[[Hext Hrun]|[Hext Hrun]]].
  - destruct (Hcsv Hext) as [s Hs]. exists (ReadCsv f), s.
    split; [now apply summary_of_csv|]. split; [reflexivity|]. intros summaries.
    rewrite Hrun, (pair_trace_outcome (summarize_csv env f)), trace_summarize_csv, Hs.
    reflexivity.
  - destruct (Hgpx Hext) as [s Hs]. exists (OpenGpx f), s.
    split; [now apply summary_of_gpx|]. split; [reflexivity|]. intros summaries.
    rewrite Hrun, (pair_trace_outcome (summarize_gpx env f)), trace_summarize_gpx, Hs.
    reflexivity.
  - destruct (Hfit Hext) as [s Hs]. exists (OpenFit f), s.
    split; [now apply summary_of_fit|]. split; [reflexivity|]. intros summaries.
    rewrite Hrun, (pair_trace_outcome (summarize_fit env f)), trace_summarize_fit, Hs.
    reflexivity.
Qed.

(** Whenever the loop over discovered files returns, it has added one
    summary for each file. *)
Lemma for_each_dispatch_length env (files : list string) :
  (forall f, In f files ->
     exists summarizer : Env -> string -> Py dict,
       forall summaries,
         dispatch env summaries f
         = (s <- summarizer env f ;; ret (summaries ++ [s])%list)) ->
  forall acc t summaries,
    for_each files (dispatch env) acc = (t, Ok summaries) ->
    List.length summaries = List.length acc + List.length files.
Proof.
  induction files as [|f files IH]; intros Hfiles acc t summaries Hloop.
  - cbn in Hloop. injection Hloop as _ <-. cbn. lia.
  - destruct (Hfiles f (or_introl eq_refl)) as [summarizer Hrun].
    cbn [for_each] in Hloop. rewrite Hrun, bind_assoc in Hloop.
    destruct (summarizer env f) as [t1 [s|e]]; [|discriminate].
    cbn [bind] in Hloop. rewrite bind_ret_l in Hloop.
    destruct (for_each files (dispatch env) (acc ++ [s])%list) as [t2 r] eqn:Hrest.
    injection Hloop as _ ->.
    rewrite (IH (fun f' H => Hfiles f' (or_intror H)) _ _ _ Hrest).
    rewrite List.length_app. cbn. lia.
Qed.

(** C10. Every path the discovery finds ends in .csv, .gpx or .fit, and
    [main]'s loop dispatches it to the summarizer of this extension: the
    branch of unsupported files is never taken.  When the files are there and
    their summarizers return, the loop returns one summary for each file, in
    the order of discovery, prints nothing, and [main] goes on to the prompt
    and the model.  Whenever the loop returns it has one summary for each
    file, so after a discovery that found files the list of summaries is not
    empty: the exit of the empty list of summaries is never taken. *)
Theorem discovered_files_are_summarized env args :
  plain_names env ->
  (forall f, In f (discover env args) ->
     (ends_with ".csv" f
      /\ forall summaries,
           dispatch env summaries f
           = (s <- summarize_csv env f ;; ret (summaries ++ [s])%list))
     \/ (ends_with ".gpx" f
         /\ forall summaries,
              dispatch env summaries f
              = (s <- summarize_gpx env f ;; ret (summaries ++ [s])%list))
     \/ (ends_with ".fit" f
         /\ forall summaries,
              dispatch env summaries f
              = (s <- summarize_fit env f ;; ret (summaries ++ [s])%list)))
  /\ (discover env args <> [] ->
      summarizers_return env (discover env args) ->
      exists t summaries,
        for_each (discover env args) (dispatch env) [] = (t, Ok summaries)
        /\ Forall2 (summary_of env) (discover env args) summaries
        /\ List.length summaries = List.length (discover env args)
        /\ existsb is_print t = false
        /\ main env args = bind (t, Ok summaries) (prompt_and_query env args))
  /\ (forall t summaries,
        for_each (discover env args) (dispatch env) [] = (t, Ok summaries) ->
        List.length summaries = List.length (discover env args)
        /\ (discover env args <> [] -> nonempty summaries = true)).
Proof.
  intros Hplain. split; [intros f; now apply dispatch_discovered|]. split.
  2:{ intros t summaries Hloop.
      assert (Hlen : List.length summaries = List.length (discover env args)).
      { apply (for_each_dispatch_length env (discover env args)) with (acc := []) (t := t);
          [|exact Hloop].
        intros f Hin.
        destruct (dispatch_discovered env args f Hplain Hin) as [[_ H]|[[_ H]|[_ H]]].
        - now exists summarize_csv.
        - now exists summarize_gpx.
        - now exists summarize_fit. }
      split; [exact Hlen|]. intros Hfiles.
      destruct summaries; [|reflexivity].
      destruct (discover env args); [congruence|discriminate]. }
  intros Hfiles Hreturn.
  destruct (for_each_dispatch env (discover env args)
              (fun f H => dispatch_returns env args f Hplain Hreturn H) [])
    as (t & summaries & Hloop & Hall & Ht).
  cbn [app] in Hloop. exists t, summaries.
  split; [exact Hloop|]. split; [exact Hall|].
  assert (Hlen : List.length summaries = List.length (discover env args))
    by (symmetry; exact (Forall2_length Hall)).
  split; [exact Hlen|]. split; [exact Ht|].
  unfold main. rewrite Hloop.
  destruct (discover env args) as [|f files]; [congruence|].
  destruct summaries as [|s summaries]; [discriminate|].
  cbn [nonempty negb]. rewrite bind_ret_l. unfold bind at 1 3.
  cbn [nonempty negb]. rewrite bind_ret_l. reflexivity.
Qed.

Lemma plain_names_sample names csv gpx fit stream :
  forallb (fun n => negb (string_mem "/" n)) names = true ->
  plain_names (Sample.env names csv gpx fit stream).
Proof.
  intros Hnames dir name. cbn [listdir Sample.env].
  destruct (String.eqb dir "/data"); [|intros []].
  rewrite forallb_forall in Hnames. intros Hin.
  apply Hnames in Hin. now apply negb_true_iff in Hin.
Qed.

Lemma discovered_files_are_summarized_witness :
  exists t summaries,
    for_each ["/data/hr.csv"; "/data/walk.gpx"; "/data/ride.fit"]
             (dispatch (Sample.env Sample.mixed_names (fun _ => Returns hr_frame)
                                   (fun _ => Returns Sample.two_point_gpx)
                                   (fun _ => Returns Sample.one_record_fit) StreamEnd)) []
    = (t, Ok summaries)
    /\ List.length summaries = 3
    /\ existsb is_print t = false.
Proof.
  destruct (proj1 (proj2 (discovered_files_are_summarized
                     (Sample.env Sample.mixed_names (fun _ => Returns hr_frame)
                                 (fun _ => Returns Sample.two_point_gpx)
                                 (fun _ => Returns Sample.one_record_fit) StreamEnd)
                     default_args
                     (plain_names_sample Sample.mixed_names _ _ _ _ eq_refl))))
    as (t & summaries & Hloop & _ & Hlen & Ht & _).
  - discriminate.
  - intros f _. repeat split; intros _; eexists; reflexivity.
  - exists t, summaries. auto.
Defined.

(** ** A directory without files of the three kinds *)

(** C9. When the three patterns match no file of the directory, [main]
    prints that it found no file and exits with status 1: this message is
    all it does, it calls no summarizer and not the model. *)
Theorem main_without_files env args :
  glob_glob env (OsPath.join (abspath env (dir args)) "*.csv") = [] ->
  glob_glob env (OsPath.join (abspath env (dir args)) "*.gpx") = [] ->
  glob_glob env (OsPath.join (abspath env (dir args)) "*.fit") = [] ->
  main env args
  = ([Print ("No .csv, .gpx, or .fit files found in " ++ abspath env (dir args) ++ "." ++ nl)],
     Raise (SystemExit 1))
  /\ exit_status (outcome (main env args)) = 1%Z
  /\ existsb is_summarizer_call (trace (main env args)) = false
  /\ existsb is_chat (trace (main env args)) = false.
Proof.
  intros Hcsv Hgpx Hfit.
  assert (Hmain : main env args
    = ([Print ("No .csv, .gpx, or .fit files found in " ++ abspath env (dir args) ++ "." ++ nl)],
       Raise (SystemExit 1))).
  { unfold main, discover. cbn [flat_map]. rewrite Hcsv, Hgpx, Hfit. reflexivity. }
  rewrite Hmain. repeat split.
Qed.

Lemma main_without_files_witness :
  main (Sample.env ["notes.txt"; ".csv"; "photo.CSV"; "csv"] (fun _ => Returns hr_frame)
                   Sample.no_gpx Sample.no_fit Sample.broken_stream) default_args
  = ([Print ("No .csv, .gpx, or .fit files found in /data." ++ nl)], Raise (SystemExit 1))
  /\ exit_status (outcome (main (Sample.env ["notes.txt"; ".csv"; "photo.CSV"; "csv"]
                                            (fun _ => Returns hr_frame)
                                            Sample.no_gpx Sample.no_fit Sample.broken_stream)
                                default_args)) = 1%Z
  /\ existsb is_summarizer_call
       (trace (main (Sample.env ["notes.txt"; ".csv"; "photo.CSV"; "csv"]
                                (fun _ => Returns hr_frame)
                                Sample.no_gpx Sample.no_fit Sample.broken_stream)
                    default_args)) = false
  /\ existsb is_chat
       (trace (main (Sample.env ["notes.txt"; ".csv"; "photo.CSV"; "csv"]
                                (fun _ => Returns hr_frame)
                                Sample.no_gpx Sample.no_fit Sample.broken_stream)
                    default_args)) = false.
Proof.
  apply (main_without_files
           (Sample.env ["notes.txt"; ".csv"; "photo.CSV"; "csv"] (fun _ => Returns hr_frame)
                       Sample.no_gpx Sample.no_fit Sample.broken_stream) default_args);
    reflexivity.
Defined.

(** ** End to end: one table of three rows *)

Lemma contains_intro (before sub after s : string) :
  s = before ++ sub ++ after -> contains sub s.
Proof. intros ->. now exists before, after. Qed.

Lemma trace_query_ollama env prompt model :
  exists rest,
    trace (query_ollama env prompt model)
    = Print ("Contacting Ollama..." ++ nl)
      :: Chat model [("system", system_content); ("user", prompt)] chat_options :: rest.
Proof.
  unfold query_ollama.
  destruct (consume _ []) as [collected [t r]].
  rewrite trace_bind. cbn [emit trace outcome fst snd app]. rewrite trace_bind.
  destruct r as [[]|[|e]]; cbn; eauto.
Qed.

(** The summary of the table of the scenario, when pandas gives [lo] and [hi]
    for the dates and [mean], [min], [max] for the heart rates. *)
Lemma summarize_csv_hr_frame env f lo hi mean min max :
  read_csv env f = Returns hr_frame ->
  Series_min env hr_dates = Returns lo ->
  Series_max env hr_dates = Returns hi ->
  Series_mean env hr_rates = Returns mean ->
  Series_min env hr_rates = Returns min ->
  Series_max env hr_rates = Returns max ->
  summarize_csv env f
  = ([ReadCsv f],
     Ok [("file", PyStr (OsPath.basename f));
         ("total_records", PyInt 3);
         ("columns", PyList [PyStr "Date"; PyStr "HR"]);
         ("date_range", PyStr (py_str lo ++ " to " ++ py_str hi));
         ("HR", PyDict [("mean", mean); ("min", min); ("max", max)]);
         ("sample", PyList [PyDict [("Date", PyStr "2024-01-01"); ("HR", PyInt 60)];
                            PyDict [("Date", PyStr "2024-01-02"); ("HR", PyInt 70)];
                            PyDict [("Date", PyStr "2024-01-03"); ("HR", PyInt 65)]])]).
Proof.
  intros Hread Hlo Hhi Hmean Hmin Hmax.
  unfold summarize_csv. rewrite Hread. unfold call, bind at 1.
  change (existsb (String.eqb "Date") (columns hr_frame)) with true. cbv iota.
  change (df_getitem hr_frame "Date") with (Returns hr_dates).
  rewrite !bind_lift_Returns, Hlo, !bind_lift_Returns, Hhi, !bind_lift_Returns, bind_ret_l.
  change (numeric_columns hr_frame) with ["HR"]. cbn [for_each].
  unfold csv_column_stats.
  change (df_getitem hr_frame "HR") with (Returns hr_rates).
  rewrite !bind_lift_Returns, Hmean, !bind_lift_Returns, Hmin, !bind_lift_Returns.
  rewrite Hmax, !bind_lift_Returns, !bind_ret_l.
  reflexivity.
Qed.

(** C2. In a directory where the discovery finds one file, a table with the
    header Date,HR and the rows 2024-01-01,60 / 2024-01-02,70 /
    2024-01-03,65 (for which pandas gives the dates 2024-01-01 and 2024-01-03
    as smallest and largest, and for the heart rates a mean printed 65.0, a
    minimum printed 60 and a maximum printed 70), a run without a query
    passes the model a prompt that contains the total of 3 records, the date
    range, the line of statistics of HR, and that ends with the four default
    prompts: the line that asks for a comprehensive analysis and the four
    numbered lines, each ended by a newline. *)
Theorem end_to_end_prompt env args f lo hi mean min max :
  query args = None ->
  plain_names env ->
  glob_glob env (OsPath.join (abspath env (dir args)) "*.csv") = [f] ->
  glob_glob env (OsPath.join (abspath env (dir args)) "*.gpx") = [] ->
  glob_glob env (OsPath.join (abspath env (dir args)) "*.fit") = [] ->
  read_csv env f = Returns hr_frame ->
  Series_min env hr_dates = Returns lo -> py_str lo = "2024-01-01" ->
  Series_max env hr_dates = Returns hi -> py_str hi = "2024-01-03" ->
  Series_mean env hr_rates = Returns mean -> py_str mean = "65.0" ->
  Series_min env hr_rates = Returns min -> py_str min = "60" ->
  Series_max env hr_rates = Returns max -> py_str max = "70" ->
  exists prompt rest,
    trace (main env args)
    = ReadCsv f :: Print ("Contacting Ollama..." ++ nl)
      :: Chat (model args) [("system", system_content); ("user", prompt)] chat_options :: rest
    /\ contains "Total Records: 3" prompt
    /\ contains "Date Range: 2024-01-01 to 2024-01-03" prompt
    /\ contains "HR: mean=65.0, min=60, max=70" prompt
    /\ ends_with (String.concat (String "010"%char "")
                     ["Please provide a comprehensive analysis including:";
                      "1. Notable patterns or trends";
                      "2. Unusual findings";
                      "3. Actionable health insights";
                      "4. Areas for improvement";
                      ""]) prompt.
Proof.
  intros Hquery Hplain Hcsv Hgpx Hfit Hread Hlo Hlo' Hhi Hhi' Hmean Hmean' Hmin Hmin' Hmax Hmax'.
  assert (Hdiscover : discover env args = [f]).
  { unfold discover. cbn [flat_map]. now rewrite Hcsv, Hgpx, Hfit. }
  assert (Hext : snd (OsPath.splitext f) = ".csv").
  { assert (Hin : In f (glob_glob env (OsPath.join (abspath env (dir args)) "*.csv")))
      by (rewrite Hcsv; now left).
    apply glob_extension in Hin; try reflexivity; try assumption.
    now destruct Hin as (stem & _ & Hsplit). }
  pose proof (summarize_csv_hr_frame env f lo hi mean min max Hread Hlo Hhi Hmean Hmin Hmax)
    as Hsummary.
  rewrite Hlo', Hhi' in Hsummary.
  set (summary := [("file", PyStr (OsPath.basename f)); _; _; _; _; _]) in Hsummary.
  assert (Hprompt : build_llm_prompt env [summary] None
    = ret (prompt_intro env
           ++ tabular_text (PyStr (OsPath.basename f)) (PyInt 3)
                (PyList [PyStr "Date"; PyStr "HR"])
                (PyStr ("2024-01-01" ++ " to " ++ "2024-01-03"))
                (stats_lines summary)
                (PyList [PyDict [("Date", PyStr "2024-01-01"); ("HR", PyInt 60)];
                         PyDict [("Date", PyStr "2024-01-02"); ("HR", PyInt 70)];
                         PyDict [("Date", PyStr "2024-01-03"); ("HR", PyInt 65)]])
           ++ prompt_closing None)).
  { apply build_llm_prompt_tabular; try reflexivity.
    intros col stats Hget. subst summary. cbn [dict_get] in Hget.
    repeat match type of Hget with
           | (if ?b then _ else _) = _ => destruct b
           end; try discriminate.
    injection Hget as <-. now exists mean, min, max. }
  assert (Hlines : stats_lines summary = ["HR: mean=65.0, min=60, max=70" ++ nl]).
  { subst summary. unfold stats_lines, stats_text. cbn. now rewrite Hmean', Hmin', Hmax'. }
  rewrite Hlines in Hprompt.
  set (prompt := prompt_intro env ++ _) in Hprompt.
  destruct (trace_query_ollama env prompt (model args)) as [rest Hrest].
  exists prompt, rest. split; [|split; [|split; [|split]]].
  - assert (Hloop : for_each [f] (dispatch env) [] = ([ReadCsv f], Ok [summary])).
    { cbn [for_each]. unfold dispatch. rewrite Hext.
      change (String.eqb (OsPath.lower ".csv") ".csv") with true. cbv iota.
      rewrite Hsummary. reflexivity. }
    unfold main. rewrite Hdiscover, Hloop. cbn [nonempty negb]. rewrite bind_ret_l.
    unfold bind at 1. cbn [nonempty negb]. rewrite bind_ret_l, Hquery, Hprompt, bind_ret_l.
    destruct (query_ollama env prompt (model args)) as [tq rq].
    cbn [trace fst] in Hrest. subst tq.
    destruct rq; cbn [bind ret trace fst app]; rewrite ?List.app_nil_r; reflexivity.
  - subst prompt. unfold tabular_text.
    apply contains_intro
      with (before := prompt_intro env ++ "File: " ++ py_str (PyStr (OsPath.basename f)) ++ nl)
           (after := nl ++ "Columns: " ++ py_str (PyList [PyStr "Date"; PyStr "HR"]) ++ nl
                     ++ "Date Range: 2024-01-01 to 2024-01-03" ++ nl
                     ++ "HR: mean=65.0, min=60, max=70" ++ nl
                     ++ "Sample Rows:" ++ nl
                     ++ py_str (PyList [PyDict [("Date", PyStr "2024-01-01"); ("HR", PyInt 60)];
                                        PyDict [("Date", PyStr "2024-01-02"); ("HR", PyInt 70)];
                                        PyDict [("Date", PyStr "2024-01-03"); ("HR", PyInt 65)]])
                     ++ nl ++ nl ++ rule ++ nl ++ default_prompts).
    rewrite !append_assoc. reflexivity.
  - subst prompt. unfold tabular_text.
    apply contains_intro
      with (before := prompt_intro env ++ "File: " ++ py_str (PyStr (OsPath.basename f)) ++ nl
                      ++ "Total Records: 3" ++ nl
                      ++ "Columns: " ++ py_str (PyList [PyStr "Date"; PyStr "HR"]) ++ nl)
           (after := nl ++ "HR: mean=65.0, min=60, max=70" ++ nl
                     ++ "Sample Rows:" ++ nl
                     ++ py_str (PyList [PyDict [("Date", PyStr "2024-01-01"); ("HR", PyInt 60)];
                                        PyDict [("Date", PyStr "2024-01-02"); ("HR", PyInt 70)];
                                        PyDict [("Date", PyStr "2024-01-03"); ("HR", PyInt 65)]])
                     ++ nl ++ nl ++ rule ++ nl ++ default_prompts).
    rewrite !append_assoc. reflexivity.
  - subst prompt. unfold tabular_text.
    apply contains_intro
      with (before := prompt_intro env ++ "File: " ++ py_str (PyStr (OsPath.basename f)) ++ nl
                      ++ "Total Records: 3" ++ nl
                      ++ "Columns: " ++ py_str (PyList [PyStr "Date"; PyStr "HR"]) ++ nl
                      ++ "Date Range: 2024-01-01 to 2024-01-03" ++ nl)
           (after := nl ++ "Sample Rows:" ++ nl
                     ++ py_str (PyList [PyDict [("Date", PyStr "2024-01-01"); ("HR", PyInt 60)];
                                        PyDict [("Date", PyStr "2024-01-02"); ("HR", PyInt 70)];
                                        PyDict [("Date", PyStr "2024-01-03"); ("HR", PyInt 65)]])
                     ++ nl ++ nl ++ rule ++ nl ++ default_prompts).
    rewrite !append_assoc. reflexivity.
  - subst prompt. eexists. rewrite <- append_assoc. reflexivity.
Qed.

Lemma end_to_end_prompt_witness :
  exists prompt rest,
    trace (main (Sample.env ["hr.csv"; "notes.txt"] (fun _ => Returns hr_frame)
                            Sample.no_gpx Sample.no_fit Sample.broken_stream)
                default_args)
    = ReadCsv "/data/hr.csv" :: Print ("Contacting Ollama..." ++ nl)
      :: Chat "deepseek-r1" [("system", system_content); ("user", prompt)] chat_options :: rest
    /\ contains "Total Records: 3" prompt
    /\ contains "Date Range: 2024-01-01 to 2024-01-03" prompt
    /\ contains "HR: mean=65.0, min=60, max=70" prompt
    /\ ends_with (String.concat (String "010"%char "")
                     ["Please provide a comprehensive analysis including:";
                      "1. Notable patterns or trends";
                      "2. Unusual findings";
                      "3. Actionable health insights";
                      "4. Areas for improvement";
                      ""]) prompt.
Proof.
  apply (end_to_end_prompt
           (Sample.env ["hr.csv"; "notes.txt"] (fun _ => Returns hr_frame)
                       Sample.no_gpx Sample.no_fit Sample.broken_stream)
           default_args "/data/hr.csv"
           (PyStr "2024-01-01") (PyStr "2024-01-03")
           (PyObj "65.0" "65.0") (PyInt 60) (PyInt 70));
    try reflexivity.
  apply plain_names_sample. reflexivity.
Defined.

(** * Further properties *)

(** ** Dicts built by repeated assignment *)

Section Assignments.
Context {A : Type} (assigned : A -> bool) (key : A -> string) (val : A -> pyval).

(** After the assignments, a key holds the value of the last assignment to
    it, or what it held before when there was none. *)
Lemma assign_all_get (xs : list A) (d : dict) (k : string) :
  dict_get (assign_all assigned key val xs d) k
  = last (map (fun x => Some (val x))
              (filter (fun x => assigned x && String.eqb (key x) k) xs))
         (dict_get d k).
Proof.
  revert d. induction xs as [|x xs IH]; intros d; [reflexivity|].
  unfold assign_all in *. cbn [fold_left filter]. rewrite IH.
  destruct (assigned x); cbn [andb]; [|reflexivity].
  rewrite dict_get_set.
  destruct (String.eqb (key x) k); [|reflexivity].
  cbn [map]. now rewrite last_cons.
Qed.

Lemma dict_keys_set (d : dict) (k : string) (v : pyval) :
  dict_keys (dict_set d k v)
  = if existsb (String.eqb k) (dict_keys d) then dict_keys d else (dict_keys d ++ [k])%list.
Proof.
  induction d as [|[k' v'] d IH]; [reflexivity|].
  cbn [dict_set dict_keys map fst existsb]. rewrite (String.eqb_sym k k').
  destruct (String.eqb k' k); cbn [orb map fst]; [reflexivity|].
  fold (dict_keys (dict_set d k v)). fold (dict_keys d). rewrite IH.
  now destruct (existsb (String.eqb k) (dict_keys d)).
Qed.

Lemma existsb_eqb_In (k : string) (ks : list string) :
  existsb (String.eqb k) ks = true <-> In k ks.
Proof.
  rewrite existsb_exists. split.
  - intros (x & Hin & Heq). apply String.eqb_eq in Heq. now subst.
  - intros Hin. exists k. split; [assumption|apply String.eqb_refl].
Qed.

Lemma NoDup_dict_set (d : dict) (k : string) (v : pyval) :
  NoDup (dict_keys d) -> NoDup (dict_keys (dict_set d k v)).
Proof.
  intros Hd. rewrite dict_keys_set.
  destruct (existsb (String.eqb k) (dict_keys d)) eqn:E; [assumption|].
  apply NoDup_app; [assumption|repeat constructor; intros []|].
  intros a Ha [ <- | [] ]. apply existsb_eqb_In in Ha. congruence.
Qed.

Lemma In_dict_keys_set (d : dict) (k k' : string) (v : pyval) :
  In k' (dict_keys (dict_set d k v)) <-> In k' (dict_keys d) \/ k' = k.
Proof.
  rewrite dict_keys_set.
  destruct (existsb (String.eqb k) (dict_keys d)) eqn:E.
  - apply existsb_eqb_In in E. split; [now left|]. intros [ H | -> ]; assumption.
  - rewrite in_app_iff. cbn. intuition.
Qed.

(** The keys after the assignments: distinct, and those there before
    together with the assigned ones. *)
Lemma assign_all_keys (xs : list A) (d : dict) :
  NoDup (dict_keys d) ->
  NoDup (dict_keys (assign_all assigned key val xs d))
  /\ forall k, In k (dict_keys (assign_all assigned key val xs d))
               <-> In k (dict_keys d) \/ exists x, In x xs /\ assigned x = true /\ key x = k.
Proof.
  revert d. induction xs as [|x xs IH]; intros d Hd.
  - split; [assumption|]. intros k. split; [now left|]. now intros [ H | (x & [] & _) ].
  - unfold assign_all in *. cbn [fold_left].
    destruct (assigned x) eqn:Hx.
    + destruct (IH (dict_set d (key x) (val x)) (NoDup_dict_set d (key x) (val x) Hd))
        as [Hnodup Hkeys].
      split; [assumption|]. intros k. rewrite Hkeys, In_dict_keys_set. split.
      * intros [ [ H | -> ] | (y & Hy & Hay & Hky) ]; [now left| |].
        -- right. exists x. cbn. auto.
        -- right. exists y. cbn. auto.
      * intros [ H | (y & [ <- | Hy ] & Hay & Hky) ]; [now left; left| |].
        -- left. right. now symmetry.
        -- right. now exists y.
    + destruct (IH d Hd) as [Hnodup Hkeys]. split; [assumption|].
      intros k. rewrite Hkeys. split.
      * intros [ H | (y & Hy & Hay & Hky) ]; [now left|]. right. exists y. cbn. auto.
      * intros [ H | (y & [ <- | Hy ] & Hay & Hky) ]; [now left|congruence|].
        right. now exists y.
Qed.

End Assignments.

(** ** The track summarizer *)

Lemma fold_left_concat {A B} (f : A -> B -> A) (ls : list (list B)) (a : A) :
  fold_left (fun acc l => fold_left f l acc) ls a = fold_left f (List.concat ls) a.
Proof.
  revert a. induction ls as [|l ls IH]; intros a; [reflexivity|].
  cbn [fold_left List.concat]. now rewrite fold_left_app, IH.
Qed.

(** The dict of a point is the four fixed entries, then one assignment to
    heart_rate for each matching child of the extensions. *)
Lemma gpx_point_assignments (point : GPXTrackPoint) :
  gpx_point point
  = assign_all (fun child => OsPath.str_in "hr" (OsPath.lower (xml_tag child)))
               (fun _ => "heart_rate") xml_text
               (List.concat (pt_extensions point))
               (dict_of_items [("time", pt_time point); ("latitude", pt_latitude point);
                               ("longitude", pt_longitude point);
                               ("elevation", pt_elevation point)]).
Proof.
  unfold gpx_point, assign_all.
  destruct (pt_extensions point) as [|ext exts]; [reflexivity|].
  cbn [nonempty]. now rewrite fold_left_concat.
Qed.

(** X1. A point's heart rate is the text of the last child of its extension
    elements whose tag has hr in it, upper or lower case; the point has no
    heart_rate entry when there is no such child.  Its time, latitude,
    longitude and elevation are the point's own, whatever the extensions. *)
Theorem gpx_point_heart_rate (point : GPXTrackPoint) :
  dict_get (gpx_point point) "heart_rate" = last_value (map xml_text (hr_children point))
  /\ dict_get (gpx_point point) "time" = Some (pt_time point)
  /\ dict_get (gpx_point point) "latitude" = Some (pt_latitude point)
  /\ dict_get (gpx_point point) "longitude" = Some (pt_longitude point)
  /\ dict_get (gpx_point point) "elevation" = Some (pt_elevation point).
Proof.
  split.
  - rewrite gpx_point_assignments, assign_all_get.
    unfold last_value, hr_children. rewrite map_map. f_equal. f_equal.
    apply filter_ext. intros child. apply andb_true_r.
  - repeat split; rewrite gpx_point_get by discriminate; reflexivity.
Qed.

(** X2. When the file parses and has a point, [summarize_gpx] returns a
    summary that counts the points of all segments of all tracks, takes the
    start from the first point and the end from the last one, in the order
    of the file, and keeps the first ten points at most as the sample. *)
Theorem summarize_gpx_track_summary env file_path gpx first rest :
  gpxpy_parse env file_path = Returns gpx ->
  gpx_all_points gpx = first :: rest ->
  exists summary sample,
    summarize_gpx env file_path = ([OpenGpx file_path], Ok summary)
    /\ dict_get summary "total_points" = Some (PyInt (Z.of_nat (S (List.length rest))))
    /\ dict_get summary "start_time" = Some (PyStr (py_str (pt_time first)))
    /\ dict_get summary "end_time" = Some (PyStr (py_str (pt_time (last rest first))))
    /\ dict_get summary "sample_points" = Some (PyList sample)
    /\ sample = map (fun p => PyDict (gpx_point p)) (firstn 10 (first :: rest))
    /\ List.length sample = Nat.min 10 (S (List.length rest)).
Proof.
  intros Hparse Hpoints.
  rewrite (summarize_gpx_returns env file_path gpx Hparse), gpx_points_map, Hpoints.
  eexists. exists (map (fun p => PyDict (gpx_point p)) (firstn 10 (first :: rest))).
  split; [reflexivity|]. repeat split.
  - cbn [dict_get dict_of_items fold_left dict_set fst snd String.eqb Ascii.eqb Bool.eqb].
    rewrite firstn_map, map_map. reflexivity.
  - now rewrite List.length_map, List.length_firstn.
Qed.

Lemma summarize_gpx_track_summary_witness :
  exists summary sample,
    summarize_gpx (Sample.env ["walk.gpx"] Sample.no_csv (fun _ => Returns Sample.two_point_gpx)
                              Sample.no_fit StreamEnd) "/data/walk.gpx"
    = ([OpenGpx "/data/walk.gpx"], Ok summary)
    /\ dict_get summary "total_points" = Some (PyInt 2)
    /\ dict_get summary "start_time" = Some (PyStr "2024-01-01 10:00:00")
    /\ dict_get summary "end_time" = Some (PyStr "2024-01-01 10:00:05")
    /\ dict_get summary "sample_points" = Some (PyList sample)
    /\ sample = map (fun p => PyDict (gpx_point p))
                    (firstn 10 (gpx_all_points Sample.two_point_gpx))
    /\ List.length sample = 2.
Proof.
  apply (summarize_gpx_track_summary
           (Sample.env ["walk.gpx"] Sample.no_csv (fun _ => Returns Sample.two_point_gpx)
                       Sample.no_fit StreamEnd)
           "/data/walk.gpx" Sample.two_point_gpx
           (Sample.point "2024-01-01 10:00:00"
                         [{| xml_tag := "{ns}time"; xml_text := PyStr "140" |};
                          {| xml_tag := "{ns}HR"; xml_text := PyStr "120" |}])
           [Sample.point "2024-01-01 10:00:05" []]); reflexivity.
Defined.

(** ** The fitness-file summarizer *)

Lemma fit_record_assignments (record : DataMessage) :
  fit_record record = assign_all (fun _ => true) fd_name fd_value (mesg_fields record) [].
Proof. reflexivity. Qed.

(** X3. The dict of a record holds, under each field name, the value of the
    last field of the record with that name; its keys are the field names of
    the record, each once. *)
Theorem fit_record_fields (record : DataMessage) :
  (forall name, dict_get (fit_record record) name = last_value (field_values record name))
  /\ NoDup (dict_keys (fit_record record))
  /\ (forall name, In name (dict_keys (fit_record record))
                   <-> In name (map fd_name (mesg_fields record))).
Proof.
  rewrite fit_record_assignments. split; [|split].
  - intros name. rewrite assign_all_get. unfold last_value, field_values.
    now rewrite map_map.
  - apply assign_all_keys. constructor.
  - intros name.
    destruct (assign_all_keys (fun _ => true) fd_name fd_value (mesg_fields record) [])
      as [_ Hkeys]; [constructor|].
    rewrite Hkeys, in_map_iff. split.
    + intros [ [] | (d & Hd & _ & Hname) ]. now exists d.
    + intros (d & Hname & Hd). right. now exists d.
Qed.

(** X4. When the file decodes and has a record message, [summarize_fit]
    counts the record messages only, lists as fields the field names of the
    first record, each once (a name that only a later record has is not
    listed), and keeps the first ten records at most as the sample. *)
Theorem summarize_fit_first_record env file_path fitfile first rest :
  fitparse_FitFile env file_path = Returns fitfile ->
  get_messages fitfile "record" = first :: rest ->
  exists summary names sample,
    summarize_fit env file_path = ([OpenFit file_path], Ok summary)
    /\ dict_get summary "total_records" = Some (PyInt (Z.of_nat (S (List.length rest))))
    /\ dict_get summary "fields" = Some (PyList (map PyStr names))
    /\ NoDup names
    /\ (forall name, In name names <-> In name (map fd_name (mesg_fields first)))
    /\ dict_get summary "sample_records" = Some (PyList sample)
    /\ sample = map (fun r => PyDict (fit_record r)) (firstn 10 (first :: rest))
    /\ List.length sample = Nat.min 10 (S (List.length rest)).
Proof.
  intros Hopen Hrecords.
  pose proof (summarize_fit_returns env file_path fitfile Hopen) as Hrun.
  cbv zeta in Hrun. rewrite Hrecords, List.length_map in Hrun. rewrite Hrun.
  eexists. exists (dict_keys (fit_record first)).
  exists (map (fun r => PyDict (fit_record r)) (firstn 10 (first :: rest))).
  split; [reflexivity|].
  assert (Hkeys := fit_record_assignments first).
  split; [|split; [|split; [|split; [|split; [|split]]]]].
  - reflexivity.
  - reflexivity.
  - rewrite Hkeys. apply assign_all_keys. constructor.
  - intros name. rewrite Hkeys.
    destruct (assign_all_keys (fun _ => true) fd_name fd_value (mesg_fields first) [])
      as [_ Hin]; [constructor|].
    rewrite Hin, in_map_iff. split.
    + intros [ [] | (d & Hd & _ & Hname) ]. now exists d.
    + intros (d & Hname & Hd). right. now exists d.
  - cbn [dict_get dict_of_items fold_left dict_set fst snd String.eqb Ascii.eqb Bool.eqb].
    rewrite firstn_map, map_map. reflexivity.
  - reflexivity.
  - now rewrite List.length_map, List.length_firstn.
Qed.

Lemma summarize_fit_first_record_witness :
  exists summary names sample,
    summarize_fit (Sample.env ["ride.fit"] Sample.no_csv Sample.no_gpx
                              (fun _ => Returns Sample.one_record_fit) StreamEnd)
                  "/data/ride.fit"
    = ([OpenFit "/data/ride.fit"], Ok summary)
    /\ dict_get summary "total_records" = Some (PyInt 1)
    /\ dict_get summary "fields" = Some (PyList (map PyStr names))
    /\ NoDup names
    /\ (forall name, In name names <-> In name ["heart_rate"; "file"])
    /\ dict_get summary "sample_records" = Some (PyList sample)
    /\ sample = map (fun r => PyDict (fit_record r))
                    (firstn 10 (get_messages Sample.one_record_fit "record"))
    /\ List.length sample = 1.
Proof.
  apply (summarize_fit_first_record
           (Sample.env ["ride.fit"] Sample.no_csv Sample.no_gpx
                       (fun _ => Returns Sample.one_record_fit) StreamEnd)
           "/data/ride.fit" Sample.one_record_fit
           {| mesg_name := "record";
              mesg_fields := [ {| fd_name := "heart_rate"; fd_value := PyInt 120 |};
                               {| fd_name := "file"; fd_value := PyStr "x" |} ] |}
           []); reflexivity.
Defined.

(** ** Failures of the summarizers *)

(** X5. [summarize_gpx] and [summarize_fit] raise exactly when the parser
    raises, and then the parser's error: their own indexing of the points and
    of the records never fails. *)
Theorem summarizers_raise_with_parser env file_path :
  (forall e, outcome (summarize_gpx env file_path) = Raise e
             <-> exists e', gpxpy_parse env file_path = Fails e' /\ e = Exc e')
  /\ (forall e, outcome (summarize_fit env file_path) = Raise e
                <-> exists e', fitparse_FitFile env file_path = Fails e' /\ e = Exc e').
Proof.
  split; intros e.
  - destruct (gpxpy_parse env file_path) as [gpx|e'] eqn:Hparse.
    + rewrite (summarize_gpx_returns env file_path gpx Hparse). cbn [outcome snd].
      split; [discriminate|]. now intros (e'' & H & _).
    + unfold summarize_gpx. rewrite Hparse. cbn [call bind outcome snd]. split.
      * intros H. injection H as <-. now exists e'.
      * intros (e'' & H & ->). now injection H as <-.
  - destruct (fitparse_FitFile env file_path) as [fitfile|e'] eqn:Hopen.
    + pose proof (summarize_fit_returns env file_path fitfile Hopen) as Hrun.
      cbv zeta in Hrun. rewrite Hrun. cbn [outcome snd].
      split; [discriminate|]. now intros (e'' & H & _).
    + unfold summarize_fit. rewrite Hopen. cbn [call bind outcome snd]. split.
      * intros H. injection H as <-. now exists e'.
      * intros (e'' & H & ->). now injection H as <-.
Qed.

(** ** The tabular summarizer returns exactly when pandas does *)

Lemma outcome_lift {A} (a : answer A) :
  outcome (lift a) = match a with Returns x => Ok x | Fails e => Raise (Exc e) end.
Proof. reflexivity. Qed.

Lemma csv_column_stats_inv env df summary col summary' :
  outcome (csv_column_stats env df summary col) = Ok summary' ->
  exists mean min max,
    numeric_stats env df col mean min max
    /\ summary' = dict_set summary col (stats_entry mean min max).
Proof.
  unfold csv_column_stats, numeric_stats.
  destruct (df_getitem df col) as [s|e]; [|discriminate].
  rewrite bind_lift_Returns.
  destruct (Series_mean env s) as [mean|e] eqn:Hmean; [|discriminate].
  rewrite !bind_lift_Returns.
  destruct (Series_min env s) as [min|e] eqn:Hmin; [|discriminate].
  rewrite !bind_lift_Returns.
  destruct (Series_max env s) as [max|e] eqn:Hmax; [|discriminate].
  rewrite !bind_lift_Returns. cbn [ret outcome snd]. intros H. injection H as <-.
  exists mean, min, max. split; [exists s; auto|reflexivity].
Qed.

(** What holds of the summary before a loop that returns, and is kept by
    each assignment of the loop, holds of the summary after it; and pandas
    returned on each column. *)
Lemma csv_stats_loop_inv env df (P : dict -> Prop) (cols : list string) :
  (forall summary col mean min max,
      P summary -> P (dict_set summary col (stats_entry mean min max))) ->
  forall summary summary',
    outcome (for_each cols (csv_column_stats env df) summary) = Ok summary' ->
    P summary ->
    P summary'
    /\ Forall (fun col => exists mean min max, numeric_stats env df col mean min max) cols.
Proof.
  intros Hkeep. induction cols as [|col cols IH]; intros summary summary' Hrun HP.
  - cbn in Hrun. injection Hrun as <-. split; [assumption|constructor].
  - cbn [for_each] in Hrun. rewrite outcome_bind in Hrun.
    destruct (outcome (csv_column_stats env df summary col)) as [s1|e] eqn:Hcol;
      [|discriminate].
    apply csv_column_stats_inv in Hcol. destruct Hcol as (mean & min & max & Hstats & ->).
    destruct (IH _ _ Hrun (Hkeep _ col mean min max HP)) as [HP' Hall].
    split; [assumption|]. constructor; [|assumption]. now exists mean, min, max.
Qed.

(** The steps of [summarize_csv] when it returns: the table pandas read, its
    date range, the loop over the numeric columns and the sample. *)
Lemma summarize_csv_inv env file_path summary :
  outcome (summarize_csv env file_path) = Ok summary ->
  exists df date_range looped,
    read_csv env file_path = Returns df
    /\ date_range_of env df date_range
    /\ outcome (for_each (numeric_columns df) (csv_column_stats env df)
                         (csv_fixed_fields file_path df date_range)) = Ok looped
    /\ summary = dict_set looped "sample" (PyList (head_records 10 df)).
Proof.
  unfold summarize_csv. rewrite outcome_bind. cbn [call outcome snd].
  destruct (read_csv env file_path) as [df|e]; [|discriminate].
  rewrite outcome_bind.
  destruct (existsb (String.eqb "Date") (columns df)) eqn:HDate.
  - destruct (df_getitem df "Date") as [s|e] eqn:Hs; [|discriminate].
    rewrite bind_lift_Returns.
    destruct (Series_min env s) as [lo|e] eqn:Hlo; [|discriminate].
    rewrite !bind_lift_Returns.
    destruct (Series_max env s) as [hi|e] eqn:Hhi; [|discriminate].
    rewrite !bind_lift_Returns. cbn [ret outcome snd]. rewrite outcome_bind.
    intros Hrun.
    destruct (outcome (for_each _ _ _)) as [looped|e] eqn:Hloop; [|discriminate].
    cbn [ret outcome snd] in Hrun. injection Hrun as <-.
    exists df, (py_str lo ++ " to " ++ py_str hi), looped.
    split; [reflexivity|]. split; [|split; [exact Hloop|reflexivity]].
    unfold date_range_of. rewrite HDate. exists s, lo, hi. auto.
  - cbn [ret outcome snd]. rewrite outcome_bind. intros Hrun.
    destruct (outcome (for_each _ _ _)) as [looped|e] eqn:Hloop; [|discriminate].
    cbn [ret outcome snd] in Hrun. injection Hrun as <-.
    exists df, "N/A", looped.
    split; [reflexivity|]. split; [|split; [exact Hloop|reflexivity]].
    unfold date_range_of. now rewrite HDate.
Qed.

(** X6. [summarize_csv] returns exactly when pandas reads the file, gives
    the smallest and the largest Date (if the table has a column of that
    name) and gives the mean, minimum and maximum of every numeric column:
    the function adds no failure of its own and recovers from none. *)
Theorem summarize_csv_returns_iff env file_path :
  (exists summary, outcome (summarize_csv env file_path) = Ok summary)
  <-> exists df,
        read_csv env file_path = Returns df
        /\ (exists date_range, date_range_of env df date_range)
        /\ numeric_stats_return env df.
Proof.
  split.
  - intros [summary Hrun].
    destruct (summarize_csv_inv env file_path summary Hrun)
      as (df & date_range & looped & Hread & Hdate & Hloop & _).
    exists df. split; [assumption|]. split; [now exists date_range|].
    apply (csv_stats_loop_inv env df (fun _ => True) (numeric_columns df)
             (fun _ _ _ _ _ _ => I) _ _ Hloop I).
  - intros (df & Hread & [date_range Hdate] & Hstats).
    destruct (summarize_csv_returns env file_path df date_range Hread Hdate Hstats)
      as (summary & Hrun & _).
    exists summary. now rewrite Hrun.
Qed.

(** ** Every summary of a summarizer can be rendered *)

Lemma tabular_shape_fixed file_path df date_range :
  tabular_shape (csv_fixed_fields file_path df date_range).
Proof.
  split; [reflexivity|]. split; [reflexivity|]. split.
  - intros col stats Hget. unfold csv_fixed_fields in Hget. cbn [dict_get] in Hget.
    repeat match type of Hget with
           | (if ?b then _ else _) = _ => destruct b
           end; discriminate.
  - intros k Hk. cbn [In] in Hk.
    destruct Hk as [ <- | [ <- | [ <- | [ <- | [] ] ] ] ]; discriminate.
Qed.

Lemma tabular_shape_set summary col (v : pyval) :
  (forall stats, v = PyDict stats ->
     exists mean min max,
       dict_get stats "mean" = Some mean /\ dict_get stats "min" = Some min
       /\ dict_get stats "max" = Some max) ->
  (forall s, v <> PyStr s) ->
  tabular_shape summary -> tabular_shape (dict_set summary col v).
Proof.
  intros Hv Hstr (Hgpx & Hfit & Hstats & Hkeys).
  assert (Htype : forall s, eq_str (dict_get summary "type") s = false ->
                            eq_str (dict_get (dict_set summary col v) "type") s = false).
  { intros s Hs. rewrite dict_get_set. destruct (String.eqb col "type"); [|exact Hs].
    destruct v; try reflexivity. now destruct (Hstr s0). }
  split; [now apply Htype|]. split; [now apply Htype|]. split.
  - intros c stats Hget. rewrite dict_get_set in Hget.
    destruct (String.eqb col c); [|now apply (Hstats c)].
    injection Hget as ->. now apply Hv.
  - intros k Hk. rewrite dict_get_set. destruct (String.eqb col k); [discriminate|].
    now apply Hkeys.
Qed.

(** Whatever the names of the columns, what [summarize_csv] returns has the
    shape of a tabular summary, and a sample. *)
Lemma summarize_csv_shape env file_path summary :
  outcome (summarize_csv env file_path) = Ok summary ->
  tabular_shape summary /\ exists sample, dict_get summary "sample" = Some sample.
Proof.
  intros Hrun.
  destruct (summarize_csv_inv env file_path summary Hrun)
    as (df & date_range & looped & _ & _ & Hloop & ->).
  split; [|eexists; apply dict_get_set_same].
  apply tabular_shape_set; [discriminate|discriminate|].
  refine (proj1 (csv_stats_loop_inv env df tabular_shape (numeric_columns df) _ _ _ Hloop
                   (tabular_shape_fixed file_path df date_range))).
  intros s col mean min max Hs. apply tabular_shape_set; [|discriminate|exact Hs].
  intros stats H. injection H as <-. now exists mean, min, max.
Qed.

Lemma render_tabular_shape prompt summary sample :
  tabular_shape summary ->
  dict_get summary "sample" = Some sample ->
  exists text, render_summary prompt summary = ret (prompt ++ text).
Proof.
  intros (Hgpx & Hfit & Hstats & Hkeys) Hsample.
  destruct (dict_get summary "file") as [file|] eqn:Hfile;
    [|now destruct (Hkeys "file"); cbn; auto].
  destruct (dict_get summary "total_records") as [total|] eqn:Htotal;
    [|now destruct (Hkeys "total_records"); cbn; auto].
  destruct (dict_get summary "columns") as [cols|] eqn:Hcols;
    [|now destruct (Hkeys "columns"); cbn; auto].
  destruct (dict_get summary "date_range") as [range|] eqn:Hrange;
    [|now destruct (Hkeys "date_range"); cbn; auto 6].
  eexists.
  apply (render_summary_tabular prompt summary file total cols range sample); assumption.
Qed.

Lemma render_gpx_summary prompt (file total start_time end_time sample : pyval) :
  exists text,
    render_summary prompt
      (dict_of_items [("file", file); ("type", PyStr "gpx"); ("total_points", total);
                      ("start_time", start_time); ("end_time", end_time);
                      ("sample_points", sample)])
    = ret (prompt ++ text).
Proof.
  eexists. unfold render_summary.
  cbn [dict_of_items fold_left dict_set fst snd String.eqb Ascii.eqb Bool.eqb].
  unfold getitem.
  cbn [dict_get eq_str String.eqb Ascii.eqb Bool.eqb].
  rewrite !bind_lift_Returns, !bind_ret_l. rewrite !append_assoc. reflexivity.
Qed.

Lemma render_fit_summary prompt (file total fields sample : pyval) :
  exists text,
    render_summary prompt
      (dict_of_items [("file", file); ("type", PyStr "fit"); ("total_records", total);
                      ("fields", fields); ("sample_records", sample)])
    = ret (prompt ++ text).
Proof.
  eexists. unfold render_summary.
  cbn [dict_of_items fold_left dict_set fst snd String.eqb Ascii.eqb Bool.eqb].
  unfold getitem.
  cbn [dict_get eq_str String.eqb Ascii.eqb Bool.eqb].
  rewrite !bind_lift_Returns, !bind_ret_l. rewrite !append_assoc. reflexivity.
Qed.

Lemma render_summarized env prompt summary :
  summarized env summary ->
  exists text, render_summary prompt summary = ret (prompt ++ text).
Proof.
  intros [f [Hcsv|[Hgpx|Hfit]]].
  - destruct (summarize_csv_shape env f summary Hcsv) as [Hshape [sample Hsample]].
    now apply render_tabular_shape with (sample := sample).
  - destruct (gpxpy_parse env f) as [gpx|e] eqn:Hparse.
    + rewrite (summarize_gpx_returns env f gpx Hparse) in Hgpx. injection Hgpx as <-.
      apply render_gpx_summary.
    + unfold summarize_gpx in Hgpx. rewrite Hparse in Hgpx. discriminate Hgpx.
  - destruct (fitparse_FitFile env f) as [fitfile|e] eqn:Hopen.
    + pose proof (summarize_fit_returns env f fitfile Hopen) as Hrun. cbv zeta in Hrun.
      rewrite Hrun in Hfit. injection Hfit as <-. apply render_fit_summary.
    + unfold summarize_fit in Hfit. rewrite Hopen in Hfit. discriminate Hfit.
Qed.

Lemma build_llm_prompt_summarized env summaries user_query :
  Forall (summarized env) summaries ->
  exists prompt, build_llm_prompt env summaries user_query = ret prompt.
Proof.
  intros Hall. unfold build_llm_prompt. fold (prompt_intro env).
  assert (Hloop : forall p0, exists p, for_each summaries render_summary p0 = ret p).
  { induction Hall as [|s summaries Hs _ IH]; intros p0; [now exists p0|].
    destruct (render_summarized env p0 s Hs) as [text Htext].
    destruct (IH (p0 ++ text)) as [p Hp]. exists p.
    cbn [for_each]. now rewrite Htext, bind_ret_l. }
  destruct (Hloop (prompt_intro env)) as [p Hp].
  rewrite Hp, bind_ret_l, truthy_closing. eauto.
Qed.

(** X7. [build_llm_prompt] never raises on what the summarizers return:
    whatever the files hold (and whatever the names of a table's columns),
    each summary of [summarize_csv], [summarize_gpx] or [summarize_fit] has
    every key the prompt builder reads, so a list of such summaries always
    gives a prompt. *)
Theorem summaries_always_render env summaries user_query :
  Forall (summarized env) summaries ->
  exists prompt, build_llm_prompt env summaries user_query = ret prompt.
Proof. apply build_llm_prompt_summarized. Qed.

Lemma summaries_always_render_witness :
  exists prompt,
    build_llm_prompt
      (Sample.env ["t.csv"] (fun _ => Returns (Sample.frame_named "file"))
                  Sample.no_gpx Sample.no_fit StreamEnd)
      [[("file", PyDict [("mean", PyObj "7.0" "7.0"); ("min", PyInt 7); ("max", PyInt 7)]);
        ("total_records", PyInt 1);
        ("columns", PyList [PyStr "file"; PyStr "B"; PyStr "Date"]);
        ("date_range", PyStr "2024-01-01 to 2024-01-01");
        ("sample", PyList [PyDict [("file", PyInt 7); ("B", PyStr "x");
                                   ("Date", PyStr "2024-01-01")]])]]
      (Some "How was my week?")
    = ret prompt.
Proof.
  apply (summaries_always_render
           (Sample.env ["t.csv"] (fun _ => Returns (Sample.frame_named "file"))
                       Sample.no_gpx Sample.no_fit StreamEnd)).
  constructor; [|constructor]. exists "/data/t.csv". left. reflexivity.
Defined.

(** ** The prompt is made of blocks *)

(** The loop over the keys adds the same lines to any prompt. *)
Lemma stats_loop_prefix (summary : dict) (cols : list string) (p q : string) :
  for_each cols (stats_line summary) (p ++ q)
  = (r <- for_each cols (stats_line summary) q ;; ret (p ++ r)).
Proof.
  revert q. induction cols as [|col cols IH]; intros q; [reflexivity|].
  cbn [for_each]. unfold stats_line at 1 3. unfold getitem at 1 5.
  destruct (dict_get summary col) as [v|]; [|reflexivity].
  rewrite !bind_lift_Returns.
  destruct v as [| | | | | |stats]; try (rewrite !bind_ret_l; apply IH).
  unfold getitem.
  destruct (dict_get stats "mean") as [mean|]; [|reflexivity].
  rewrite !bind_lift_Returns.
  destruct (dict_get stats "min") as [min|]; [|reflexivity].
  rewrite !bind_lift_Returns.
  destruct (dict_get stats "max") as [max|]; [|reflexivity].
  rewrite !bind_lift_Returns, !bind_ret_l, append_assoc. apply IH.
Qed.

(** What the loop body of [build_llm_prompt] adds for a summary does not
    depend on the prompt built so far. *)
Lemma render_summary_prefix (p : string) (summary : dict) :
  render_summary p summary = (block <- render_summary "" summary ;; ret (p ++ block)).
Proof.
  unfold render_summary. unfold getitem at 1 13.
  destruct (dict_get summary "file") as [file|]; [|reflexivity].
  rewrite !bind_lift_Returns.
  destruct (eq_str (dict_get summary "type") "gpx");
    [|destruct (eq_str (dict_get summary "type") "fit")].
  - unfold getitem.
    destruct (dict_get summary "total_points"); [|reflexivity].
    rewrite !bind_lift_Returns.
    destruct (dict_get summary "start_time"); [|reflexivity].
    rewrite !bind_lift_Returns.
    destruct (dict_get summary "end_time"); [|reflexivity].
    rewrite !bind_lift_Returns.
    destruct (dict_get summary "sample_points"); [|reflexivity].
    rewrite !bind_lift_Returns, !bind_ret_l. rewrite !append_assoc. reflexivity.
  - unfold getitem.
    destruct (dict_get summary "total_records"); [|reflexivity].
    rewrite !bind_lift_Returns.
    destruct (dict_get summary "fields"); [|reflexivity].
    rewrite !bind_lift_Returns.
    destruct (dict_get summary "sample_records"); [|reflexivity].
    rewrite !bind_lift_Returns, !bind_ret_l. rewrite !append_assoc. reflexivity.
  - unfold getitem at 1 2 3 5 6 7.
    destruct (dict_get summary "total_records"); [|reflexivity].
    rewrite !bind_lift_Returns.
    destruct (dict_get summary "columns"); [|reflexivity].
    rewrite !bind_lift_Returns.
    destruct (dict_get summary "date_range"); [|reflexivity].
    rewrite !bind_lift_Returns.
    rewrite !append_assoc.
    rewrite stats_loop_prefix.
    destruct (for_each (dict_keys summary) (stats_line summary) _) as [t [r|e]];
      [|reflexivity].
    unfold getitem.
    destruct (dict_get summary "sample");
      cbn [bind ret lift app]; rewrite ?List.app_nil_r, ?append_assoc; reflexivity.
Qed.

Lemma silent_render_summary prompt summary : silent (render_summary prompt summary).
Proof. unfold render_summary, stats_line. silence. Qed.

Lemma render_summary_block p summary p' :
  outcome (render_summary p summary) = Ok p' ->
  exists block, block_of summary block /\ p' = p ++ block.
Proof.
  rewrite render_summary_prefix, outcome_bind.
  destruct (outcome (render_summary "" summary)) as [block|e] eqn:Hblock; [|discriminate].
  cbn [ret outcome snd]. intros H. injection H as <-.
  exists block. split; [|reflexivity]. unfold block_of.
  rewrite (pair_trace_outcome (render_summary "" summary)), Hblock.
  now rewrite (silent_render_summary "" summary).
Qed.

Lemma for_each_render_blocks (summaries : list dict) :
  forall p0 p,
    for_each summaries render_summary p0 = ret p
    <-> exists blocks,
          Forall2 block_of summaries blocks /\ p = p0 ++ String.concat "" blocks.
Proof.
  induction summaries as [|s summaries IH]; intros p0 p.
  - cbn [for_each]. split.
    + intros H. injection H as <-. exists []. split; [constructor|].
      cbn. now rewrite append_nil_r.
    + intros (blocks & Hall & ->). inversion Hall. cbn. now rewrite append_nil_r.
  - cbn [for_each]. split.
    + intros Hrun.
      destruct (outcome (render_summary p0 s)) as [p1|e] eqn:Hs.
      * destruct (render_summary_block p0 s p1 Hs) as (block & Hblock & ->).
        rewrite render_summary_prefix in Hrun. unfold block_of in Hblock.
        rewrite Hblock, !bind_ret_l in Hrun.
        apply IH in Hrun. destruct Hrun as (blocks & Hall & ->).
        exists (block :: blocks). split; [now constructor|].
        now rewrite concat_cons_empty_sep, append_assoc.
      * apply (f_equal outcome) in Hrun. rewrite outcome_bind, Hs in Hrun. discriminate.
    + intros (blocks & Hall & ->). inversion Hall as [|s' block ss blocks' Hblock Hrest]; subst.
      rewrite render_summary_prefix. unfold block_of in Hblock.
      rewrite Hblock, !bind_ret_l. apply IH. exists blocks'. split; [assumption|].
      now rewrite concat_cons_empty_sep, append_assoc.
Qed.

(** X8. A prompt is the introduction with the date, then one block for each
    summary, in the order of the list, then the closing (the user's question,
    or the default prompts).  The block of a summary does not depend on the
    summaries around it, and ends with the rule of forty equals signs;
    [build_llm_prompt] returns exactly when every summary has a block. *)
Theorem build_llm_prompt_blocks env summaries user_query :
  (forall prompt,
      build_llm_prompt env summaries user_query = ret prompt
      <-> exists blocks,
            Forall2 block_of summaries blocks
            /\ prompt = prompt_intro env ++ String.concat "" blocks
                        ++ prompt_closing user_query)
  /\ (forall summary block,
        block_of summary block -> ends_with (nl ++ rule ++ nl) block).
Proof.
  split.
  - intros prompt. unfold build_llm_prompt. fold (prompt_intro env). split.
    + intros Hrun.
      destruct (for_each summaries render_summary (prompt_intro env)) as [t [p|e]] eqn:Hloop;
        [|discriminate].
      assert (Ht : t = []).
      { change t with (trace (t, @Ok string p)). rewrite <- Hloop.
        apply silent_for_each. intros. apply silent_render_summary. }
      subst t. apply for_each_render_blocks in Hloop.
      destruct Hloop as (blocks & Hall & ->).
      change (@nil event, @Ok string (prompt_intro env ++ String.concat "" blocks))
        with (ret (prompt_intro env ++ String.concat "" blocks)) in Hrun.
      rewrite bind_ret_l, truthy_closing in Hrun. injection Hrun as <-.
      exists blocks. split; [assumption|]. now rewrite append_assoc.
    + intros (blocks & Hall & ->).
      assert (Hloop : for_each summaries render_summary (prompt_intro env)
                      = ret (prompt_intro env ++ String.concat "" blocks))
        by (apply for_each_render_blocks; eauto).
      rewrite Hloop, bind_ret_l, truthy_closing. now rewrite append_assoc.
  - intros summary block. unfold block_of, render_summary. intros Hrun.
    apply (f_equal outcome) in Hrun. rewrite outcome_bind in Hrun.
    destruct (outcome (getitem summary "file")) as [file|e]; [|discriminate].
    rewrite outcome_bind in Hrun.
    match type of Hrun with
    | match outcome ?m with _ => _ end = _ => destruct (outcome m) as [p|e]
    end; [|discriminate].
    cbn [ret outcome snd] in Hrun. injection Hrun as <-. now exists p.
Qed.

(** ** What the model client prints *)

Lemma console_app (t t' : list event) : console (t ++ t') = console t ++ console t'.
Proof.
  induction t as [|ev t IH]; [reflexivity|].
  destruct ev; cbn [app console]; rewrite IH; [now rewrite append_assoc|auto..].
Qed.

Lemma console_prints (texts : list string) :
  console (map Print texts) = String.concat "" texts.
Proof.
  induction texts as [|s texts IH]; [reflexivity|].
  cbn [map console]. now rewrite IH, concat_cons_empty_sep.
Qed.

(** The loop over the stream, in full: it collects and prints the non-empty
    fragments, and ends as the stream does. *)
Lemma consume_exact (stream : ChatStream) :
  forall collected,
    consume stream collected
    = ((collected ++ filter (fun s => negb (String.eqb s "")) (received stream))%list,
       (map Print (filter (fun s => negb (String.eqb s "")) (received stream)),
        match stream_error stream with
        | None => Ok tt
        | Some e => Raise (Exc e)
        end)).
Proof.
  induction stream as [|e|chunk rest IH]; intros collected;
    cbn [consume received stream_error filter map].
  - now rewrite List.app_nil_r.
  - now rewrite List.app_nil_r.
  - destruct (negb (String.eqb (chunk_text chunk) "")).
    + rewrite IH, <- List.app_assoc. cbn [map app bind emit].
      now destruct (stream_error rest).
    + apply IH.
Qed.

(** X9. [query_ollama] calls the model service once, with the model, the
    fixed system message, the prompt as the user message and the fixed
    options.  The console shows the contact line, then exactly the text the
    function returns, then the Done line when the stream ended, or the line
    of the error (and no Done line) when the stream broke. *)
Theorem query_ollama_console env prompt model :
  exists text,
    outcome (query_ollama env prompt model) = Ok text
    /\ console (trace (query_ollama env prompt model))
       = "Contacting Ollama..." ++ nl ++ text
         ++ match stream_error (ollama_chat env model
                                  [("system", system_content); ("user", prompt)] chat_options)
            with
            | None => nl ++ "Done." ++ nl
            | Some e => "Error: " ++ str_of_Exception e ++ nl
            end
    /\ filter is_chat (trace (query_ollama env prompt model))
       = [Chat model [("system", system_content); ("user", prompt)] chat_options].
Proof.
  unfold query_ollama. rewrite consume_exact. cbn [app].
  set (stream := ollama_chat env model _ _).
  set (texts := filter _ (received stream)).
  exists (String.concat "" texts).
  assert (Hchat : filter is_chat (map Print texts) = []).
  { induction texts as [|s texts IH]; [reflexivity|exact IH]. }
  destruct (stream_error stream) as [e|];
    cbn [bind emit ret try_except_Exception outcome trace fst snd app];
    rewrite ?List.app_nil_r.
  - split; [reflexivity|]. split.
    + cbn [console]. rewrite console_app, console_prints. cbn [console].
      now rewrite !append_assoc, ?append_nil_r.
    + cbn [filter is_chat]. rewrite filter_app, Hchat. reflexivity.
  - split; [reflexivity|]. split.
    + cbn [console]. rewrite console_app, console_prints. cbn [console].
      now rewrite !append_assoc, ?append_nil_r.
    + cbn [filter is_chat]. rewrite filter_app, Hchat. reflexivity.
Qed.

(** ** How a run ends *)

Lemma append_inj_length (x y a b : string) :
  x ++ a = y ++ b -> String.length a = String.length b -> a = b.
Proof.
  revert y. induction x as [|c x IH]; intros y Heq Hlen.
  - destruct y as [|c' y]; [exact Heq|].
    cbn in Heq. subst a. cbn in Hlen. rewrite length_append in Hlen. lia.
  - destruct y as [|c' y].
    + cbn in Heq. subst b. cbn in Hlen. rewrite length_append in Hlen. lia.
    + cbn in Heq. injection Heq as _ Heq. now apply (IH y).
Qed.

Lemma ends_with_unique (a b f : string) :
  ends_with a f -> ends_with b f -> String.length a = String.length b -> a = b.
Proof.
  intros [x Hx] [y Hy] Hlen. rewrite Hx in Hy. now apply (append_inj_length x y).
Qed.

Lemma errors_only_ret {A} (a : A) : errors_only (ret a).
Proof. intros code. discriminate. Qed.

Lemma errors_only_lift {A} (a : answer A) : errors_only (lift a).
Proof. intros code. destruct a; discriminate. Qed.

Lemma errors_only_call {A} (ev : event) (a : answer A) : errors_only (call ev a).
Proof. intros code. destruct a; discriminate. Qed.

Lemma errors_only_emit (ev : event) : errors_only (emit ev).
Proof. intros code. discriminate. Qed.

Lemma errors_only_bind {A B} (m : Py A) (f : A -> Py B) :
  errors_only m -> (forall a, errors_only (f a)) -> errors_only (bind m f).
Proof.
  unfold errors_only. intros Hm Hf code. rewrite outcome_bind.
  destruct (outcome m) as [a|e] eqn:E; [apply Hf|].
  intros H. injection H as ->. now apply (Hm code).
Qed.

Lemma errors_only_for_each {A S} (xs : list A) (body : S -> A -> Py S) :
  (forall acc x, errors_only (body acc x)) -> forall acc, errors_only (for_each xs body acc).
Proof.
  intros Hbody. induction xs as [|x xs IH]; intros acc; cbn [for_each].
  - apply errors_only_ret.
  - apply errors_only_bind; auto.
Qed.

Ltac errors :=
  repeat first
    [ apply errors_only_ret | apply errors_only_lift | apply errors_only_call
    | apply errors_only_emit
    | apply errors_only_for_each; intros
    | apply errors_only_bind; [|intros]
    | match goal with
      | |- errors_only (if ?b then _ else _) => destruct b
      | |- errors_only (match ?v with _ => _ end) => destruct v
      end ].

Lemma errors_only_dispatch env summaries f : errors_only (dispatch env summaries f).
Proof.
  unfold dispatch, summarize_csv, summarize_gpx, summarize_fit, csv_column_stats,
    getitem, list_getitem.
  errors.
Qed.

Lemma errors_only_build_llm_prompt env summaries user_query :
  errors_only (build_llm_prompt env summaries user_query).
Proof. unfold build_llm_prompt, render_summary, stats_line, getitem. errors. Qed.

(** A loop over discovered files that returns went through the summarizer of
    each file. *)
Lemma for_each_dispatch_inv env (files : list string) :
  (forall f, In f files ->
     exists summarizer : Env -> string -> Py dict,
       (forall s, outcome (summarizer env f) = Ok s -> summary_of env f s)
       /\ forall summaries,
            dispatch env summaries f
            = (s <- summarizer env f ;; ret (summaries ++ [s])%list)) ->
  forall acc t out,
    for_each files (dispatch env) acc = (t, Ok out) ->
    exists new, out = (acc ++ new)%list /\ Forall2 (summary_of env) files new.
Proof.
  induction files as [|f files IH]; intros Hfiles acc t out Hloop.
  - cbn in Hloop. injection Hloop as _ <-. exists []. split; [|constructor].
    now rewrite List.app_nil_r.
  - destruct (Hfiles f (or_introl eq_refl)) as (summarizer & Hsummary & Hrun).
    cbn [for_each] in Hloop. rewrite Hrun, bind_assoc in Hloop.
    destruct (summarizer env f) as [t1 [s|e]] eqn:Hs; [|discriminate].
    cbn [bind] in Hloop. rewrite bind_ret_l in Hloop.
    destruct (for_each files (dispatch env) (acc ++ [s])%list) as [t2 r] eqn:Hrest.
    injection Hloop as _ ->.
    destruct (IH (fun f' H => Hfiles f' (or_intror H)) _ _ _ Hrest) as (new & -> & Hall).
    exists (s :: new). split; [now rewrite <- List.app_assoc|].
    constructor; [|assumption]. apply Hsummary. reflexivity.
Qed.

Lemma dispatch_summarizer env args f :
  plain_names env ->
  In f (discover env args) ->
  exists summarizer : Env -> string -> Py dict,
    (forall s, outcome (summarizer env f) = Ok s -> summary_of env f s)
    /\ forall summaries,
         dispatch env summaries f
         = (s <- summarizer env f ;; ret (summaries ++ [s])%list).
Proof.
  intros Hplain Hin.
  destruct (dispatch_discovered env args f Hplain Hin)
    as [[Hext Hrun]|[[Hext Hrun]|[Hext Hrun]]].
  - exists summarize_csv. split; [intros s; now apply summary_of_csv|exact Hrun].
  - exists summarize_gpx. split; [intros s; now apply summary_of_gpx|exact Hrun].
  - exists summarize_fit. split; [intros s; now apply summary_of_fit|exact Hrun].
Qed.

Lemma summary_of_summarized env f s : summary_of env f s -> summarized env s.
Proof. intros [_ H|_ H|_ H]; exists f; auto. Qed.

Lemma summary_of_returns env files summaries :
  Forall2 (summary_of env) files summaries -> summarizers_return env files.
Proof.
  intros Hall f Hin.
  assert (Hs : exists s, summary_of env f s).
  { induction Hall as [|f' s fs ss Hs _ IH]; [contradiction|].
    destruct Hin as [ <- | Hin ]; [now exists s|now apply IH]. }
  destruct Hs as [s Hs].
  destruct Hs as [Hext Hrun|Hext Hrun|Hext Hrun];
    (split; [|split]); intros Hext';
    pose proof (ends_with_unique _ _ f Hext Hext' eq_refl) as Heq;
    try discriminate Heq; now exists s.
Qed.

(** Once the command line is parsed: [main] ends with status 0 exactly when
    the discovery finds a file and the summarizer of every file found
    returns, which is exactly when it calls the model service; the status is 1
    otherwise. *)
Lemma main_exit_status_parsed env args :
  plain_names env ->
  (exit_status (outcome (main env args)) = 0%Z
   <-> discover env args <> [] /\ summarizers_return env (discover env args))
  /\ (exit_status (outcome (main env args)) = 0%Z
      <-> existsb is_chat (trace (main env args)) = true)
  /\ (exit_status (outcome (main env args)) = 0%Z
      \/ exit_status (outcome (main env args)) = 1%Z).
Proof.
  intros Hplain.
  destruct (discover env args) as [|f0 files0] eqn:Hfiles.
  { assert (Hmain : exists text, main env args = ([Print text], Raise (SystemExit 1))).
    { unfold main. rewrite Hfiles. eexists. reflexivity. }
    destruct Hmain as [text ->]. cbn. split; [|split; [|now right]].
    - split; [discriminate|]. now intros [H _].
    - split; discriminate. }
  assert (Hstart : main env args
                   = (summaries <- for_each (discover env args) (dispatch env) [] ;;
                      (if negb (nonempty summaries) then
                         emit (Print ("No supported files to summarize." ++ nl)) ;;;
                         raise (SystemExit 1)
                       else ret tt) ;;;
                      prompt_and_query env args summaries)).
  { unfold main. rewrite Hfiles. cbn [nonempty negb]. now rewrite bind_ret_l. }
  rewrite <- Hfiles.
  assert (Hne : discover env args <> []) by (rewrite Hfiles; discriminate).
  pose proof (fun f => dispatch_summarizer env args f Hplain) as Hdispatch.
  destruct (for_each (discover env args) (dispatch env) []) as [t [summaries|e]] eqn:Hloop.
  - destruct (for_each_dispatch_inv env _ Hdispatch _ _ _ Hloop) as (new & Hout & Hall).
    cbn [app] in Hout. subst new.
    assert (Hnonempty : nonempty summaries = true).
    { destruct Hall; [congruence|reflexivity]. }
    assert (Hrender : Forall (summarized env) summaries).
    { clear -Hall. induction Hall; constructor; eauto using summary_of_summarized. }
    destruct (build_llm_prompt_summarized env summaries (query args) Hrender)
      as [prompt Hprompt].
    destruct (trace_query_ollama env prompt (model args)) as [rest Hrest].
    pose proof (outcome_query_ollama env prompt (model args)) as Hquery.
    assert (Hmain : exists t', main env args
                               = ((t ++ Print ("Contacting Ollama..." ++ nl)
                                     :: Chat (model args)
                                          [("system", system_content); ("user", prompt)]
                                          chat_options :: t')%list, Ok tt)).
    { rewrite Hstart. unfold bind at 1. rewrite Hnonempty. cbn [negb].
      unfold prompt_and_query. rewrite bind_ret_l, Hprompt, bind_ret_l.
      destruct (query_ollama env prompt (model args)) as [tq rq].
      cbn [trace outcome fst snd] in Hrest, Hquery. subst tq rq.
      cbn [bind ret app]. eexists. reflexivity. }
    destruct Hmain as [t' ->]. cbn [outcome trace fst snd exit_status].
    split; [|split; [|now left]].
    + split; [|reflexivity]. intros _. split; [assumption|].
      now apply summary_of_returns with (summaries := summaries).
    + split; [|reflexivity]. intros _.
      rewrite existsb_app. cbn. now rewrite orb_true_r.
  - assert (Herr : exists e', e = Exc e').
    { pose proof (errors_only_for_each (discover env args) (dispatch env)
                    (errors_only_dispatch env) []) as Hno.
      unfold errors_only in Hno. rewrite Hloop in Hno. cbn [outcome snd] in Hno.
      destruct e as [code|e']; [now destruct (Hno code)|now exists e']. }
    destruct Herr as [e' ->].
    pose proof (trace_for_each_dispatch env (discover env args) []) as Hquiet.
    rewrite Hloop in Hquiet. cbn [trace fst] in Hquiet.
    rewrite Hstart. cbn [bind outcome trace fst snd exit_status].
    split; [|split; [|now right]].
    + split; [discriminate|]. intros [_ Hreturn].
      destruct (for_each_dispatch env (discover env args)
                  (fun f H => dispatch_returns env args f Hplain Hreturn H) [])
        as (t' & new & Hloop' & _).
      rewrite Hloop in Hloop'. discriminate Hloop'.
    + rewrite Hquiet. split; discriminate.
Qed.

Lemma main_accepted env args :
  main_from_command_line env (Accepted args) = main env args.
Proof. unfold main_from_command_line, parse_args. apply bind_ret_l. Qed.

(** X10. How a run ends, for a directory whose listing gives plain names.
    The model service is called exactly when argparse accepts the command
    line, the discovery finds a file and the summarizer of every file found
    returns.  The exit status is 0 in these runs and after the help of
    argparse, and in no other; it is 2 exactly when argparse refuses the
    command line; in every other run it is 1: no file, or an error of a
    parser or of pandas on some file, which ends the run before the model is
    called. *)
Theorem main_exit_status env cmdline :
  plain_names env ->
  (existsb is_chat (trace (main_from_command_line env cmdline)) = true
   <-> exists args,
         cmdline = Accepted args
         /\ discover env args <> []
         /\ summarizers_return env (discover env args))
  /\ (exit_status (outcome (main_from_command_line env cmdline)) = 0%Z
      <-> (exists help, cmdline = Help help)
          \/ exists args,
               cmdline = Accepted args
               /\ discover env args <> []
               /\ summarizers_return env (discover env args))
  /\ (exit_status (outcome (main_from_command_line env cmdline)) = 2%Z
      <-> exists usage_and_error, cmdline = Refused usage_and_error)
  /\ (exit_status (outcome (main_from_command_line env cmdline)) = 0%Z
      \/ exit_status (outcome (main_from_command_line env cmdline)) = 1%Z
      \/ exit_status (outcome (main_from_command_line env cmdline)) = 2%Z).
Proof.
  intros Hplain. destruct cmdline as [args|usage_and_error|help].
  - rewrite main_accepted.
    destruct (main_exit_status_parsed env args Hplain) as (Hzero & Hchat & Hstatus).
    split; [|split; [|split]].
    + rewrite <- Hchat, Hzero. split.
      * intros H. now exists args.
      * intros (args' & Heq & H). now injection Heq as <-.
    + rewrite Hzero. split.
      * intros H. right. now exists args.
      * intros [ [help Heq] | (args' & Heq & H) ]; [discriminate|]. now injection Heq as <-.
    + split.
      * intros H. destruct Hstatus as [H'|H']; rewrite H' in H; discriminate.
      * intros [usage_and_error Heq]. discriminate.
    + destruct Hstatus; auto.
  - assert (Hrun : main_from_command_line env (Refused usage_and_error)
                   = ([Print usage_and_error], Raise (SystemExit 2))) by reflexivity.
    rewrite Hrun. cbn [trace outcome fst snd exit_status existsb is_chat orb].
    split; [|split; [|split]].
    + split; [discriminate|]. intros (args & Heq & _). discriminate.
    + split; [discriminate|].
      intros [ [help Heq] | (args & Heq & _) ]; discriminate.
    + split; [|reflexivity]. intros _. now exists usage_and_error.
    + auto.
  - assert (Hrun : main_from_command_line env (Help help)
                   = ([Print help], Raise (SystemExit 0))) by reflexivity.
    rewrite Hrun. cbn [trace outcome fst snd exit_status existsb is_chat orb].
    split; [|split; [|split]].
    + split; [discriminate|]. intros (args & Heq & _). discriminate.
    + split; [|reflexivity]. intros _. left. now exists help.
    + split; [discriminate|]. intros [usage_and_error Heq]. discriminate.
    + auto.
Qed.

Lemma main_exit_status_witness :
  (existsb is_chat
     (trace (main_from_command_line
               (Sample.env Sample.mixed_names (fun _ => Returns hr_frame)
                           (fun _ => Returns Sample.two_point_gpx)
                           (fun _ => Fails Sample.no_such_file) StreamEnd)
               (Accepted default_args))) = true
   <-> exists args,
         Accepted default_args = Accepted args
         /\ discover (Sample.env Sample.mixed_names (fun _ => Returns hr_frame)
                                 (fun _ => Returns Sample.two_point_gpx)
                                 (fun _ => Fails Sample.no_such_file) StreamEnd)
                     args <> []
         /\ summarizers_return
              (Sample.env Sample.mixed_names (fun _ => Returns hr_frame)
                          (fun _ => Returns Sample.two_point_gpx)
                          (fun _ => Fails Sample.no_such_file) StreamEnd)
              (discover (Sample.env Sample.mixed_names (fun _ => Returns hr_frame)
                                    (fun _ => Returns Sample.two_point_gpx)
                                    (fun _ => Fails Sample.no_such_file) StreamEnd)
                        args))
  /\ (exit_status
        (outcome (main_from_command_line
                    (Sample.env Sample.mixed_names (fun _ => Returns hr_frame)
                                (fun _ => Returns Sample.two_point_gpx)
                                (fun _ => Fails Sample.no_such_file) StreamEnd)
                    (Accepted default_args))) = 0%Z
      <-> (exists help, Accepted default_args = Help help)
          \/ exists args,
               Accepted default_args = Accepted args
               /\ discover (Sample.env Sample.mixed_names (fun _ => Returns hr_frame)
                                       (fun _ => Returns Sample.two_point_gpx)
                                       (fun _ => Fails Sample.no_such_file) StreamEnd)
                           args <> []
               /\ summarizers_return
                    (Sample.env Sample.mixed_names (fun _ => Returns hr_frame)
                                (fun _ => Returns Sample.two_point_gpx)
                                (fun _ => Fails Sample.no_such_file) StreamEnd)
                    (discover (Sample.env Sample.mixed_names (fun _ => Returns hr_frame)
                                          (fun _ => Returns Sample.two_point_gpx)
                                          (fun _ => Fails Sample.no_such_file) StreamEnd)
                              args))
  /\ (exit_status
        (outcome (main_from_command_line
                    (Sample.env Sample.mixed_names (fun _ => Returns hr_frame)
                                (fun _ => Returns Sample.two_point_gpx)
                                (fun _ => Fails Sample.no_such_file) StreamEnd)
                    (Accepted default_args))) = 2%Z
      <-> exists usage_and_error, Accepted default_args = Refused usage_and_error)
  /\ (exit_status
        (outcome (main_from_command_line
                    (Sample.env Sample.mixed_names (fun _ => Returns hr_frame)
                                (fun _ => Returns Sample.two_point_gpx)
                                (fun _ => Fails Sample.no_such_file) StreamEnd)
                    (Accepted default_args))) = 0%Z
      \/ exit_status
           (outcome (main_from_command_line
                       (Sample.env Sample.mixed_names (fun _ => Returns hr_frame)
                                   (fun _ => Returns Sample.two_point_gpx)
                                   (fun _ => Fails Sample.no_such_file) StreamEnd)
                       (Accepted default_args))) = 1%Z
      \/ exit_status
           (outcome (main_from_command_line
                       (Sample.env Sample.mixed_names (fun _ => Returns hr_frame)
                                   (fun _ => Returns Sample.two_point_gpx)
                                   (fun _ => Fails Sample.no_such_file) StreamEnd)
                       (Accepted default_args))) = 2%Z).
Proof.
  apply (main_exit_status
           (Sample.env Sample.mixed_names (fun _ => Returns hr_frame)
                       (fun _ => Returns Sample.two_point_gpx)
                       (fun _ => Fails Sample.no_such_file) StreamEnd)
           (Accepted default_args)).
  apply plain_names_sample. reflexivity.
Defined.

Example main_refused_command_line :
  main_from_command_line
    (Sample.env Sample.mixed_names (fun _ => Returns hr_frame)
                (fun _ => Returns Sample.two_point_gpx)
                (fun _ => Returns Sample.one_record_fit) StreamEnd)
    (Refused "error: unrecognized arguments: --days 7")
  = ([Print "error: unrecognized arguments: --days 7"], Raise (SystemExit 2)).
Proof. reflexivity. Qed.

Example main_aborts_on_a_broken_file :
  main (Sample.env Sample.mixed_names (fun _ => Returns hr_frame)
                   (fun _ => Returns Sample.two_point_gpx)
                   (fun _ => Fails Sample.no_such_file) StreamEnd)
       default_args
  = ([ReadCsv "/data/hr.csv"; OpenGpx "/data/walk.gpx"; OpenFit "/data/ride.fit"],
     Raise (Exc Sample.no_such_file)).
Proof. reflexivity. Qed.

(** ** What the discovery finds *)

Lemma upto_last_append (c : ascii) (a b : string) :
  string_mem c b = false -> OsPath.upto_last c (a ++ String c b) = a ++ String c "".
Proof.
  intros Hb. induction a as [|x a IH]; cbn.
  - now rewrite Hb, Ascii.eqb_refl.
  - rewrite string_mem_append. cbn. rewrite Ascii.eqb_refl, orb_true_r. now rewrite IH.
Qed.

Lemma all_char_append (c : ascii) (a b : string) :
  OsPath.all_char c (a ++ b) = OsPath.all_char c a && OsPath.all_char c b.
Proof.
  induction a as [|x a IH]; [reflexivity|].
  cbn. now rewrite IH, andb_assoc.
Qed.

Lemma endswith_char_all_char (c : ascii) (s : string) :
  s <> "" -> OsPath.endswith_char c s = false -> OsPath.all_char c s = false.
Proof.
  induction s as [|x s IH]; [congruence|]. intros _ Hend.
  destruct s as [|y s].
  - cbn in *. now rewrite Hend.
  - change (OsPath.all_char c (String x (String y s)))
      with (Ascii.eqb x c && OsPath.all_char c (String y s)).
    rewrite IH; [apply andb_false_r|discriminate|exact Hend].
Qed.

Lemma rstrip_append (c : ascii) (s : string) :
  s <> "" -> OsPath.endswith_char c s = false ->
  OsPath.rstrip c (s ++ String c "") = s.
Proof.
  induction s as [|x s IH]; [congruence|]. intros _ Hend.
  change (String x s ++ String c "") with (String x (s ++ String c "")).
  cbn [OsPath.rstrip].
  assert (Hall : OsPath.all_char c (String x (s ++ String c "")) = false).
  { change (String x (s ++ String c "")) with (String x s ++ String c "").
    rewrite all_char_append, endswith_char_all_char; [reflexivity|discriminate|exact Hend]. }
  rewrite Hall. f_equal.
  destruct s as [|y s].
  - cbn. now rewrite Ascii.eqb_refl.
  - apply IH; [discriminate|exact Hend].
Qed.

(** [os.path.split] undoes [os.path.join] on a directory path without a
    trailing slash (or made of slashes only) and a name without a slash. *)
Lemma split_join (d name : string) :
  d <> "" ->
  OsPath.endswith_char "/" d = false \/ OsPath.all_char "/" d = true ->
  string_mem "/" name = false ->
  OsPath.split (OsPath.join d name) = (d, name).
Proof.
  intros Hd Hnormal Hname.
  destruct (join_plain_name d name Hname) as [_ Hbase].
  unfold OsPath.split. fold (OsPath.basename (OsPath.join d name)). rewrite Hbase.
  f_equal. unfold OsPath.join.
  destruct (OsPath.startswith "/" name) eqn:Hstart.
  { apply prefix_slash in Hstart. congruence. }
  destruct (String.eqb_spec d "") as [->|_]; [congruence|]. cbn [orb].
  destruct (OsPath.endswith_char "/" d) eqn:Hend.
  - destruct Hnormal as [Hnormal|Hall]; [discriminate|].
    apply endswith_char_split in Hend. destruct Hend as [d' Hd'].
    rewrite Hd', append_assoc. cbn [append]. rewrite upto_last_append by assumption.
    rewrite <- Hd', Hall. cbn [negb andb].
    now destruct (negb (String.eqb d "")).
  - change (d ++ "/" ++ name) with (d ++ String "/" name).
    rewrite upto_last_append by assumption.
    assert (Hall : OsPath.all_char "/" (d ++ "/") = false).
    { rewrite all_char_append, endswith_char_all_char; auto. }
    rewrite Hall. cbn [negb andb].
    destruct (String.eqb_spec (d ++ "/") "") as [Heq|_].
    + destruct d; discriminate.
    + cbn [negb andb]. now apply rstrip_append.
Qed.

Lemma fnmatchcase_suffix (suffix name : string) :
  string_mem "*" suffix = false -> string_mem "?" suffix = false ->
  OsPath.fnmatchcase name (String "*" suffix) = true <-> ends_with suffix name.
Proof.
  intros Hstar Hquestion. split; [now apply fnmatchcase_star|].
  intros [stem ->]. unfold OsPath.fnmatchcase. cbn [OsPath.fnmatchcase_pat].
  induction stem as [|c stem IH].
  - cbn [append]. destruct suffix as [|a suffix].
    + reflexivity.
    + rewrite fnmatchcase_literal by assumption. now rewrite String.eqb_refl.
  - cbn [append]. rewrite IH. apply orb_true_r.
Qed.

Lemma filter_filter {A} (f g : A -> bool) (xs : list A) :
  filter g (filter f xs) = filter (fun x => f x && g x) xs.
Proof.
  induction xs as [|x xs IH]; [reflexivity|].
  cbn [filter]. destruct (f x); cbn [filter andb]; [|exact IH].
  destruct (g x); now rewrite IH.
Qed.

Lemma glob_listing env d suffix :
  d <> "" ->
  OsPath.endswith_char "/" d = false \/ OsPath.all_char "/" d = true ->
  OsPath.has_magic d = false ->
  string_mem "/" suffix = false ->
  glob_glob env (OsPath.join d (String "*" suffix))
  = map (OsPath.join d)
        (filter (fun n => negb (OsPath.ishidden n)
                          && OsPath.fnmatchcase n (String "*" suffix))
                (listdir env d)).
Proof.
  intros Hd Hnormal Hmagic Hsuffix.
  assert (Hpat : string_mem "/" (String "*" suffix) = false) by (cbn; assumption).
  destruct (join_plain_name d (String "*" suffix) Hpat) as [[before Hjoin] _].
  unfold glob_glob. rewrite (split_join d (String "*" suffix) Hd Hnormal Hpat).
  assert (Hmagic' : OsPath.has_magic (OsPath.join d (String "*" suffix)) = true).
  { unfold OsPath.has_magic. rewrite Hjoin, string_mem_append. cbn.
    now rewrite orb_true_r. }
  rewrite Hmagic', Hmagic. cbn [negb].
  destruct (String.eqb_spec d "") as [->|_]; [congruence|].
  rewrite andb_false_r.
  change (OsPath.has_magic (String "*" suffix)) with true. cbv iota.
  cbn [flat_map]. rewrite List.app_nil_r. unfold glob1.
  change (OsPath.ishidden (String "*" suffix)) with false. cbn [negb].
  now rewrite filter_filter.
Qed.

(** X11. For a directory path without wildcard characters (and, as
    [os.path.abspath] gives it, without a trailing slash), the discovery
    gives the paths of the names of the directory that do not start with a
    dot and end in .csv, then those that end in .gpx, then those that end in
    .fit, each group in the order of the listing, each name joined to the
    directory.  The ending is compared as it is written: a name in .CSV is
    not found. *)
Theorem discover_listing env args :
  abspath env (dir args) <> "" ->
  OsPath.endswith_char "/" (abspath env (dir args)) = false
  \/ OsPath.all_char "/" (abspath env (dir args)) = true ->
  OsPath.has_magic (abspath env (dir args)) = false ->
  discover env args
  = flat_map
      (fun pattern =>
         map (OsPath.join (abspath env (dir args)))
             (filter (fun n => negb (OsPath.ishidden n) && OsPath.fnmatchcase n pattern)
                     (listdir env (abspath env (dir args)))))
      ["*.csv"; "*.gpx"; "*.fit"]
  /\ forall name,
       (OsPath.fnmatchcase name "*.csv" = true <-> ends_with ".csv" name)
       /\ (OsPath.fnmatchcase name "*.gpx" = true <-> ends_with ".gpx" name)
       /\ (OsPath.fnmatchcase name "*.fit" = true <-> ends_with ".fit" name).
Proof.
  intros Hd Hnormal Hmagic. split.
  - unfold discover. cbn [flat_map].
    rewrite !(glob_listing env _ _ Hd Hnormal Hmagic) by reflexivity. reflexivity.
  - intros name. repeat split; try (apply fnmatchcase_star; reflexivity);
      apply fnmatchcase_suffix; reflexivity.
Qed.

Lemma discover_listing_witness :
  discover (Sample.env Sample.mixed_names Sample.no_csv Sample.no_gpx Sample.no_fit StreamEnd)
           default_args
  = ["/data/hr.csv"; "/data/walk.gpx"; "/data/ride.fit"]
  /\ forall name,
       (OsPath.fnmatchcase name "*.csv" = true <-> ends_with ".csv" name)
       /\ (OsPath.fnmatchcase name "*.gpx" = true <-> ends_with ".gpx" name)
       /\ (OsPath.fnmatchcase name "*.fit" = true <-> ends_with ".fit" name).
Proof.
  apply (discover_listing
           (Sample.env Sample.mixed_names Sample.no_csv Sample.no_gpx Sample.no_fit StreamEnd)
           default_args).
  - discriminate.
  - left. reflexivity.
  - reflexivity.
Defined.

(** ** The entries of a tabular summary *)

Lemma csv_stats_loop_keys env df (cols : list string) :
  forall summary summary',
    outcome (for_each cols (csv_column_stats env df) summary) = Ok summary' ->
    (forall k, In k (dict_keys summary') <-> In k (dict_keys summary) \/ In k cols)
    /\ (NoDup (dict_keys summary ++ cols) ->
        dict_keys summary' = (dict_keys summary ++ cols)%list).
Proof.
  induction cols as [|col cols IH]; intros summary summary' Hrun.
  - cbn in Hrun. injection Hrun as <-. split.
    + intros k. cbn. tauto.
    + intros _. now rewrite List.app_nil_r.
  - cbn [for_each] in Hrun. rewrite outcome_bind in Hrun.
    destruct (outcome (csv_column_stats env df summary col)) as [s1|e] eqn:Hcol;
      [|discriminate].
    apply csv_column_stats_inv in Hcol. destruct Hcol as (mean & min & max & _ & ->).
    destruct (IH _ _ Hrun) as [Hin Hkeys]. split.
    + intros k. rewrite Hin, In_dict_keys_set. cbn [In]. intuition.
    + intros Hnodup.
      assert (Hnew : dict_keys (dict_set summary col (stats_entry mean min max))
                     = (dict_keys summary ++ [col])%list).
      { rewrite dict_keys_set.
        destruct (existsb (String.eqb col) (dict_keys summary)) eqn:E; [|reflexivity].
        apply existsb_eqb_In in E. apply NoDup_remove_2 in Hnodup.
        exfalso. apply Hnodup. apply in_or_app. now left. }
      rewrite Hkeys; rewrite Hnew, <- List.app_assoc; [reflexivity|exact Hnodup].
Qed.

(** X12. The entries of a summary that [summarize_csv] returns.  Its keys
    are file, total_records, columns and date_range, the names of the numeric
    columns and sample, each once; when no numeric column has one of these
    five names and no two numeric columns have the same name, the keys come
    in this order, the numeric columns in the order of the table: it is the
    order in which [build_llm_prompt] goes through them.  Under sample are
    the first ten rows, also when a column is named sample; under the name of
    every other numeric column are the mean, minimum and maximum that pandas
    gives for it, also when the name is file, total_records, columns or
    date_range; under each of these four names that no numeric column has is
    the base name, the number of rows, the list of the columns and the date
    range. *)
Theorem summarize_csv_entries env file_path df summary :
  read_csv env file_path = Returns df ->
  outcome (summarize_csv env file_path) = Ok summary ->
  NoDup (dict_keys summary)
  /\ (forall k,
        In k (dict_keys summary)
        <-> In k (["file"; "total_records"; "columns"; "date_range"]
                  ++ numeric_columns df ++ ["sample"])%list)
  /\ (NoDup (["file"; "total_records"; "columns"; "date_range"]
             ++ numeric_columns df ++ ["sample"])%list ->
      dict_keys summary
      = (["file"; "total_records"; "columns"; "date_range"]
         ++ numeric_columns df ++ ["sample"])%list)
  /\ dict_get summary "sample" = Some (PyList (head_records 10 df))
  /\ (forall col,
        In col (numeric_columns df) -> col <> "sample" ->
        exists mean min max,
          numeric_stats env df col mean min max
          /\ dict_get summary col
             = Some (PyDict [("mean", mean); ("min", min); ("max", max)]))
  /\ (exists date_range,
        date_range_of env df date_range
        /\ forall k,
             ~ In k (numeric_columns df) -> k <> "sample" ->
             dict_get summary k
             = dict_get [("file", PyStr (OsPath.basename file_path));
                         ("total_records", PyInt (len_df df));
                         ("columns", PyList (map PyStr (columns df)));
                         ("date_range", PyStr date_range)] k).
Proof.
  intros Hread Hrun.
  destruct (summarize_csv_inv env file_path summary Hrun)
    as (df' & date_range & looped & Hread' & Hdate & Hloop & Hsummary).
  rewrite Hread in Hread'. injection Hread' as <-.
  destruct (csv_stats_loop_keys env df _ _ _ Hloop) as [Hin Hkeys].
  change (dict_keys (csv_fixed_fields file_path df date_range))
    with ["file"; "total_records"; "columns"; "date_range"] in Hin, Hkeys.
  assert (Hstats : numeric_stats_return env df).
  { apply (csv_stats_loop_inv env df (fun _ => True) (numeric_columns df)
             (fun _ _ _ _ _ _ => I) _ _ Hloop I). }
  destruct (summarize_csv_returns env file_path df date_range Hread Hdate Hstats)
    as (summary0 & Hrun0 & Hsample & Hfixed & Hcol).
  rewrite Hrun0 in Hrun. cbn [outcome snd] in Hrun. injection Hrun as ->.
  split; [|split; [|split; [|split; [|split]]]].
  - rewrite Hsummary. apply NoDup_dict_set.
    refine (proj1 (csv_stats_loop_inv env df (fun d => NoDup (dict_keys d)) _
                     (fun d col mean min max H => NoDup_dict_set d col _ H) _ _ Hloop _)).
    cbn. repeat constructor; cbn; intuition discriminate.
  - intros k. rewrite Hsummary, In_dict_keys_set, Hin, !in_app_iff. cbn [In]. intuition.
  - intros Hnodup. rewrite List.app_assoc in Hnodup |- *.
    assert (Hfront : NoDup (["file"; "total_records"; "columns"; "date_range"]
                            ++ numeric_columns df)%list).
    { apply NoDup_remove_1 in Hnodup. now rewrite List.app_nil_r in Hnodup. }
    rewrite Hsummary, dict_keys_set, Hkeys by exact Hfront.
    destruct (existsb _ _) eqn:E; [|reflexivity].
    apply existsb_eqb_In in E. apply NoDup_remove_2 in Hnodup.
    rewrite List.app_nil_r in Hnodup. contradiction.
  - exact Hsample.
  - intros col Hcolumn Hne. pose proof Hstats as Hall. unfold numeric_stats_return in Hall.
    rewrite Forall_forall in Hall. destruct (Hall _ Hcolumn) as (mean & min & max & Hty).
    exists mean, min, max. split; [exact Hty|]. now apply Hcol.
  - exists date_range. split; [exact Hdate|].
    intros k Hnot Hne. now apply Hfixed.
Qed.

Lemma summarize_csv_entries_witness :
  exists summary,
    outcome (summarize_csv
               (Sample.env ["hr.csv"] (fun _ => Returns hr_frame) Sample.no_gpx Sample.no_fit
                           StreamEnd)
               "/data/hr.csv") = Ok summary
    /\ dict_keys summary = ["file"; "total_records"; "columns"; "date_range"; "HR"; "sample"]
    /\ dict_get summary "sample"
       = Some (PyList [PyDict [("Date", PyStr "2024-01-01"); ("HR", PyInt 60)];
                       PyDict [("Date", PyStr "2024-01-02"); ("HR", PyInt 70)];
                       PyDict [("Date", PyStr "2024-01-03"); ("HR", PyInt 65)]]).
Proof.
  exists [("file", PyStr "hr.csv"); ("total_records", PyInt 3);
          ("columns", PyList [PyStr "Date"; PyStr "HR"]);
          ("date_range", PyStr "2024-01-01 to 2024-01-03");
          ("HR", PyDict [("mean", PyObj "65.0" "65.0"); ("min", PyInt 60);
                         ("max", PyInt 70)]);
          ("sample",
           PyList [PyDict [("Date", PyStr "2024-01-01"); ("HR", PyInt 60)];
                   PyDict [("Date", PyStr "2024-01-02"); ("HR", PyInt 70)];
                   PyDict [("Date", PyStr "2024-01-03"); ("HR", PyInt 65)]])].
  split; [reflexivity|].
  destruct (summarize_csv_entries
              (Sample.env ["hr.csv"] (fun _ => Returns hr_frame) Sample.no_gpx Sample.no_fit
                          StreamEnd)
              "/data/hr.csv" hr_frame
              [("file", PyStr "hr.csv"); ("total_records", PyInt 3);
               ("columns", PyList [PyStr "Date"; PyStr "HR"]);
               ("date_range", PyStr "2024-01-01 to 2024-01-03");
               ("HR", PyDict [("mean", PyObj "65.0" "65.0"); ("min", PyInt 60);
                              ("max", PyInt 70)]);
               ("sample",
                PyList [PyDict [("Date", PyStr "2024-01-01"); ("HR", PyInt 60)];
                        PyDict [("Date", PyStr "2024-01-02"); ("HR", PyInt 70)];
                        PyDict [("Date", PyStr "2024-01-03"); ("HR", PyInt 65)]])]
              eq_refl eq_refl)
    as (_ & _ & Hkeys & Hsample & _).
  split; [|exact Hsample].
  apply Hkeys. repeat constructor; cbn; intuition discriminate.
Defined.

Example summarize_csv_column_named_file :
  outcome (summarize_csv
             (Sample.env ["t.csv"] (fun _ => Returns (Sample.frame_named "file"))
                         Sample.no_gpx Sample.no_fit StreamEnd)
             "/data/t.csv")
  = Ok [("file", PyDict [("mean", PyObj "7.0" "7.0"); ("min", PyInt 7); ("max", PyInt 7)]);
        ("total_records", PyInt 1);
        ("columns", PyList [PyStr "file"; PyStr "B"; PyStr "Date"]);
        ("date_range", PyStr "2024-01-01 to 2024-01-01");
        ("sample", PyList [PyDict [("file", PyInt 7); ("B", PyStr "x");
                                   ("Date", PyStr "2024-01-01")]])].
Proof. reflexivity. Qed.

(** ** How [main] fails *)

(** Past the discovery, [main] ends as its loop over the files does. *)
Lemma main_outcome env args :
  plain_names env ->
  discover env args <> [] ->
  outcome (main env args)
  = match outcome (for_each (discover env args) (dispatch env) []) with
    | Ok _ => Ok tt
    | Raise e => Raise e
    end.
Proof.
  intros Hplain Hne.
  assert (Hstart : main env args
                   = (summaries <- for_each (discover env args) (dispatch env) [] ;;
                      (if negb (nonempty summaries) then
                         emit (Print ("No supported files to summarize." ++ nl)) ;;;
                         raise (SystemExit 1)
                       else ret tt) ;;;
                      prompt_and_query env args summaries)).
  { unfold main. destruct (discover env args) as [|f0 files0]; [congruence|].
    cbn [nonempty negb]. now rewrite bind_ret_l. }
  rewrite Hstart, outcome_bind.
  pose proof (fun f => dispatch_summarizer env args f Hplain) as Hdispatch.
  destruct (for_each (discover env args) (dispatch env) []) as [t [summaries|e]] eqn:Hloop;
    [|reflexivity].
  destruct (for_each_dispatch_inv env _ Hdispatch _ _ _ Hloop) as (new & Hout & Hall).
  cbn [app] in Hout. subst new. cbn [outcome snd].
  assert (Hnonempty : nonempty summaries = true).
  { destruct Hall; [congruence|reflexivity]. }
  assert (Hrender : Forall (summarized env) summaries).
  { clear -Hall. induction Hall; constructor; eauto using summary_of_summarized. }
  destruct (build_llm_prompt_summarized env summaries (query args) Hrender)
    as [prompt Hprompt].
  rewrite Hnonempty. cbn [negb]. rewrite bind_ret_l.
  unfold prompt_and_query. rewrite Hprompt, bind_ret_l, outcome_bind.
  now rewrite outcome_query_ollama.
Qed.

Ltac other_extension :=
  match goal with
  | H : ends_with ?a ?f, H' : ends_with ?b ?f |- _ =>
      let Heq := fresh in
      pose proof (ends_with_unique a b f H H' eq_refl) as Heq; discriminate Heq
  end.

(** On a discovered file, the loop body raises what the summarizer for the
    file's extension raises, and returns when it returns. *)
Lemma dispatch_raises env args f :
  plain_names env ->
  In f (discover env args) ->
  forall acc e, outcome (dispatch env acc f) = Raise e <-> summarizer_raises env f e.
Proof.
  intros Hplain Hin acc e. unfold summarizer_raises.
  destruct (dispatch_discovered env args f Hplain Hin)
    as [ [Hext H] | [ [Hext H] | [Hext H] ] ];
    rewrite H, outcome_bind; split.
  - destruct (outcome (summarize_csv env f)); [discriminate|]. intros Heq. injection Heq as ->. left.
    split; [assumption|reflexivity].
  - intros [ [_ Hr] | [ [Hext' Hr] | [Hext' Hr] ] ]; try other_extension. now rewrite Hr.
  - destruct (outcome (summarize_gpx env f)); [discriminate|]. intros Heq. injection Heq as ->. right. left.
    split; [assumption|reflexivity].
  - intros [ [Hext' Hr] | [ [_ Hr] | [Hext' Hr] ] ]; try other_extension. now rewrite Hr.
  - destruct (outcome (summarize_fit env f)); [discriminate|]. intros Heq. injection Heq as ->. right. right.
    split; [assumption|reflexivity].
  - intros [ [Hext' Hr] | [ [Hext' Hr] | [_ Hr] ] ]; try other_extension. now rewrite Hr.
Qed.

Lemma dispatch_ok env args f :
  plain_names env ->
  In f (discover env args) ->
  forall acc,
    (exists out, outcome (dispatch env acc f) = Ok out)
    <-> (ends_with ".csv" f -> exists s, outcome (summarize_csv env f) = Ok s)
        /\ (ends_with ".gpx" f -> exists s, outcome (summarize_gpx env f) = Ok s)
        /\ (ends_with ".fit" f -> exists s, outcome (summarize_fit env f) = Ok s).
Proof.
  intros Hplain Hin acc.
  destruct (dispatch_discovered env args f Hplain Hin)
    as [ [Hext H] | [ [Hext H] | [Hext H] ] ];
    rewrite H, outcome_bind; split.
  - intros [out Hout]. destruct (outcome (summarize_csv env f)) as [s|e]; [|discriminate].
    repeat split; intros Hext'; try other_extension. now exists s.
  - intros (Hcsv & _ & _). destruct (Hcsv Hext) as [s ->]. eexists. reflexivity.
  - intros [out Hout]. destruct (outcome (summarize_gpx env f)) as [s|e]; [|discriminate].
    repeat split; intros Hext'; try other_extension. now exists s.
  - intros (_ & Hgpx & _). destruct (Hgpx Hext) as [s ->]. eexists. reflexivity.
  - intros [out Hout]. destruct (outcome (summarize_fit env f)) as [s|e]; [|discriminate].
    repeat split; intros Hext'; try other_extension. now exists s.
  - intros (_ & _ & Hfit). destruct (Hfit Hext) as [s ->]. eexists. reflexivity.
Qed.

(** A loop over discovered files raises exactly what the summarizer of the
    first file raises on which a summarizer does not return. *)
Lemma for_each_dispatch_raise env args (files : list string) :
  plain_names env ->
  incl files (discover env args) ->
  forall acc e,
    outcome (for_each files (dispatch env) acc) = Raise e
    <-> exists before f after,
          files = (before ++ f :: after)%list
          /\ summarizers_return env before
          /\ summarizer_raises env f e.
Proof.
  intros Hplain. induction files as [|f files IH]; intros Hincl acc e.
  - split; [discriminate|]. intros (before & g & after & Heq & _).
    now destruct before.
  - assert (Hf : In f (discover env args)) by (apply Hincl; now left).
    assert (Hincl' : incl files (discover env args))
      by (intros g Hg; apply Hincl; now right).
    cbn [for_each]. rewrite outcome_bind. split.
    + destruct (outcome (dispatch env acc f)) as [out|e0] eqn:Hd.
      * intros Hrun. apply (IH Hincl') in Hrun.
        destruct Hrun as (before & g & after & -> & Hret & Hraise).
        exists (f :: before), g, after. split; [reflexivity|]. split; [|assumption].
        intros h [ <- | Hh ]; [|now apply Hret].
        apply (dispatch_ok env args f Hplain Hf acc). now exists out.
      * intros Heq. injection Heq as ->. exists [], f, files.
        split; [reflexivity|]. split; [intros h []|].
        now apply (dispatch_raises env args f Hplain Hf acc e).
    + intros (before & g & after & Heq & Hret & Hraise).
      destruct before as [|b before]; cbn [app] in Heq; injection Heq as <- ->.
      * apply (dispatch_raises env args f Hplain Hf acc e) in Hraise. now rewrite Hraise.
      * destruct (proj2 (dispatch_ok env args f Hplain Hf acc) (Hret f (or_introl eq_refl)))
          as [out ->].
        apply (IH Hincl'). exists before, g, after.
        split; [reflexivity|]. split; [|assumption].
        intros h Hh. apply Hret. now right.
Qed.

(** Once the command line is parsed, [main] calls [sys.exit] only for the
    directory without a file, and otherwise fails with what the first
    failing summarizer raised. *)
Lemma main_failures_parsed env args :
  plain_names env ->
  (forall code,
     outcome (main env args) = Raise (SystemExit code)
     <-> discover env args = [] /\ code = 1%Z)
  /\ (forall e,
        outcome (main env args) = Raise (Exc e)
        <-> exists before f after,
              discover env args = (before ++ f :: after)%list
              /\ summarizers_return env before
              /\ summarizer_raises env f (Exc e)).
Proof.
  intros Hplain.
  destruct (discover env args) as [|f0 files0] eqn:Hfiles.
  { assert (Hmain : exists text, main env args = ([Print text], Raise (SystemExit 1))).
    { unfold main. rewrite Hfiles. eexists. reflexivity. }
    destruct Hmain as [text ->]. cbn [outcome snd]. split.
    - intros code. split.
      + intros H. injection H as <-. now split.
      + intros [_ ->]. reflexivity.
    - intros e. split; [discriminate|]. intros (before & f & after & Heq & _).
      now destruct before. }
  rewrite <- Hfiles.
  assert (Hne : discover env args <> []) by (rewrite Hfiles; discriminate).
  rewrite (main_outcome env args Hplain Hne).
  pose proof (errors_only_for_each (discover env args) (dispatch env)
                (errors_only_dispatch env) []) as Hno.
  unfold errors_only in Hno.
  pose proof (for_each_dispatch_raise env args (discover env args) Hplain
                (incl_refl _) []) as Hraise.
  split.
  - intros code. split.
    + intros H. destruct (outcome (for_each _ _ _)) as [s|e]; [discriminate|].
      injection H as ->. now destruct (Hno code).
    + now intros [H _].
  - intros e. rewrite <- Hraise.
    destruct (outcome (for_each (discover env args) (dispatch env) [])) as [s|e0];
      split; try discriminate; intros H; injection H as ->; reflexivity.
Qed.

(** X13. How [main] fails, for a directory whose listing gives plain names.
    [main] leaves through [sys.exit] in three cases only: argparse refuses
    the command line (status 2), argparse is asked for its help (status 0),
    or the command line is accepted and the discovery finds no file
    (status 1).  The second exit of the code, for files found and no summary
    made, is never taken: every file the patterns find has one of the three
    extensions, and a summarizer that returns gives a summary.  [main] ends
    with an exception exactly when the command line is accepted, the
    summarizer for the extension of some file found raises that exception on
    it, and the summarizers of all the files found before that one return:
    nothing catches it. *)
Theorem main_failures env cmdline :
  plain_names env ->
  (forall code,
     outcome (main_from_command_line env cmdline) = Raise (SystemExit code)
     <-> (code = 2%Z /\ exists usage_and_error, cmdline = Refused usage_and_error)
         \/ (code = 0%Z /\ exists help, cmdline = Help help)
         \/ (code = 1%Z /\ exists args, cmdline = Accepted args /\ discover env args = []))
  /\ (forall e,
        outcome (main_from_command_line env cmdline) = Raise (Exc e)
        <-> exists args before f after,
              cmdline = Accepted args
              /\ discover env args = (before ++ f :: after)%list
              /\ summarizers_return env before
              /\ ((ends_with ".csv" f /\ outcome (summarize_csv env f) = Raise (Exc e))
                  \/ (ends_with ".gpx" f /\ outcome (summarize_gpx env f) = Raise (Exc e))
                  \/ (ends_with ".fit" f /\ outcome (summarize_fit env f) = Raise (Exc e)))).
Proof.
  intros Hplain. destruct cmdline as [args|usage_and_error|help].
  - rewrite main_accepted.
    destruct (main_failures_parsed env args Hplain) as [Hexit Hexc]. split.
    + intros code. rewrite Hexit. split.
      * intros [Hnone ->]. right. right. split; [reflexivity|]. now exists args.
      * intros [ [_ [u Heq] ] | [ [_ [h Heq] ] | [-> (args' & Heq & Hnone)] ] ];
          try discriminate.
        injection Heq as <-. now split.
    + intros e. rewrite Hexc. split.
      * intros (before & f & after & H). now exists args, before, f, after.
      * intros (args' & before & f & after & Heq & H). injection Heq as <-.
        now exists before, f, after.
  - assert (Hrun : main_from_command_line env (Refused usage_and_error)
                   = ([Print usage_and_error], Raise (SystemExit 2))) by reflexivity.
    rewrite Hrun. cbn [outcome snd]. split.
    + intros code. split.
      * intros H. injection H as <-. left. split; [reflexivity|]. now exists usage_and_error.
      * intros [ [-> _] | [ [_ [h Heq] ] | [_ (args & Heq & _)] ] ];
          [reflexivity|discriminate|discriminate].
    + intros e. split; [discriminate|]. intros (args & before & f & after & Heq & _).
      discriminate.
  - assert (Hrun : main_from_command_line env (Help help)
                   = ([Print help], Raise (SystemExit 0))) by reflexivity.
    rewrite Hrun. cbn [outcome snd]. split.
    + intros code. split.
      * intros H. injection H as <-. right. left. split; [reflexivity|]. now exists help.
      * intros [ [_ [u Heq] ] | [ [-> _] | [_ (args & Heq & _)] ] ];
          [discriminate|reflexivity|discriminate].
    + intros e. split; [discriminate|]. intros (args & before & f & after & Heq & _).
      discriminate.
Qed.

Lemma main_failures_witness :
  outcome (main_from_command_line
             (Sample.env Sample.mixed_names (fun _ => Returns hr_frame)
                         (fun _ => Returns Sample.two_point_gpx)
                         (fun _ => Fails Sample.no_such_file) StreamEnd)
             (Accepted default_args)) = Raise (Exc Sample.no_such_file)
  <-> exists args before f after,
        Accepted default_args = Accepted args
        /\ discover (Sample.env Sample.mixed_names (fun _ => Returns hr_frame)
                                (fun _ => Returns Sample.two_point_gpx)
                                (fun _ => Fails Sample.no_such_file) StreamEnd)
                    args = (before ++ f :: after)%list
        /\ summarizers_return
             (Sample.env Sample.mixed_names (fun _ => Returns hr_frame)
                         (fun _ => Returns Sample.two_point_gpx)
                         (fun _ => Fails Sample.no_such_file) StreamEnd)
             before
        /\ ((ends_with ".csv" f
             /\ outcome (summarize_csv
                           (Sample.env Sample.mixed_names (fun _ => Returns hr_frame)
                                       (fun _ => Returns Sample.two_point_gpx)
                                       (fun _ => Fails Sample.no_such_file) StreamEnd)
                           f) = Raise (Exc Sample.no_such_file))
            \/ (ends_with ".gpx" f
                /\ outcome (summarize_gpx
                              (Sample.env Sample.mixed_names (fun _ => Returns hr_frame)
                                          (fun _ => Returns Sample.two_point_gpx)
                                          (fun _ => Fails Sample.no_such_file) StreamEnd)
                              f) = Raise (Exc Sample.no_such_file))
            \/ (ends_with ".fit" f
                /\ outcome (summarize_fit
                              (Sample.env Sample.mixed_names (fun _ => Returns hr_frame)
                                          (fun _ => Returns Sample.two_point_gpx)
                                          (fun _ => Fails Sample.no_such_file) StreamEnd)
                              f) = Raise (Exc Sample.no_such_file))).
Proof.
  apply (proj2 (main_failures
                  (Sample.env Sample.mixed_names (fun _ => Returns hr_frame)
                              (fun _ => Returns Sample.two_point_gpx)
                              (fun _ => Fails Sample.no_such_file) StreamEnd)
                  (Accepted default_args)
                  (plain_names_sample Sample.mixed_names (fun _ => Returns hr_frame)
                                      (fun _ => Returns Sample.two_point_gpx)
                                      (fun _ => Fails Sample.no_such_file) StreamEnd
                                      eq_refl))
               Sample.no_such_file).
Defined.
